(** * ForensicSense: evidence sealing, audit chain, port scanner, OSINT
      aggregation and the profiling pipeline, embedded from the Python
      sources and checked against the written specification. *)

From Stdlib Require Import ZArith List String Ascii Bool Lia DecimalString.
From stdpp Require Import base list strings gmap sorting.

Set Warnings "-register-all,-clear-no-such-hyp".
Local Open Scope string_scope.
Local Open Scope list_scope.

(** ** Python values, exceptions and results *)

Module Py.

(** The Python objects the modelled code handles.  A [str] is a sequence of
    code points below 256 (one [ascii] each); a [dict] has [str] keys and
    keeps insertion order; [VOther] stands for any object [json] cannot
    encode (a [set], [bytes], a [Path], ...), named by its type. *)
Inductive value : Type :=
| VNone
| VBool (b : bool)
| VInt (z : Z)
| VStr (s : string)
| VList (l : list value)
| VTuple (l : list value)
| VDict (d : list (string * value))
| VOther (type_name : string).

(** Exception classes raised or caught in the modelled code.  All of them
    derive from [Exception]. *)
Inductive exn_class :=
| KeyError | TypeError | AttributeError | IndexError | ValueError
| JSONDecodeError | AsyncioTimeoutError | ConnectionRefusedError
| ConnectionResetError | OSError | RuntimeError.

Record exn := Exn { exn_cls : exn_class; exn_msg : string }.

(** [str(e)] *)
Definition str_exn (e : exn) : string := exn_msg e.

Inductive result (A : Type) :=
| Ok (a : A)
| Raise (e : exn).
Arguments Ok {A} a.
Arguments Raise {A} e.

Definition bind {A B} (m : result A) (k : A -> result B) : result B :=
  match m with
  | Ok a => k a
  | Raise e => Raise e
  end.

(** [try: m  except Exception as e: h e] *)
Definition try_except {A} (m : result A) (h : exn -> result A) : result A :=
  match m with
  | Ok a => Ok a
  | Raise e => h e
  end.

(** Dictionary access on the insertion-ordered representation. *)
Fixpoint dict_lookup (k : string) (d : list (string * value)) : option value :=
  match d with
  | [] => None
  | (k', v) :: d' => if String.eqb k k' then Some v else dict_lookup k d'
  end.

(** [d[k] = v]: overwrite in place, or append a new key at the end. *)
Fixpoint dict_set (k : string) (v : value) (d : list (string * value))
  : list (string * value) :=
  match d with
  | [] => [(k, v)]
  | (k', v') :: d' =>
      if String.eqb k k' then (k, v) :: d' else (k', v') :: dict_set k v d'
  end.

(** The dictionary without key [k] (what is left after [d.pop(k)]). *)
Fixpoint dict_remove (k : string) (d : list (string * value))
  : list (string * value) :=
  match d with
  | [] => []
  | (k', v') :: d' =>
      if String.eqb k k' then dict_remove k d' else (k', v') :: dict_remove k d'
  end.

(** Truth value of an object ([if x:], [x or y]). *)
Definition truthy (v : value) : bool :=
  match v with
  | VNone => false
  | VBool b => b
  | VInt z => negb (Z.eqb z 0)
  | VStr s => negb (String.eqb s "")
  | VList l | VTuple l => match l with [] => false | _ => true end
  | VDict d => match d with [] => false | _ => true end
  | VOther _ => true
  end.

(** [type(v).__name__], used in error messages. *)
Definition type_name (v : value) : string :=
  match v with
  | VNone => "NoneType"
  | VBool _ => "bool"
  | VInt _ => "int"
  | VStr _ => "str"
  | VList _ => "list"
  | VTuple _ => "tuple"
  | VDict _ => "dict"
  | VOther n => n
  end.

(** [v.get(k, default)]: only a dict has the method. *)
Definition get (v : value) (k : string) (default : value) : result value :=
  match v with
  | VDict d => Ok (match dict_lookup k d with Some x => x | None => default end)
  | _ => Raise (Exn AttributeError
                  ("'" ++ type_name v ++ "' object has no attribute 'get'"))
  end.

(** [v[k]] with a string subscript. *)
Definition getitem (v : value) (k : string) : result value :=
  match v with
  | VDict d => match dict_lookup k d with
               | Some x => Ok x
               | None => Raise (Exn KeyError ("'" ++ k ++ "'"))
               end
  | VList _ | VTuple _ =>
      Raise (Exn TypeError
               (type_name v ++ " indices must be integers or slices, not str"))
  | VStr _ => Raise (Exn TypeError "string indices must be integers, not 'str'")
  | _ => Raise (Exn TypeError
                  ("'" ++ type_name v ++ "' object is not subscriptable"))
  end.

(** What one call reads from [datetime.utcnow()]. *)
Record clock := Clock {
  utcnow_isoformat : string;      (* datetime.utcnow().isoformat() *)
  utcnow_stamp : string           (* datetime.utcnow().strftime('%Y%m%d_%H%M%S') *)
}.

(** [str.isspace] on one code point below 256. *)
Definition is_space (c : ascii) : bool :=
  let n := nat_of_ascii c in
  (Nat.leb 9 n && Nat.leb n 13) || (Nat.leb 28 n && Nat.leb n 32)
  || Nat.eqb n 133 || Nat.eqb n 160.

Fixpoint lstrip (s : string) : string :=
  match s with
  | EmptyString => EmptyString
  | String c r => if is_space c then lstrip r else s
  end.

Fixpoint rev_onto (s acc : string) : string :=
  match s with
  | EmptyString => acc
  | String c r => rev_onto r (String c acc)
  end.

Definition rstrip (s : string) : string :=
  rev_onto (lstrip (rev_onto s EmptyString)) EmptyString.

(** [s.strip()] *)
Definition strip (s : string) : string := rstrip (lstrip s).

(** [s * n] *)
Fixpoint str_times (s : string) (n : nat) : string :=
  match n with
  | O => EmptyString
  | S n' => (s ++ str_times s n')%string
  end.

(** [calculated == x] for a [str] on the left: equal only to the same [str]. *)
Definition str_eq_value (s : string) (x : value) : bool :=
  match x with
  | VStr s' => String.eqb s s'
  | _ => false
  end.

(** [needle in hay] for two strings. *)
Fixpoint contains (needle hay : string) : bool :=
  String.prefix needle hay ||
  match hay with
  | EmptyString => false
  | String _ rest => contains needle rest
  end.

(** [s in v] for a [str] on the left: substring of a [str], member of a list
    or tuple, key of a dict; [TypeError] on what cannot be searched. *)
Definition str_in (s : string) (v : value) : result bool :=
  match v with
  | VStr hay => Ok (contains s hay)
  | VList l | VTuple l => Ok (existsb (str_eq_value s) l)
  | VDict d => Ok (match dict_lookup s d with Some _ => true | None => false end)
  | _ => Raise (Exn TypeError
                  ("argument of type '" ++ type_name v ++ "' is not iterable"))
  end.

(** The items [for x in v] runs over. *)
Definition iterate (v : value) : result (list value) :=
  match v with
  | VList l | VTuple l => Ok l
  | VDict d => Ok (map (fun kv => VStr (fst kv)) d)
  | VStr s => Ok (map (fun c => VStr (String c EmptyString)) (list_ascii_of_string s))
  | _ => Raise (Exn TypeError ("'" ++ type_name v ++ "' object is not iterable"))
  end.

(** [v[1:]] *)
Definition slice_from_1 (v : value) : result value :=
  match v with
  | VList l => Ok (VList (tl l))
  | VTuple l => Ok (VTuple (tl l))
  | VStr s => Ok (VStr (match s with EmptyString => EmptyString | String _ r => r end))
  | VDict _ => Raise (Exn TypeError "unhashable type: 'slice'")
  | _ => Raise (Exn TypeError
                  ("'" ++ type_name v ++ "' object is not subscriptable"))
  end.

(** [v[0]] *)
Definition index_0 (v : value) : result value :=
  match v with
  | VList (x :: _) | VTuple (x :: _) => Ok x
  | VList [] | VTuple [] => Raise (Exn IndexError "index out of range")
  | VStr (String c _) => Ok (VStr (String c EmptyString))
  | VStr EmptyString => Raise (Exn IndexError "string index out of range")
  | VDict _ => Raise (Exn KeyError "0")
  | _ => Raise (Exn TypeError
                  ("'" ++ type_name v ++ "' object is not subscriptable"))
  end.

End Py.
Export Py.

(** ** Induction on Python values *)

Section ValueInduction.
Variable P : value -> Prop.
Hypothesis HNone : P VNone.
Hypothesis HBool : forall b, P (VBool b).
Hypothesis HInt : forall z, P (VInt z).
Hypothesis HStr : forall s, P (VStr s).
Hypothesis HList : forall l, Forall P l -> P (VList l).
Hypothesis HTuple : forall l, Forall P l -> P (VTuple l).
Hypothesis HDict : forall d, Forall (fun kv => P (snd kv)) d -> P (VDict d).
Hypothesis HOther : forall n, P (VOther n).

Fixpoint value_nested_ind (v : value) : P v :=
  match v with
  | VNone => HNone
  | VBool b => HBool b
  | VInt z => HInt z
  | VStr s => HStr s
  | VList l =>
      HList l ((fix go (l : list value) : Forall P l :=
                  match l with
                  | [] => List.Forall_nil P
                  | x :: r => List.Forall_cons P x r (value_nested_ind x) (go r)
                  end) l)
  | VTuple l =>
      HTuple l ((fix go (l : list value) : Forall P l :=
                   match l with
                   | [] => List.Forall_nil P
                   | x :: r => List.Forall_cons P x r (value_nested_ind x) (go r)
                   end) l)
  | VDict d =>
      HDict d ((fix go (d : list (string * value))
                  : Forall (fun kv => P (snd kv)) d :=
                  match d with
                  | [] => List.Forall_nil _
                  | kv :: r =>
                      List.Forall_cons (fun kv => P (snd kv)) kv r
                        (value_nested_ind (snd kv)) (go r)
                  end) d)
  | VOther n => HOther n
  end.
End ValueInduction.

Notation "'let*' x ':=' m 'in' k" := (Py.bind m (fun x => k))
  (at level 10, x pattern, m at level 100, k at level 200).

(** ** SHA-256 (FIPS 180-4), as [hashlib.sha256(...).hexdigest()] *)

Module Sha256.
Local Open Scope Z_scope.

Definition w32 (x : Z) : Z := x mod 2 ^ 32.
Definition add32 (x y : Z) : Z := w32 (x + y).
Definition rotr (n x : Z) : Z :=
  Z.lor (Z.shiftr x n) (w32 (Z.shiftl x (32 - n))).
Definition not32 (x : Z) : Z := 2 ^ 32 - 1 - x.

Definition Ch (x y z : Z) := Z.lxor (Z.land x y) (Z.land (not32 x) z).
Definition Maj (x y z : Z) :=
  Z.lxor (Z.lxor (Z.land x y) (Z.land x z)) (Z.land y z).
Definition bsig0 x := Z.lxor (Z.lxor (rotr 2 x) (rotr 13 x)) (rotr 22 x).
Definition bsig1 x := Z.lxor (Z.lxor (rotr 6 x) (rotr 11 x)) (rotr 25 x).
Definition ssig0 x := Z.lxor (Z.lxor (rotr 7 x) (rotr 18 x)) (Z.shiftr x 3).
Definition ssig1 x := Z.lxor (Z.lxor (rotr 17 x) (rotr 19 x)) (Z.shiftr x 10).

(** The 64 round constants, in decimal: the first 32 bits of the fractional
    parts of the cube roots of the first 64 primes. *)
Definition K256 : list Z :=
  [
    1116352408; 1899447441; 3049323471; 3921009573; 961987163; 1508970993;
    2453635748; 2870763221; 3624381080; 310598401; 607225278; 1426881987;
    1925078388; 2162078206; 2614888103; 3248222580; 3835390401; 4022224774;
    264347078; 604807628; 770255983; 1249150122; 1555081692; 1996064986;
    2554220882; 2821834349; 2952996808; 3210313671; 3336571891; 3584528711;
    113926993; 338241895; 666307205; 773529912; 1294757372; 1396182291;
    1695183700; 1986661051; 2177026350; 2456956037; 2730485921; 2820302411;
    3259730800; 3345764771; 3516065817; 3600352804; 4094571909; 275423344;
    430227734; 506948616; 659060556; 883997877; 958139571; 1322822218;
    1537002063; 1747873779; 1955562222; 2024104815; 2227730452; 2361852424;
    2428436474; 2756734187; 3204031479; 3329325298
  ].

(** Padding: a 1 bit, zeros up to 56 mod 64 bytes, the bit length on 8 bytes. *)
Definition be_bytes (n : nat) (x : Z) : list Z :=
  map (fun i => Z.shiftr x (8 * Z.of_nat i) mod 256) (rev (seq 0 n)).

Definition pad (msg : list Z) : list Z :=
  let len := Z.of_nat (List.length msg) in
  let zeros := Z.to_nat ((55 - len) mod 64) in
  msg ++ [0x80] ++ repeat 0 zeros ++ be_bytes 8 (8 * len).

Fixpoint be_words (fuel : nat) (bs : list Z) : list Z :=
  match fuel, bs with
  | S f, b0 :: b1 :: b2 :: b3 :: rest =>
      (((b0 * 256 + b1) * 256 + b2) * 256 + b3) :: be_words f rest
  | _, _ => []
  end.

(** The message schedule, kept newest word first: [ws] holds W[t-1], W[t-2], ... *)
Fixpoint schedule (n : nat) (ws : list Z) : list Z :=
  match n with
  | O => ws
  | S n' =>
      match ws with
      | w1 :: w2 :: _ :: _ :: _ :: _ :: w7 :: _ :: _ :: _ :: _ :: _ :: _ :: _
           :: w15 :: w16 :: _ =>
          schedule n' (add32 (add32 (ssig1 w2) w7) (add32 (ssig0 w15) w16) :: ws)
      | _ => ws
      end
  end.

Record regs := Regs { ra : Z; rb : Z; rc : Z; rd : Z;
                      re : Z; rf : Z; rg : Z; rh : Z }.

Definition round (s : regs) (kw : Z * Z) : regs :=
  let '(k, w) := kw in
  let t1 := add32 (add32 (add32 (add32 (rh s) (bsig1 (re s)))
                                 (Ch (re s) (rf s) (rg s))) k) w in
  let t2 := add32 (bsig0 (ra s)) (Maj (ra s) (rb s) (rc s)) in
  Regs (add32 t1 t2) (ra s) (rb s) (rc s) (add32 (rd s) t1) (re s) (rf s) (rg s).

(** The initial hash value, in decimal. *)
Definition H_init : regs :=
  Regs 1779033703 3144134277 1013904242 2773480762
       1359893119 2600822924 528734635 1541459225.

Definition compress (h : regs) (block : list Z) : regs :=
  let ws := rev (schedule 48 (rev block)) in
  let s := fold_left round (combine K256 ws) h in
  Regs (add32 (ra h) (ra s)) (add32 (rb h) (rb s))
       (add32 (rc h) (rc s)) (add32 (rd h) (rd s))
       (add32 (re h) (re s)) (add32 (rf h) (rf s))
       (add32 (rg h) (rg s)) (add32 (rh h) (rh s)).

Fixpoint blocks (fuel : nat) (h : regs) (ws : list Z) : regs :=
  match fuel with
  | O => h
  | S f =>
      match ws with
      | [] => h
      | _ => blocks f (compress h (firstn 16 ws)) (skipn 16 ws)
      end
  end.

Definition digest (msg : list Z) : list Z :=
  let ws := be_words (List.length msg + 72) (pad msg) in
  let h := blocks (List.length ws) H_init ws in
  [ra h; rb h; rc h; rd h; re h; rf h; rg h; rh h].

Definition hex_digit (d : Z) : ascii :=
  match d with
  | 0 => "0" | 1 => "1" | 2 => "2" | 3 => "3" | 4 => "4" | 5 => "5"
  | 6 => "6" | 7 => "7" | 8 => "8" | 9 => "9" | 10 => "a" | 11 => "b"
  | 12 => "c" | 13 => "d" | 14 => "e" | _ => "f"
  end%char.

(** [n] lower-case hexadecimal digits of [x], most significant first. *)
Definition hex (n : nat) (x : Z) : string :=
  string_of_list_ascii
    (map (fun i => hex_digit (Z.shiftr x (4 * Z.of_nat i) mod 16)) (rev (seq 0 n))).

Definition bytes_of_string (s : string) : list Z :=
  map (fun c => Z.of_N (N_of_ascii c)) (list_ascii_of_string s).

(** [hashlib.sha256(data).hexdigest()] on the bytes of [s]. *)
Definition hexdigest (s : string) : string :=
  String.concat "" (map (hex 8) (digest (bytes_of_string s))).

End Sha256.

(** ** [json.dumps] *)

Module Json.

Definition dquote : ascii := ascii_of_nat 34.

(** One character of [py_encode_basestring_ascii]: the quote, the backslash
    and everything outside [' '..'~'] are escaped. *)
Definition escape_char (c : ascii) : string :=
  let n := nat_of_ascii c in
  if Nat.eqb n 34 then String "\" (String dquote "")
  else if Nat.eqb n 92 then "\\"
  else if Nat.eqb n 8 then "\b"
  else if Nat.eqb n 12 then "\f"
  else if Nat.eqb n 10 then "\n"
  else if Nat.eqb n 13 then "\r"
  else if Nat.eqb n 9 then "\t"
  else if Nat.ltb n 32 || Nat.ltb 126 n then ("\u" ++ Sha256.hex 4 (Z.of_nat n))%string
  else String c "".

Fixpoint escape (s : string) : string :=
  match s with
  | EmptyString => EmptyString
  | String c r => (escape_char c ++ escape r)%string
  end.

Definition encode_basestring_ascii (s : string) : string :=
  String dquote (escape s ++ String dquote "")%string.

(** [int.__repr__] *)
Definition repr_int (z : Z) : string := NilZero.string_of_int (Z.to_int z).

(** [sorted(dct.items())] on distinct [str] keys: insertion by key. *)
Fixpoint insert_item {A} (kv : string * A) (l : list (string * A))
  : list (string * A) :=
  match l with
  | [] => [kv]
  | kv' :: r =>
      if String.leb (fst kv) (fst kv') then kv :: l else kv' :: insert_item kv r
  end.

Definition sort_items {A} (l : list (string * A)) : list (string * A) :=
  fold_right insert_item [] l.

(** Encode the chunks left to right; the first failure is the one raised. *)
Fixpoint sequence {A} (l : list (result A)) : result (list A) :=
  match l with
  | [] => Ok []
  | r :: rest => let* x := r in let* xs := sequence rest in Ok (x :: xs)
  end.

Definition encode_item (kv : string * result string) : result string :=
  let* s := snd kv in Ok (encode_basestring_ascii (fst kv) ++ ": " ++ s)%string.

(** [json.dumps(v, sort_keys=sort_keys)] with the default separators and
    [ensure_ascii=True].  Lists and tuples both become arrays. *)
Fixpoint dumps (sort_keys : bool) (v : value) : result string :=
  match v with
  | VNone => Ok "null"
  | VBool true => Ok "true"
  | VBool false => Ok "false"
  | VInt z => Ok (repr_int z)
  | VStr s => Ok (encode_basestring_ascii s)
  | VList l | VTuple l =>
      let* chunks := sequence (map (dumps sort_keys) l) in
      Ok ("[" ++ String.concat ", " chunks ++ "]")%string
  | VDict d =>
      let items := map (fun kv => (fst kv, dumps sort_keys (snd kv))) d in
      let items := if sort_keys then sort_items items else items in
      let* chunks := sequence (map encode_item items) in
      Ok ("{" ++ String.concat ", " chunks ++ "}")%string
  | VOther n =>
      Raise (Exn TypeError
               ("Object of type " ++ n ++ " is not JSON serializable")%string)
  end.

(** [str.encode()]: UTF-8 of code points below 256. *)
Definition encode_char (c : ascii) : string :=
  let n := nat_of_ascii c in
  if Nat.ltb n 128 then String c ""
  else String (ascii_of_nat (192 + n / 64))
         (String (ascii_of_nat (128 + n mod 64)) "").

Fixpoint encode (s : string) : string :=
  match s with
  | EmptyString => EmptyString
  | String c r => (encode_char c ++ encode r)%string
  end.

End Json.

(** ** utils/crypto.py: [EvidenceSealer] *)

Module Crypto.

(** An [EvidenceSealer] instance: the algorithm name given to [__init__] and
    the digest [hashlib.new(hash_algorithm)] computes for it. *)
Record EvidenceSealer := Sealer {
  hash_algorithm : string;
  hashlib_hexdigest : string -> string
}.

(** [EvidenceSealer()], as every caller in the repository builds it. *)
Definition default_sealer : EvidenceSealer :=
  Sealer "sha256" Sha256.hexdigest.

Definition _calculate_hash (self : EvidenceSealer) (data : string) : string :=
  hashlib_hexdigest self data.

(** The dictionary [seal_evidence] hashes. *)
Definition evidence_package (timestamp : string) (data metadata : value) : value :=
  VDict [("timestamp", VStr timestamp);
         ("data", data);
         ("metadata", if truthy metadata then metadata else VDict []);
         ("sealer_version", VStr "1.0")].

Definition seal_evidence (self : EvidenceSealer) (now : clock)
    (data metadata : value) : result value :=
  let timestamp := utcnow_isoformat now in
  let evidence := evidence_package timestamp data metadata in
  let* evidence_str := Json.dumps true evidence in
  let evidence_hash := _calculate_hash self (Json.encode evidence_str) in
  Ok (VDict [("evidence", evidence);
             ("seal", VDict [("algorithm", VStr (hash_algorithm self));
                             ("hash", VStr evidence_hash);
                             ("sealed_at", VStr timestamp)])]).

Definition verify_seal (self : EvidenceSealer) (sealed_evidence : value)
  : result bool :=
  try_except
    (let* evidence := getitem sealed_evidence "evidence" in
     let* seal := getitem sealed_evidence "seal" in
     let* evidence_str := Json.dumps true evidence in
     let calculated_hash := _calculate_hash self (Json.encode evidence_str) in
     let* stored := getitem seal "hash" in
     Ok (str_eq_value calculated_hash stored))
    (fun e =>
       match exn_cls e with
       | KeyError | TypeError => Ok false
       | _ => Raise e
       end).

(** The hash field of a sealed package. *)
Definition seal_hash (sealed : value) : result value :=
  let* seal := getitem sealed "seal" in getitem seal "hash".

(** [load_sealed_evidence(filepath)]; [loaded] is what [open] and [json.load]
    give for the path: the document read, or the exception raised. *)
Definition load_sealed_evidence (self : EvidenceSealer) (loaded : result value)
  : result value :=
  let* sealed := loaded in
  let* verified := verify_seal self sealed in
  if negb verified then
    Raise (Exn ValueError
             "Evidence seal verification failed - data may be tampered")
  else Ok sealed.

(** [hash_string(data)] with the default algorithm. *)
Definition hash_string (data : string) : string :=
  Sha256.hexdigest (Json.encode data).

End Crypto.

(** ** utils/logging.py: [AuditLogger] *)

Module Logging.

(** ["0" * 64], the genesis hash. *)
Definition genesis_hash : string := str_times "0" 64.

(** [str(n)] for a line number. *)
Definition str_nat (n : nat) : string := Json.repr_int (Z.of_nat n).

(** An [AuditLogger]: the lines of [audit_file] as iterating over the open
    file yields them ([None] while the file does not exist), and the private
    [_previous_hash]. *)
Record AuditLogger := Logger {
  audit_file : option (list string);
  _previous_hash : string
}.

(** [AuditLogger(audit_file)] on a path that holds [file]. *)
Definition new_logger (file : option (list string)) : AuditLogger :=
  Logger file genesis_hash.

(** [log_action]: returns the logger after the append and the new hash.
    Nothing is written when [json.dumps] raises. *)
Definition log_action (self : AuditLogger) (now : clock)
    (user target action result auth_token : value)
  : Py.result (AuditLogger * string) :=
  let timestamp := utcnow_isoformat now in
  let entry := [("timestamp", VStr timestamp);
                ("user", user);
                ("target", target);
                ("action", action);
                ("result", result);
                ("auth_token", auth_token);
                ("previous_hash", VStr (_previous_hash self))] in
  let* entry_str := Json.dumps true (VDict entry) in
  let current_hash := Sha256.hexdigest (Json.encode entry_str) in
  let entry := dict_set "hash" (VStr current_hash) entry in
  let* line := Json.dumps false (VDict entry) in
  let lines := match audit_file self with Some ls => ls | None => [] end in
  Ok (Logger (Some (lines ++ [(line ++ String (ascii_of_nat 10) "")%string]))
             current_hash,
      current_hash).

(** [entry.pop("hash")]: the value and the dictionary left. *)
Definition pop (entry : value) (k : string)
  : Py.result (value * list (string * value)) :=
  match entry with
  | VDict d => match dict_lookup k d with
               | Some x => Ok (x, dict_remove k d)
               | None => Raise (Exn KeyError ("'" ++ k ++ "'"))
               end
  | _ => Raise (Exn AttributeError
                  ("'" ++ type_name entry ++ "' object has no attribute 'pop'"))
  end.

Section Reader.

(** [json.loads], the decoder of the standard library: [Raise] with class
    [JSONDecodeError] on text that is not JSON. *)
Variable json_loads : string -> Py.result value.

(** What one iteration of the loop does: leave the function with a verdict,
    or go on with the new [previous_hash]. *)
Definition verify_line (previous_hash : string) (line_num : nat) (line : string)
  : Py.result ((bool * string) + string) :=
  try_except
    (let* entry := json_loads (strip line) in
     let* claimed := get entry "previous_hash" VNone in
     if negb (str_eq_value previous_hash claimed) then
       Ok (inl (false, "Hash chain broken at line " ++ str_nat line_num)%string)
     else
       let* popped := pop entry "hash" in
       let '(stored_hash, entry) := popped in
       let* entry_str := Json.dumps true (VDict entry) in
       let calculated_hash := Sha256.hexdigest (Json.encode entry_str) in
       if negb (str_eq_value calculated_hash stored_hash) then
         Ok (inl (false, "Hash mismatch at line " ++ str_nat line_num)%string)
       else
         Ok (inr calculated_hash))
    (fun e =>
       match exn_cls e with
       | JSONDecodeError =>
           Ok (inl (false, "Invalid JSON at line " ++ str_nat line_num)%string)
       | _ => Raise e
       end).

(** The [for line in f] loop; [line_num] counts the lines read so far. *)
Fixpoint verify_lines (lines : list string) (previous_hash : string)
    (line_num : nat) : Py.result (bool * string) :=
  match lines with
  | [] => Ok (true, "Audit log verified: " ++ str_nat line_num ++ " entries")%string
  | line :: rest =>
      let line_num := S line_num in
      let* step := verify_line previous_hash line_num line in
      match step with
      | inl verdict => Ok verdict
      | inr stored_hash => verify_lines rest stored_hash line_num
      end
  end.

Definition verify_integrity (self : AuditLogger) : Py.result (bool * string) :=
  match audit_file self with
  | None => Ok (true, "No audit log found")
  | Some lines => verify_lines lines genesis_hash 0
  end.

(** The property the chain is checked for: every line decodes to an object
    whose [previous_hash] is the hash stored in the line before (the genesis
    hash for the first) and whose [hash] is the SHA-256 of its key-sorted
    serialization without the [hash] entry. *)
Fixpoint chain_valid (previous_hash : string) (lines : list string) : Prop :=
  match lines with
  | [] => True
  | line :: rest =>
      exists d h s,
        json_loads (strip line) = Ok (VDict d) /\
        dict_lookup "previous_hash" d = Some (VStr previous_hash) /\
        dict_lookup "hash" d = Some (VStr h) /\
        Json.dumps true (VDict (dict_remove "hash" d)) = Ok s /\
        h = Sha256.hexdigest (Json.encode s) /\
        chain_valid h rest
  end.

End Reader.

(** [chain_links p lines h]: [lines] is a valid chain starting from [p] whose
    last stored hash is [h]. *)
Fixpoint chain_links (json_loads : string -> Py.result value)
    (previous_hash : string) (lines : list string) (last : string) : Prop :=
  match lines with
  | [] => last = previous_hash
  | line :: rest =>
      exists d h s,
        json_loads (strip line) = Ok (VDict d) /\
        dict_lookup "previous_hash" d = Some (VStr previous_hash) /\
        dict_lookup "hash" d = Some (VStr h) /\
        Json.dumps true (VDict (dict_remove "hash" d)) = Ok s /\
        h = Sha256.hexdigest (Json.encode s) /\
        chain_links json_loads h rest last
  end.

End Logging.

(** ** intel/network_scanner.py: [NetworkScanner] *)

Module NetworkScanner.

(** What the network does to one probe.  After a successful connect the
    banner read hands out bytes (possibly none) or raises (its two-second
    timeout included), and closing the writer returns or raises. *)
Inductive read_outcome :=
| ReadBytes (data : string)
| ReadRaises (e : exn).

Inductive close_outcome :=
| Closed
| CloseRaises (e : exn).

Inductive connect_outcome :=
| Connected (banner : read_outcome) (close : close_outcome)
| ConnectRaises (e : exn).

(** The collaborators a scan talks to.  [open_connection i host port] is the
    outcome of [asyncio.wait_for(asyncio.open_connection(host, port), timeout)]
    for the [i]-th task of the batch; class [AsyncioTimeoutError] is
    [asyncio.TimeoutError]. *)
Record network := Network {
  open_connection : nat -> string -> Z -> connect_outcome;
  getservbyport : Z -> Py.result string;          (* socket.getservbyport *)
  decode_utf8_ignore : string -> string           (* bytes.decode('utf-8', errors='ignore') *)
}.

(** [NetworkScanner(timeout, rate_limit, max_concurrent)]; the semaphore size
    is positive, as [asyncio.Semaphore] needs it to let any probe run. *)
Record NetworkScanner := Scanner {
  timeout : Z;
  rate_limit : bool;
  max_concurrent : positive
}.

Definition common_services (port : Z) : option string :=
  if Z.eqb port 8080 then Some "http-proxy"
  else if Z.eqb port 8443 then Some "https-alt"
  else if Z.eqb port 3306 then Some "mysql"
  else if Z.eqb port 5432 then Some "postgresql"
  else if Z.eqb port 1433 then Some "mssql"
  else if Z.eqb port 3389 then Some "rdp"
  else if Z.eqb port 5900 then Some "vnc"
  else None.

Definition _get_service_name (net : network) (port : Z) : value :=
  match getservbyport net port with
  | Ok name => VStr name
  | Raise _ =>
      match common_services port with
      | Some name => VStr name
      | None => VStr "unknown"
      end
  end.

(** The three [except] clauses of [scan_port], in their order. *)
Definition on_exception (e : exn) (result : list (string * value))
  : list (string * value) :=
  match exn_cls e with
  | AsyncioTimeoutError => dict_set "state" (VStr "filtered") result
  | ConnectionRefusedError => dict_set "state" (VStr "closed") result
  | _ => dict_set "error" (VStr (str_exn e))
           (dict_set "state" (VStr "error") result)
  end.

Definition scan_port (self : NetworkScanner) (net : network) (task : nat)
    (host : string) (port : Z) : value :=
  let result := [("port", VInt port);
                 ("state", VStr "closed");
                 ("service", _get_service_name net port);
                 ("banner", VNone)] in
  match open_connection net task host port with
  | Connected banner close =>
      let result := dict_set "state" (VStr "open") result in
      let result :=
        match banner with
        | ReadBytes banner_data =>
            if negb (String.eqb banner_data "") then
              dict_set "banner"
                (VStr (strip (decode_utf8_ignore net banner_data))) result
            else result
        | ReadRaises _ => result
        end in
      match close with
      | Closed => VDict result
      | CloseRaises e => VDict (on_exception e result)
      end
  | ConnectRaises e => VDict (on_exception e result)
  end.

(** [isinstance(r, dict)] on what [asyncio.gather(..., return_exceptions=True)]
    hands back: a returned value, or the exception a task ended with. *)
Definition is_dict_result (r : Py.result value) : bool :=
  match r with
  | Ok (VDict _) => true
  | _ => false
  end.

Fixpoint returned (rs : list (Py.result value)) : list value :=
  match rs with
  | [] => []
  | Ok v :: rest => v :: returned rest
  | Raise _ :: rest => returned rest
  end.

(** The tasks of one batch, numbered in the order of [ports]; [gather] keeps
    that order. *)
Fixpoint scan_tasks (self : NetworkScanner) (net : network) (host : string)
    (task : nat) (ports : list Z) : list (Py.result value) :=
  match ports with
  | [] => []
  | port :: rest =>
      Ok (scan_port self net task host port)
      :: scan_tasks self net host (S task) rest
  end.

Definition scan_ports (self : NetworkScanner) (net : network) (host : string)
    (ports : list Z) : list value :=
  let results := scan_tasks self net host 0 ports in
  let valid_results := returned (List.filter is_dict_result results) in
  valid_results.

Definition common_ports : list Z :=
  [21; 22; 23; 25; 53; 80; 110; 135; 139; 143; 443; 445;
   993; 995; 1433; 1521; 3306; 3389; 5432; 5900; 8080; 8443]%Z.

Definition quick_scan (self : NetworkScanner) (net : network) (host : string)
  : list value :=
  scan_ports self net host common_ports.

(** [list(range(1, 1025))] *)
Definition all_ports : list Z := map Z.of_nat (seq 1 1024).

Definition full_scan (self : NetworkScanner) (net : network) (host : string)
  : list value :=
  scan_ports self net host all_ports.

(** [[p for p in ports if p["state"] <op> s]] *)
Fixpoint select_state (keep : bool -> bool) (s : string) (ports : list value)
  : Py.result (list value) :=
  match ports with
  | [] => Ok []
  | p :: rest =>
      let* state := getitem p "state" in
      let* tail := select_state keep s rest in
      Ok (if keep (str_eq_value s state) then p :: tail else tail)
  end.

Definition scan_target (self : NetworkScanner) (net : network) (host : string)
    (scan_type : string) : Py.result value :=
  let ports := if String.eqb scan_type "full" then full_scan self net host
               else quick_scan self net host in
  let* not_error := select_state negb "error" ports in
  let* open_ports := select_state id "open" ports in
  let* filtered_ports := select_state id "filtered" ports in
  Ok (VDict [("host", VStr host);
             ("scan_type", VStr scan_type);
             ("total_ports_scanned", VInt (Z.of_nat (List.length not_error)));
             ("open_ports", VList open_ports);
             ("filtered_ports", VList filtered_ports);
             ("all_results", VList ports)]).

(** The state the three [except] clauses give to an exception. *)
Definition state_for (e : exn) : string :=
  match exn_cls e with
  | AsyncioTimeoutError => "filtered"
  | ConnectionRefusedError => "closed"
  | _ => "error"
  end.

(** The state a probe ends in, by what the network did to it. *)
Definition classify (o : connect_outcome) : string :=
  match o with
  | Connected _ Closed => "open"
  | Connected _ (CloseRaises e) => state_for e
  | ConnectRaises e => state_for e
  end.

(** The port and the state recorded in one result. *)
Definition port_of (r : value) : Py.result value := getitem r "port".
Definition state_of (r : value) : Py.result value := getitem r "state".

(** The ports of a batch with the state each probe ends in, in probe
    order; the tasks are numbered from [task]. *)
Fixpoint probe_states (net : network) (host : string) (task : nat)
    (ports : list Z) : list (Z * string) :=
  match ports with
  | [] => []
  | port :: rest =>
      (port, classify (open_connection net task host port))
      :: probe_states net host (S task) rest
  end.

(** The ports of a batch whose state passes [keep], in probe order. *)
Definition ports_where (keep : string -> bool) (probes : list (Z * string))
  : list Z :=
  map fst (List.filter (fun ps => keep (snd ps)) probes).

(** The ports [scan_target] probes for a scan type. *)
Definition scanned_ports (scan_type : string) : list Z :=
  if String.eqb scan_type "full" then all_ports else common_ports.

End NetworkScanner.

(** ** intel/osint.py: [OSINTCollector] *)

Module Osint.

(** A response of [session.get]: its status and what [await response.json()]
    gives. *)
Record http_response := Response {
  status : Z;
  json : Py.result value
}.

(** The object [whois.whois(domain)] returns, by the attributes read. *)
Record whois_answer := Whois {
  w_registrar : value;
  w_creation_date : value;
  w_expiration_date : value;
  w_name_servers : value;
  w_status : value;
  w_text : string                                   (* str(w) *)
}.

(** The outside world of the collector: the WHOIS client, the HTTP client
    (by URL), and [str] on the objects the WHOIS client hands out. *)
Record sources := Sources {
  whois_query : string -> Py.result whois_answer;
  http_get : string -> Py.result http_response;
  str_value : value -> string
}.

Definition or_else (v default : value) : value :=
  if truthy v then v else default.

Definition whois_defaults (domain : string) : list (string * value) :=
  [("domain", VStr domain);
   ("registrar", VNone);
   ("creation_date", VNone);
   ("expiration_date", VNone);
   ("name_servers", VList []);
   ("status", VList []);
   ("raw", VNone)].

Definition collect_whois (src : sources) (domain : string) : value :=
  let result := whois_defaults domain in
  match whois_query src domain with
  | Ok w =>
      let result := dict_set "registrar" (w_registrar w) result in
      let result :=
        dict_set "creation_date"
          (if truthy (w_creation_date w)
           then VStr (str_value src (w_creation_date w)) else VNone) result in
      let result :=
        dict_set "expiration_date"
          (if truthy (w_expiration_date w)
           then VStr (str_value src (w_expiration_date w)) else VNone) result in
      let result :=
        dict_set "name_servers" (or_else (w_name_servers w) (VList [])) result in
      let result := dict_set "status" (or_else (w_status w) (VList [])) result in
      let result := dict_set "raw" (VStr (w_text w)) result in
      VDict result
  | Raise e => VDict (dict_set "error" (VStr (str_exn e)) result)
  end.

Definition crtsh_url (domain : string) : string :=
  "https://crt.sh/?q=%." ++ domain ++ "&output=json".

(** [name.replace('*.', '')]: every occurrence, left to right. *)
Fixpoint remove_wildcards (s : string) : string :=
  match s with
  | EmptyString => EmptyString
  | String c rest =>
      match rest with
      | String c' rest' =>
          if Ascii.eqb c "*" && Ascii.eqb c' "." then remove_wildcards rest'
          else String c (remove_wildcards rest)
      | EmptyString => String c EmptyString
      end
  end.

(** [name.replace('*.', '')] on an object: only a [str] has the method. *)
Definition replace_wildcards (name : value) : Py.result string :=
  match name with
  | VStr s => Ok (remove_wildcards s)
  | _ => Raise (Exn AttributeError
                  ("'" ++ type_name name ++ "' object has no attribute 'replace'"))
  end.

(** The body of [for entry in data]. *)
Definition add_entry (domain : string) (entry : value) (subdomains : gset string)
  : Py.result (gset string) :=
  let* name := get entry "name_value" (VStr "") in
  if truthy name then
    let* found := str_in domain name in
    if found then
      let* name := replace_wildcards name in
      if negb (String.eqb name "") then Ok ({[ strip name ]} ∪ subdomains)
      else Ok subdomains
    else Ok subdomains
  else Ok subdomains.

(** The loop inside the [try]: an exception ends it and leaves the set as
    far as it was built. *)
Fixpoint add_entries (domain : string) (entries : list value)
    (subdomains : gset string) : gset string :=
  match entries with
  | [] => subdomains
  | entry :: rest =>
      match add_entry domain entry subdomains with
      | Ok subdomains' => add_entries domain rest subdomains'
      | Raise _ => subdomains
      end
  end.

(** [sorted(...)] on strings. *)
Fixpoint insert_sorted (s : string) (l : list string) : list string :=
  match l with
  | [] => [s]
  | x :: rest => if String.leb s x then s :: l else x :: insert_sorted s rest
  end.

Definition sorted (l : list string) : list string :=
  fold_right insert_sorted [] l.

(** The set built from the certificate-transparency answer. *)
Definition subdomain_set (src : sources) (domain : string) : gset string :=
  match http_get src (crtsh_url domain) with
  | Ok response =>
      if Z.eqb (status response) 200 then
        match json response with
        | Ok data =>
            match iterate data with
            | Ok entries => add_entries domain entries ∅
            | Raise _ => ∅
            end
        | Raise _ => ∅
        end
      else ∅
  | Raise _ => ∅
  end.

Definition collect_subdomains_passive (src : sources) (domain : string)
  : list string :=
  sorted (elements (subdomain_set src domain)).

Definition wayback_url (domain : string) : string :=
  "http://web.archive.org/cdx/search/cdx?url=" ++ domain
  ++ "/*&output=json&fl=original&collapse=urlkey".

(** [[row[0] for row in rows if row]] *)
Fixpoint first_columns (rows : list value) : Py.result (list value) :=
  match rows with
  | [] => Ok []
  | row :: rest =>
      if truthy row then
        let* url := index_0 row in
        let* urls := first_columns rest in
        Ok (url :: urls)
      else first_columns rest
  end.

Definition collect_wayback_urls (src : sources) (domain : string) : list value :=
  let urls :=
    match http_get src (wayback_url domain) with
    | Ok response =>
        if Z.eqb (status response) 200 then
          match (let* data := json response in
                 let* rows := slice_from_1 data in
                 let* rows := iterate rows in
                 first_columns rows) with
          | Ok urls => urls
          | Raise _ => []
          end
        else []
    | Raise _ => []
    end in
  firstn 100 urls.

(** What [collect_osint] builds from the three results of
    [asyncio.gather(..., return_exceptions=True)]. *)
Definition assemble (target : string) (whois_data : Py.result value)
    (subdomains : Py.result (list string)) (wayback_urls : Py.result (list value))
  : value :=
  VDict [("target", VStr target);
         ("whois", match whois_data with
                   | Ok v => v
                   | Raise e => VDict [("error", VStr (str_exn e))]
                   end);
         ("subdomains", match subdomains with
                        | Ok l => VList (map VStr l)
                        | Raise _ => VList []
                        end);
         ("historical_urls", match wayback_urls with
                             | Ok l => VList l
                             | Raise _ => VList []
                             end);
         ("subdomain_count", match subdomains with
                             | Ok l => VInt (Z.of_nat (List.length l))
                             | Raise _ => VInt 0
                             end)].

Definition collect_osint (src : sources) (target : string) : value :=
  assemble target
    (Ok (collect_whois src target))
    (Ok (collect_subdomains_passive src target))
    (Ok (collect_wayback_urls src target)).

(** The same sources with a WHOIS client that raises [e]. *)
Definition fail_whois (src : sources) (e : exn) : sources :=
  Sources (fun _ => Raise e) (http_get src) (str_value src).


(** A certificate-transparency record with the given name. *)
Definition name_entry (name : string) : value :=
  VDict [("name_value", VStr name)].

(** The key under which a certificate name is kept. *)
Definition subdomain_key (name : string) : string :=
  strip (remove_wildcards name).

(** The names of an answer that are kept at all. *)
Definition kept (domain name : string) : bool :=
  negb (String.eqb name "") && contains domain name
  && negb (String.eqb (remove_wildcards name) "").

Definition hibp_url (email : string) : string :=
  "https://haveibeenpwned.com/api/v3/breachedaccount/" ++ email.

(** [[b.get("Name") for b in breaches]] *)
Fixpoint breach_names (breaches : list value) : Py.result (list value) :=
  match breaches with
  | [] => Ok []
  | b :: rest =>
      let* name := get b "Name" VNone in
      let* names := breach_names rest in
      Ok (name :: names)
  end.

(** [check_haveibeenpwned(email, api_key)]; [http_get_with] is the HTTP
    client for a request that carries headers, by URL and headers.  The
    items [len(breaches)] counts are those the comprehension ran over. *)
Definition check_haveibeenpwned
    (http_get_with : string -> list (string * value) -> Py.result http_response)
    (email : string) (api_key : value) : value :=
  let result := [("email", VStr email);
                 ("breaches", VList []);
                 ("total_breaches", VInt 0)] in
  if negb (truthy api_key) then VDict result
  else
    let url := hibp_url email in
    let headers := [("hibp-api-key", api_key);
                    ("User-Agent", VStr "ForensicSense")] in
    match http_get_with url headers with
    | Ok response =>
        if Z.eqb (status response) 200 then
          match (let* breaches := json response in
                 let* items := iterate breaches in
                 let* names := breach_names items in
                 Ok (names, List.length items)) with
          | Ok (names, total) =>
              VDict (dict_set "total_breaches" (VInt (Z.of_nat total))
                       (dict_set "breaches" (VList names) result))
          | Raise e => VDict (dict_set "error" (VStr (str_exn e)) result)
          end
        else if Z.eqb (status response) 404 then VDict result
        else VDict (dict_set "error"
                      (VStr ("HTTP " ++ Json.repr_int (status response))) result)
    | Raise e => VDict (dict_set "error" (VStr (str_exn e)) result)
    end.

End Osint.

(** ** intel/evidence.py and intel/profiler.py *)

Module Profiler.

(** *** Collaborators *)

(** Modelled from the spec: [VulnerabilityDatabase], whose module
    intel/vulnerability_db.py is not among the sources.
    [match_vulnerabilities(technologies)] returns the list of matched
    vulnerabilities and [assess_risk_score(profile)] returns the record
    [{score, level, factors, recommendations}], a dict; either may raise. *)
Record VulnerabilityDatabase := VulnDb {
  match_vulnerabilities : value -> Py.result value;
  assess_risk_score : value -> Py.result (list (string * value))
}.

(** The objects [profile_target] calls and what they answer: the helpers of
    [utils.networking], the scanner, the fingerprinter, the OSINT collector,
    the vulnerability database and the file system under the evidence
    directory, each a function of its arguments that returns or raises.
    The clock is read several times in a run; the run is modelled with one
    reading. *)
Record collaborators := Collaborators {
  now : clock;
  str_value : value -> string;                        (* f"{x}" *)
  parse_target_url : string -> Py.result value;
  resolve_target : value -> Py.result value;
  scan_target : value -> string -> Py.result value;
  fingerprint_service : value -> value -> value -> Py.result value;
  fingerprint_http : string -> Py.result value;
  probe_common_paths : string -> Py.result value;
  collect_osint : value -> Py.result value;
  vuln_db : VulnerabilityDatabase;
  make_evidence_dir : Py.result unit;                 (* evidence_dir.mkdir(...) *)
  save_sealed_evidence : string -> value -> Py.result unit
}.

(** *** Evidence *)

Record Evidence := MkEvidence {
  evidence_id : string;
  evidence_type : string;
  data : value;
  collector : string;
  case_id : value;
  collected_at : string;
  chain : list value
}.

Definition add_to_chain (env : collaborators) (ev : Evidence)
    (action actor notes : string) : Evidence :=
  let entry := VDict [("timestamp", VStr (utcnow_isoformat (now env)));
                      ("action", VStr action);
                      ("actor", VStr actor);
                      ("notes", VStr notes)] in
  MkEvidence (evidence_id ev) (evidence_type ev) (data ev) (collector ev)
             (case_id ev) (collected_at ev) (chain ev ++ [entry]).

Definition to_dict (ev : Evidence) : value :=
  VDict [("evidence_id", VStr (evidence_id ev));
         ("evidence_type", VStr (evidence_type ev));
         ("data", data ev);
         ("collector", VStr (collector ev));
         ("case_id", case_id ev);
         ("collected_at", VStr (collected_at ev));
         ("chain_of_custody", VList (chain ev))].

(** [Evidence.seal] *)
Definition seal (env : collaborators) (ev : Evidence) : Py.result value :=
  let metadata := VDict [("collector", VStr (collector ev));
                         ("case_id", case_id ev);
                         ("evidence_type", VStr (evidence_type ev))] in
  Crypto.seal_evidence Crypto.default_sealer (now env) (to_dict ev) metadata.

(** An [EvidenceCollector] with the default evidence directory. *)
Record EvidenceCollector := MkCollector {
  collector_name : string;
  collector_case_id : value;
  evidence_items : list Evidence
}.

(** [EvidenceCollector.collect] with no custom id: the collector after the
    call. *)
Definition collect (env : collaborators) (self : EvidenceCollector)
    (evidence_type : string) (data : value) : EvidenceCollector :=
  let evidence_id := (evidence_type ++ "_" ++ utcnow_stamp (now env))%string in
  let evidence := MkEvidence evidence_id evidence_type data (collector_name self)
                    (collector_case_id self) (utcnow_isoformat (now env)) [] in
  let evidence := add_to_chain env evidence "collected" (collector_name self) "" in
  MkCollector (collector_name self) (collector_case_id self)
              (evidence_items self ++ [evidence]).

(** [EvidenceCollector.seal_and_save]: the path of the file written and the
    evidence with its new custody entry. *)
Definition seal_and_save (env : collaborators) (self : EvidenceCollector)
    (evidence : Evidence) : Py.result (string * Evidence) :=
  let* sealed := seal env evidence in
  let filepath := ("evidence/" ++ evidence_id evidence ++ ".sealed")%string in
  let* _ := save_sealed_evidence env filepath sealed in
  Ok (filepath,
      add_to_chain env evidence "sealed_and_saved" (collector_name self)
        ("Saved to " ++ filepath)).

(** [saved[k] = path] on the dictionary of paths. *)
Fixpoint saved_set (k path : string) (saved : list (string * string))
  : list (string * string) :=
  match saved with
  | [] => [(k, path)]
  | (k', p') :: rest =>
      if String.eqb k k' then (k, path) :: rest else (k', p') :: saved_set k path rest
  end.

(** The loop of [EvidenceCollector.save_all]: the dictionary of paths, or
    the exception that ended the loop, and the evidence items as the loop
    left them. *)
Fixpoint save_items (env : collaborators) (self : EvidenceCollector)
    (done items : list Evidence) (saved : list (string * string))
  : Py.result (list (string * string)) * list Evidence :=
  match items with
  | [] => (Ok saved, done)
  | evidence :: rest =>
      match seal_and_save env self evidence with
      | Ok (filepath, evidence') =>
          save_items env self (done ++ [evidence']) rest
            (saved_set (evidence_id evidence) filepath saved)
      | Raise e => (Raise e, done ++ items)
      end
  end.

Definition save_all (env : collaborators) (self : EvidenceCollector)
  : Py.result (list (string * string)) * EvidenceCollector :=
  let '(r, items) := save_items env self [] (evidence_items self) [] in
  (r, MkCollector (collector_name self) (collector_case_id self) items).

(** *** The run: profile, collected evidence and what happened so far *)

Inductive stage := DNS | SCAN | FINGERPRINT | OSINT | RISK | SEAL.

(** The calls to collaborators, by the stage they belong to. *)
Inductive call :=
| call_resolve_target
| call_scan_target (scan_type : string)
| call_fingerprint_service
| call_fingerprint_http
| call_probe_common_paths
| call_collect_osint
| call_match_vulnerabilities
| call_assess_risk_score
| call_collect (evidence_type : string)
| call_save_all.

(** What a run does, in order: the [logger.info] line that opens a stage, a
    call to a collaborator, an assignment to (or an append on) an attribute
    of the profile, a [logger.error] line of a stage. *)
Inductive event :=
| Step (s : stage)
| Call (c : call)
| Assign (attribute : string)
| LogError (s : stage) (message : string).

(** The profile is kept by attribute name, as [asdict] shows it. *)
Record run_state := RunState {
  profile : list (string * value);
  evidence_collector : EvidenceCollector;
  trace : list event
}.

Definition M (A : Type) : Type := run_state -> Py.result A * run_state.

Definition ret {A} (a : A) : M A := fun st => (Ok a, st).

Definition mbind {A B} (m : M A) (k : A -> M B) : M B :=
  fun st =>
    match m st with
    | (Ok a, st') => k a st'
    | (Raise e, st') => (Raise e, st')
    end.

(** A pure computation that may raise. *)
Definition lift {A} (r : Py.result A) : M A := fun st => (r, st).

(** [try: m except Exception as e: h e]; the assignments made before the
    exception stay. *)
Definition try_catch {A} (m : M A) (h : exn -> M A) : M A :=
  fun st =>
    match m st with
    | (Ok a, st') => (Ok a, st')
    | (Raise e, st') => h e st'
    end.

Definition emit (e : event) : M unit :=
  fun st => (Ok tt, RunState (profile st) (evidence_collector st) (trace st ++ [e])).

(** [profile.attribute = v] *)
Definition assign (attribute : string) (v : value) : M unit :=
  fun st => (Ok tt, RunState (dict_set attribute v (profile st))
                             (evidence_collector st)
                             (trace st ++ [Assign attribute])).

(** [profile.attribute] *)
Definition attr (attribute : string) : M value :=
  fun st => (Ok (match dict_lookup attribute (profile st) with
                 | Some v => v
                 | None => VNone
                 end), st).

(** A call to a collaborator. *)
Definition calling {A} (c : call) (r : Py.result A) : M A :=
  fun st => (r, RunState (profile st) (evidence_collector st) (trace st ++ [Call c])).

(** The profile as a dictionary ([profile.to_dict()], and the object
    returned at the end). *)
Definition to_dict_profile : M value :=
  fun st => (Ok (VDict (profile st)), st).

(** [evidence_collector.save_all()] *)
Definition saving_all (env : collaborators) : M (list (string * string)) :=
  fun st =>
    let '(r, c) := save_all env (evidence_collector st) in
    (r, RunState (profile st) c (trace st ++ [Call call_save_all])).

(** [if collect_evidence: evidence_collector.collect(evidence_type, data)] *)
Definition collect_if (env : collaborators) (collect_evidence : bool)
    (evidence_type : string) (data : value) : M unit :=
  if collect_evidence then
    fun st => (Ok tt,
               RunState (profile st)
                        (collect env (evidence_collector st) evidence_type data)
                        (trace st ++ [Call (call_collect evidence_type)]))
  else ret tt.

Notation "'run*' x ':=' m 'in' k" := (mbind m (fun x => k))
  (at level 10, x pattern, m at level 100, k at level 200).

(** [TargetProfile(target=..., profile_depth=..., started_at=...)] *)
Definition new_profile (target depth started_at : string) : list (string * value) :=
  [("target", VStr target);
   ("profile_depth", VStr depth);
   ("started_at", VStr started_at);
   ("completed_at", VNone);
   ("dns_info", VDict []);
   ("network_scan", VDict []);
   ("services", VList []);
   ("http_fingerprint", VDict []);
   ("discovered_paths", VList []);
   ("osint", VDict []);
   ("vulnerabilities", VList []);
   ("risk_assessment", VDict []);
   ("evidence_sealed", VBool false);
   ("evidence_files", VList [])].

Definition depth_in (depth : string) (depths : list string) : bool :=
  existsb (String.eqb depth) depths.

(** [v in ports] for a list of integers. *)
Definition port_in (ports : list Z) (v : value) : bool :=
  match v with
  | VInt z => existsb (Z.eqb z) ports
  | VBool b => existsb (Z.eqb (if b then 1 else 0)) ports
  | _ => false
  end.

(** [any(p['port'] in ports for p in open_ports)] *)
Fixpoint any_port (ports : list Z) (open_ports : list value) : Py.result bool :=
  match open_ports with
  | [] => Ok false
  | p :: rest =>
      let* v := getitem p "port" in
      if port_in ports v then Ok true else any_port ports rest
  end.

(** [v[:10]] *)
Definition slice_to_10 (v : value) : Py.result value :=
  match v with
  | VList l => Ok (VList (firstn 10 l))
  | VTuple l => Ok (VTuple (firstn 10 l))
  | VStr s => Ok (VStr (String.substring 0 10 s))
  | VDict _ => Raise (Exn TypeError "unhashable type: 'slice'")
  | _ => Raise (Exn TypeError
                  ("'" ++ type_name v ++ "' object is not subscriptable"))
  end.

(** [l.append(x)] *)
Definition append (l x : value) : Py.result value :=
  match l with
  | VList items => Ok (VList (items ++ [x]))
  | _ => Raise (Exn AttributeError
                  ("'" ++ type_name l ++ "' object has no attribute 'append'"))
  end.

Section Run.
Variable env : collaborators.
Variable collect_evidence : bool.

(** The [for port_info in open_ports[:10]] loop. *)
Fixpoint fingerprint_services (target_host : value) (ports : list value) : M unit :=
  match ports with
  | [] => ret tt
  | port_info :: rest =>
      run* port := lift (getitem port_info "port") in
      run* service := lift (get port_info "service" VNone) in
      run* service_fp := calling call_fingerprint_service
                           (fingerprint_service env target_host port service) in
      run* services := attr "services" in
      run* services := lift (append services service_fp) in
      run* _ := assign "services" services in
      fingerprint_services target_host rest
  end.

Definition step_1_dns (target_host : value) : M unit :=
  run* _ := emit (Step DNS) in
  try_catch
    (run* dns_info := calling call_resolve_target (resolve_target env target_host) in
     run* _ := assign "dns_info" dns_info in
     collect_if env collect_evidence "dns_resolution" dns_info)
    (fun e =>
       run* _ := emit (LogError DNS (str_exn e)) in
       assign "dns_info" (VDict [("error", VStr (str_exn e))])).

Definition step_2_scan (depth : string) (target_host : value) : M unit :=
  if depth_in depth ["standard"; "full"; "deep"] then
    run* _ := emit (Step SCAN) in
    try_catch
      (run* dns_info := attr "dns_info" in
       run* a_records := lift (get dns_info "a_records" VNone) in
       run* scan_host :=
         (if truthy a_records then
            lift (let* records := getitem dns_info "a_records" in index_0 records)
          else ret target_host) in
       let scan_type := if String.eqb depth "deep" then "full" else "quick" in
       run* network_scan := calling (call_scan_target scan_type)
                              (scan_target env scan_host scan_type) in
       run* _ := assign "network_scan" network_scan in
       collect_if env collect_evidence "network_scan" network_scan)
      (fun e =>
         run* _ := emit (LogError SCAN (str_exn e)) in
         assign "network_scan" (VDict [("error", VStr (str_exn e))]))
  else ret tt.

Definition step_3_fingerprint (depth : string) (target_host : value) : M unit :=
  if depth_in depth ["full"; "deep"] then
    run* _ := emit (Step FINGERPRINT) in
    try_catch
      (run* network_scan := attr "network_scan" in
       run* open_ports := lift (get network_scan "open_ports" (VList [])) in
       run* first_ports := lift (let* s := slice_to_10 open_ports in iterate s) in
       run* _ := fingerprint_services target_host first_ports in
       run* all_ports := lift (iterate open_ports) in
       run* web := lift (any_port [80; 443; 8080; 8443]%Z all_ports) in
       run* _ :=
         (if web then
            run* https := lift (any_port [443]%Z all_ports) in
            let base_url := ((if https then "https://" else "http://")
                             ++ str_value env target_host)%string in
            run* http_fingerprint := calling call_fingerprint_http
                                       (fingerprint_http env base_url) in
            run* _ := assign "http_fingerprint" http_fingerprint in
            if String.eqb depth "deep" then
              run* discovered_paths := calling call_probe_common_paths
                                         (probe_common_paths env base_url) in
              assign "discovered_paths" discovered_paths
            else ret tt
          else ret tt) in
       run* services := attr "services" in
       run* http_fingerprint := attr "http_fingerprint" in
       run* discovered_paths := attr "discovered_paths" in
       collect_if env collect_evidence "service_fingerprinting"
         (VDict [("services", services);
                 ("http_fingerprint", http_fingerprint);
                 ("discovered_paths", discovered_paths)]))
      (fun e => emit (LogError FINGERPRINT (str_exn e)))
  else ret tt.

Definition step_4_osint (depth : string) (target_host : value) : M unit :=
  if depth_in depth ["full"; "deep"] then
    run* _ := emit (Step OSINT) in
    try_catch
      (run* osint := calling call_collect_osint (collect_osint env target_host) in
       run* _ := assign "osint" osint in
       collect_if env collect_evidence "osint" osint)
      (fun e =>
         run* _ := emit (LogError OSINT (str_exn e)) in
         assign "osint" (VDict [("error", VStr (str_exn e))]))
  else ret tt.

Definition step_5_vulnerabilities : M unit :=
  run* _ := emit (Step RISK) in
  try_catch
    (run* http_fingerprint := attr "http_fingerprint" in
     run* technologies := lift (get http_fingerprint "technologies" (VList [])) in
     run* vulnerabilities := calling call_match_vulnerabilities
                               (match_vulnerabilities (vuln_db env) technologies) in
     run* _ := assign "vulnerabilities" vulnerabilities in
     run* as_dict := to_dict_profile in
     run* risk := calling call_assess_risk_score (assess_risk_score (vuln_db env) as_dict) in
     run* _ := assign "risk_assessment" (VDict risk) in
     collect_if env collect_evidence "vulnerability_assessment"
       (VDict [("vulnerabilities", vulnerabilities);
               ("risk_assessment", VDict risk)]))
    (fun e =>
       run* _ := emit (LogError RISK (str_exn e)) in
       assign "risk_assessment" (VDict [("error", VStr (str_exn e))])).

(** [# Seal evidence]: no [try] around it. *)
Definition seal_evidence_files : M unit :=
  if collect_evidence then
    run* _ := emit (Step SEAL) in
    run* evidence_files := saving_all env in
    run* _ := assign "evidence_sealed" (VBool true) in
    assign "evidence_files" (VList (map (fun kv => VStr (snd kv)) evidence_files))
  else ret tt.

(** [# Parse target]: the host the stages work on. *)
Definition parse_target (target : string) : value :=
  match (if String.prefix "http://" target || String.prefix "https://" target then
           let* url_info := parse_target_url env target in
           getitem url_info "hostname"
         else Ok (VStr target)) with
  | Ok target_host => target_host
  | Raise _ => VStr target
  end.

(** Everything up to [# Finalize profile], the completion stamp included. *)
Definition run_stages (target depth : string) : M unit :=
  run* _ := (if collect_evidence then lift (make_evidence_dir env) else ret tt) in
  let target_host := parse_target target in
  run* _ := step_1_dns target_host in
  run* _ := step_2_scan depth target_host in
  run* _ := step_3_fingerprint depth target_host in
  run* _ := step_4_osint depth target_host in
  run* _ := step_5_vulnerabilities in
  assign "completed_at" (VStr (utcnow_isoformat (now env))).

(** The two closing [logger.info] lines read the risk assessment. *)
Definition closing_log : M unit :=
  run* risk_assessment := attr "risk_assessment" in
  run* _ := lift (get risk_assessment "level" (VStr "UNKNOWN")) in
  run* _ := lift (get risk_assessment "score" (VInt 0)) in
  ret tt.

Definition profile_target_body (target depth : string) : M value :=
  run* _ := run_stages target depth in
  run* _ := seal_evidence_files in
  run* _ := closing_log in
  run* as_dict := to_dict_profile in
  ret as_dict.

(** The state a run starts in. *)
Definition initial_state (target depth : string) : run_state :=
  RunState
    (new_profile target depth (utcnow_isoformat (now env)))
    (MkCollector "TargetProfiler"
       (VStr ("profile_" ++ target ++ "_" ++ utcnow_stamp (now env)))
       [])
    [].

(** [profile_target(target, depth, collect_evidence)]: the profile returned
    or the exception raised, and the state the run ended in. *)
Definition profile_target (target depth : string)
  : Py.result value * run_state :=
  profile_target_body target depth (initial_state target depth).

End Run.

(** *** Vocabulary of the statements about a run *)

(** The stage that collects evidence of a given type. *)
Definition evidence_stage (evidence_type : string) : stage :=
  if String.eqb evidence_type "dns_resolution" then DNS
  else if String.eqb evidence_type "network_scan" then SCAN
  else if String.eqb evidence_type "service_fingerprinting" then FINGERPRINT
  else if String.eqb evidence_type "osint" then OSINT
  else if String.eqb evidence_type "vulnerability_assessment" then RISK
  else SEAL.

Definition call_stage (c : call) : stage :=
  match c with
  | call_resolve_target => DNS
  | call_scan_target _ => SCAN
  | call_fingerprint_service | call_fingerprint_http
  | call_probe_common_paths => FINGERPRINT
  | call_collect_osint => OSINT
  | call_match_vulnerabilities | call_assess_risk_score => RISK
  | call_collect evidence_type => evidence_stage evidence_type
  | call_save_all => SEAL
  end.

(** The stage whose section of the profile an attribute is; [None] for the
    header ([target], [profile_depth], the two time stamps). *)
Definition attribute_stage (attribute : string) : option stage :=
  if String.eqb attribute "dns_info" then Some DNS
  else if String.eqb attribute "network_scan" then Some SCAN
  else if String.eqb attribute "services" then Some FINGERPRINT
  else if String.eqb attribute "http_fingerprint" then Some FINGERPRINT
  else if String.eqb attribute "discovered_paths" then Some FINGERPRINT
  else if String.eqb attribute "osint" then Some OSINT
  else if String.eqb attribute "vulnerabilities" then Some RISK
  else if String.eqb attribute "risk_assessment" then Some RISK
  else if String.eqb attribute "evidence_sealed" then Some SEAL
  else if String.eqb attribute "evidence_files" then Some SEAL
  else None.

Definition event_stage (e : event) : option stage :=
  match e with
  | Step s => Some s
  | Call c => Some (call_stage c)
  | Assign attribute => attribute_stage attribute
  | LogError s _ => Some s
  end.

Definition in_stage (s : stage) (e : event) : Prop := event_stage e = Some s.


(** The stages the code enters for a depth. *)
Definition entered (depth : string) (s : stage) : bool :=
  match s with
  | DNS | RISK => true
  | SCAN => depth_in depth ["standard"; "full"; "deep"]
  | FINGERPRINT | OSINT => depth_in depth ["full"; "deep"]
  | SEAL => false
  end.

(** [m] extends the trace by events that satisfy [P] and changes no
    attribute of the profile without an [Assign] event that names it. *)
Definition logs {A} (P : event -> Prop) (m : M A) : Prop :=
  forall st, exists evs,
    trace (snd (m st)) = trace st ++ evs /\
    Forall P evs /\
    (forall a, ~ In (Assign a) evs ->
               dict_lookup a (profile (snd (m st))) = dict_lookup a (profile st)).

(** [m] never raises. *)
Definition total {A} (m : M A) : Prop :=
  forall st, exists a, fst (m st) = Ok a.

(** A stage block: it never raises, logs events of its own stage only, opens
    with its [Step] line when its gate is open and does nothing when it is
    closed, and changes no attribute without the [Assign] event for it. *)
Definition stage_block (s : stage) (gate : bool) (m : M unit) : Prop :=
  forall st, exists evs st',
    m st = (Ok tt, st') /\
    trace st' = trace st ++ evs /\
    Forall (in_stage s) evs /\
    (gate = true -> In (Step s) evs) /\
    (gate = false -> evs = []) /\
    (forall a, ~ In (Assign a) evs ->
               dict_lookup a (profile st') = dict_lookup a (profile st)).

(** The events one stage block contributes to a trace. *)
Definition stage_events (s : stage) (gate : bool) (evs : list event) : Prop :=
  Forall (in_stage s) evs /\
  (gate = true -> In (Step s) evs) /\
  (gate = false -> evs = []).

(** *** The other entry points *)

Definition quick_profile (env : collaborators) (target : string)
  : Py.result value * run_state :=
  profile_target env false target "basic".

Definition full_profile (env : collaborators) (target : string)
  : Py.result value * run_state :=
  profile_target env true target "full".

Definition deep_profile (env : collaborators) (target : string)
  : Py.result value * run_state :=
  profile_target env true target "deep".

(** [EvidenceCollector.load_evidence(filepath)]; [loaded] is what [open] and
    [json.load] give for the path. *)
Definition load_evidence (loaded : Py.result value) : Py.result value :=
  let* sealed := Crypto.load_sealed_evidence Crypto.default_sealer loaded in
  getitem sealed "evidence".

(** The file a piece of evidence is saved to. *)
Definition sealed_path (ev : Evidence) : string :=
  "evidence/" ++ evidence_id ev ++ ".sealed".

(** A piece of evidence after [seal_and_save]: one more custody entry. *)
Definition marked_saved (env : collaborators) (self : EvidenceCollector)
    (ev : Evidence) : Evidence :=
  add_to_chain env ev "sealed_and_saved" (collector_name self)
    ("Saved to " ++ sealed_path ev).

(** The metadata [Evidence.seal] attaches. *)
Definition seal_metadata (ev : Evidence) : value :=
  VDict [("collector", VStr (collector ev));
         ("case_id", case_id ev);
         ("evidence_type", VStr (evidence_type ev))].

(** [m] takes the states that satisfy [P] to states that satisfy [Q],
    whether it returns or raises. *)
Definition hoare {A} (P : run_state -> Prop) (m : M A) (Q : run_state -> Prop)
  : Prop :=
  forall st, P st -> Q (snd (m st)).

(** The evidence types of the [collect] calls of a trace, in order. *)
Fixpoint collected_types (evs : list event) : list string :=
  match evs with
  | [] => []
  | Call (call_collect evidence_type) :: rest =>
      evidence_type :: collected_types rest
  | _ :: rest => collected_types rest
  end.

(** The number of calls to [fingerprint_service] in a trace. *)
Fixpoint fingerprint_service_calls (evs : list event) : nat :=
  match evs with
  | [] => 0
  | Call call_fingerprint_service :: rest => S (fingerprint_service_calls rest)
  | _ :: rest => fingerprint_service_calls rest
  end.

(** The evidence types of the five stages, in stage order. *)
Definition stage_evidence_types : list string :=
  ["dns_resolution"; "network_scan"; "service_fingerprinting"; "osint";
   "vulnerability_assessment"].

(** The events a run with the given evidence flag and depth may log. *)
Definition allowed (collect_evidence : bool) (depth : string) (e : event) : bool :=
  match e with
  | Step SEAL => collect_evidence
  | Step s => entered depth s
  | LogError s _ => entered depth s
  | Call (call_scan_target scan_type) =>
      entered depth SCAN
      && String.eqb scan_type (if String.eqb depth "deep" then "full" else "quick")
  | Call call_probe_common_paths => String.eqb depth "deep"
  | Call (call_collect evidence_type) =>
      collect_evidence
      && existsb (String.eqb evidence_type) stage_evidence_types
      && entered depth (evidence_stage evidence_type)
  | Call call_save_all => collect_evidence
  | Call c => entered depth (call_stage c)
  | Assign attribute =>
      match attribute_stage attribute with
      | Some SEAL => collect_evidence
      | Some s => entered depth s
      | None => String.eqb attribute "completed_at"
      end
  end.

(** The state after [profile.completed_at = ...]. *)
Definition stamped (env : collaborators) (st : run_state) : run_state :=
  RunState (dict_set "completed_at" (VStr (utcnow_isoformat (now env))) (profile st))
           (evidence_collector st)
           (trace st ++ [Assign "completed_at"]).

(** Every event logged so far satisfies [Q]. *)
Definition traced (Q : event -> Prop) (st : run_state) : Prop :=
  Forall Q (trace st).

(** The id [collect] gives to evidence of a type. *)
Definition evidence_id_of (env : collaborators) (evidence_type : string) : string :=
  (evidence_type ++ "_" ++ utcnow_stamp (now env))%string.

(** The collector holds one item per [collect] call logged so far, in the
    order of the calls, with the type and the id of the call. *)
Definition items_follow_trace (env : collaborators) (st : run_state) : Prop :=
  map (fun ev => (evidence_type ev, evidence_id ev))
      (evidence_items (evidence_collector st))
  = map (fun ty => (ty, evidence_id_of env ty)) (collected_types (trace st)).

(** At most [n] calls to [fingerprint_service] so far, and
    [profile.services] is a list with at most one entry per call. *)
Definition services_bounded (n : nat) (st : run_state) : Prop :=
  fingerprint_service_calls (trace st) <= n /\
  exists services,
    dict_lookup "services" (profile st) = Some (VList services) /\
    List.length services <= fingerprint_service_calls (trace st).

(** The evidence collected so far is of the given types, in their order,
    each type at most once. *)
Definition collected_within (types : list string) (st : run_state) : Prop :=
  sublist (collected_types (trace st)) types.

End Profiler.

(** ** Regular expressions, as [re.match] decides them *)

Module Re.

(** The patterns used: character classes, sequence, alternative, [r*] and
    [r{0,n}].  [Never] matches nothing and [Empty] the empty string. *)
Inductive regex :=
| Never
| Empty
| Class (p : ascii -> bool)
| Seq (r1 r2 : regex)
| Alt (r1 r2 : regex)
| Star (r : regex)
| Upto (n : nat) (r : regex).

(** [r?] *)
Definition Opt (r : regex) : regex := Upto 1 r.

(** Whether [r] matches the empty string. *)
Fixpoint nullable (r : regex) : bool :=
  match r with
  | Never => false
  | Empty => true
  | Class _ => false
  | Seq r1 r2 => nullable r1 && nullable r2
  | Alt r1 r2 => nullable r1 || nullable r2
  | Star _ => true
  | Upto _ _ => true
  end.

(** What is left of [r] to match after the character [c]. *)
Fixpoint deriv (c : ascii) (r : regex) : regex :=
  match r with
  | Never => Never
  | Empty => Never
  | Class p => if p c then Empty else Never
  | Seq r1 r2 =>
      if nullable r1 then Alt (Seq (deriv c r1) r2) (deriv c r2)
      else Seq (deriv c r1) r2
  | Alt r1 r2 => Alt (deriv c r1) (deriv c r2)
  | Star r1 => Seq (deriv c r1) (Star r1)
  | Upto n r1 =>
      match n with
      | O => Never
      | S n' => Seq (deriv c r1) (Upto n' r1)
      end
  end.

(** Whether [r] matches the whole of [s]. *)
Fixpoint accepts (r : regex) (s : string) : bool :=
  match s with
  | EmptyString => nullable r
  | String c rest => accepts (deriv c r) rest
  end.

(** [s] without a final newline, when it has one. *)
Fixpoint chomp (s : string) : option string :=
  match s with
  | EmptyString => None
  | String c rest =>
      match rest with
      | EmptyString => if Ascii.eqb c (ascii_of_nat 10) then Some EmptyString else None
      | _ => match chomp rest with
             | Some t => Some (String c t)
             | None => None
             end
      end
  end.

(** [bool(re.match('^' r '$', s))]: [$] matches at the end of the string
    and also just before a newline that ends it. *)
Definition match_to_end (r : regex) (s : string) : bool :=
  accepts r s ||
  match chomp s with
  | Some t => accepts r t
  | None => false
  end.

(** The strings a pattern matches. *)
Inductive lang : regex -> string -> Prop :=
| lang_Empty : lang Empty EmptyString
| lang_Class p c : p c = true -> lang (Class p) (String c EmptyString)
| lang_Seq r1 r2 s1 s2 :
    lang r1 s1 -> lang r2 s2 -> lang (Seq r1 r2) (s1 ++ s2)
| lang_Alt_l r1 r2 s : lang r1 s -> lang (Alt r1 r2) s
| lang_Alt_r r1 r2 s : lang r2 s -> lang (Alt r1 r2) s
| lang_Star_nil r : lang (Star r) EmptyString
| lang_Star_app r s1 s2 :
    lang r s1 -> lang (Star r) s2 -> lang (Star r) (s1 ++ s2)
| lang_Upto_nil n r : lang (Upto n r) EmptyString
| lang_Upto_app n r s1 s2 :
    lang r s1 -> lang (Upto n r) s2 -> lang (Upto (S n) r) (s1 ++ s2).

End Re.

(** ** [forensicsense/utils/networking.py] *)

Module Networking.
Import Py.

(** [[a-zA-Z0-9]] *)
Definition alnum (c : ascii) : bool :=
  let n := nat_of_ascii c in
  (Nat.leb 97 n && Nat.leb n 122) || (Nat.leb 65 n && Nat.leb n 90)
  || (Nat.leb 48 n && Nat.leb n 57).

(** [[a-zA-Z0-9\-]] *)
Definition alnum_or_hyphen (c : ascii) : bool := alnum c || Ascii.eqb c "-".

(** [\.] *)
Definition dot (c : ascii) : bool := Ascii.eqb c ".".

(** [[a-zA-Z0-9]([a-zA-Z0-9\-]{0,61}[a-zA-Z0-9])?] *)
Definition label_re : Re.regex :=
  Re.Seq (Re.Class alnum)
         (Re.Opt (Re.Seq (Re.Upto 61 (Re.Class alnum_or_hyphen)) (Re.Class alnum))).

(** The pattern of [is_valid_domain], between its [^] and [$]. *)
Definition domain_re : Re.regex :=
  Re.Seq (Re.Star (Re.Seq label_re (Re.Class dot))) label_re.

Definition is_valid_domain (domain : string) : bool :=
  if String.eqb domain "" || Nat.ltb 253 (String.length domain) then false
  else Re.match_to_end domain_re domain.

(** [str.lower] on one code point below 256: the capital letters of ASCII
    and of Latin-1 ([U+00C0] to [U+00DE] without the multiplication sign)
    move up by 32. *)
Definition lower_char (c : ascii) : ascii :=
  let n := nat_of_ascii c in
  if (Nat.leb 65 n && Nat.leb n 90)
     || (Nat.leb 192 n && Nat.leb n 222 && negb (Nat.eqb n 215))
  then ascii_of_nat (n + 32) else c.

(** [s.lower()] *)
Fixpoint lower (s : string) : string :=
  match s with
  | EmptyString => EmptyString
  | String c rest => String (lower_char c) (lower rest)
  end.

(** [s.endswith(suffix)] *)
Fixpoint endswith (s suffix : string) : bool :=
  String.eqb s suffix ||
  match s with
  | EmptyString => false
  | String _ rest => endswith rest suffix
  end.

(** [s.replace(old, new)] for a one-character [old]. *)
Fixpoint replace (old : ascii) (new : string) (s : string) : string :=
  match s with
  | EmptyString => EmptyString
  | String c rest =>
      ((if Ascii.eqb c old then new else String c EmptyString) ++ replace old new rest)%string
  end.

(** The pattern given to [re.match] for a list entry that holds a [*]. *)
Definition wildcard_pattern (safe_pattern : string) : string :=
  "^" ++ replace "*" ".*" (replace "." "\." safe_pattern) ++ "$".

(** [is_safe_environment]; [re_match pattern s] is [bool(re.match(pattern, s))],
    which raises on a pattern that does not compile. *)
Fixpoint is_safe_environment (re_match : string -> string -> result bool)
    (target : string) (safe_list : list string) : result bool :=
  let target_lower := lower target in
  match safe_list with
  | [] => Ok false
  | safe_pattern :: rest =>
      let safe_pattern := lower safe_pattern in
      if String.eqb target_lower safe_pattern then Ok true
      else if endswith target_lower safe_pattern then Ok true
      else if contains "*" safe_pattern then
        let* matched := re_match (wildcard_pattern safe_pattern) target_lower in
        if matched then Ok true
        else is_safe_environment re_match target rest
      else is_safe_environment re_match target rest
  end.

Fixpoint last_char (s : string) : option ascii :=
  match s with
  | EmptyString => None
  | String c EmptyString => Some c
  | String _ rest => last_char rest
  end.

(** A label of a host name: 1 to 63 letters, digits and hyphens, the first
    and the last of them a letter or a digit. *)
Fixpoint all_chars (p : ascii -> bool) (s : string) : bool :=
  match s with
  | EmptyString => true
  | String c rest => p c && all_chars p rest
  end.

Definition is_label (l : string) : bool :=
  match l with
  | EmptyString => false
  | String c _ =>
      alnum c && Nat.leb (String.length l) 63 && all_chars alnum_or_hyphen l
      && match last_char l with Some d => alnum d | None => false end
  end.

Definition newline : string := String (ascii_of_nat 10) EmptyString.

End Networking.

(** ** Inputs used in the worked examples *)

Module Examples.

Definition clock0 : clock :=
  Clock "2024-05-01T12:00:00.000000" "20240501_120000".

Definition ports_as_list : value := VDict [("ports", VList [VInt 80; VInt 443])].
Definition ports_as_tuple : value := VDict [("ports", VTuple [VInt 80; VInt 443])].
Definition port_80 : value := VDict [("host", VStr "10.0.0.1"); ("port", VInt 80)].
Definition port_443 : value := VDict [("host", VStr "10.0.0.1"); ("port", VInt 443)].
Definition meta0 : value := VDict [("collector", VStr "TargetProfiler")].

(** A decoder for the worked examples: it inverts [json.dumps] on the listed
    documents and rejects every other text, as [json.loads] rejects text that
    is not JSON. *)
Fixpoint decoder_for (docs : list value) (text : string) : Py.result value :=
  match docs with
  | [] => Raise (Exn JSONDecodeError "Expecting value")
  | doc :: rest =>
      match Json.dumps false doc with
      | Ok s => if String.eqb s text then Ok doc else decoder_for rest text
      | Raise _ => decoder_for rest text
      end
  end.

(** The text line [log_action] writes for a document. *)
Definition line_of (doc : value) : string :=
  match Json.dumps false doc with
  | Ok s => (s ++ String (ascii_of_nat 10) "")%string
  | Raise _ => ""
  end.

Definition hash_1 : string :=
  "5470a9acc3c4c58ee1f5104e3981e4a89cd4cb9b6f7d0e280f289559eb8d7a5d".
Definition hash_2 : string :=
  "87f3065a3ad6b08c36e630108c3fdeeabd6a5d35c9aadb637a793cde21266d52".

Definition audit_entry (user action previous_hash hash : string) : value :=
  VDict [("timestamp", VStr "2024-05-01T12:00:00.000000");
         ("user", VStr user); ("target", VStr "10.0.0.1");
         ("action", VStr action); ("result", VStr "ok"); ("auth_token", VNone);
         ("previous_hash", VStr previous_hash); ("hash", VStr hash)].

(** The two entries that two calls of [log_action] append to a fresh log. *)
Definition entry_1 : value := audit_entry "alice" "scan" Logging.genesis_hash hash_1.
Definition entry_2 : value := audit_entry "bob" "report" hash_1 hash_2.

(** The second entry with its user rewritten and its hash left alone. *)
Definition entry_2_tampered : value := audit_entry "eve" "report" hash_1 hash_2.

(** An entry with the right [previous_hash] and no [hash] at all. *)
Definition entry_without_hash : value :=
  VDict [("timestamp", VStr "2024-05-01T12:00:00.000000");
         ("user", VStr "alice");
         ("previous_hash", VStr Logging.genesis_hash)].

Definition example_loads : string -> Py.result value :=
  decoder_for [entry_1; entry_2; entry_2_tampered; entry_without_hash; VList []].

(** Two calls of [log_action] on a fresh logger. *)
Definition two_entries : Py.result Logging.AuditLogger :=
  let* r1 := Logging.log_action (Logging.new_logger None) clock0
               (VStr "alice") (VStr "10.0.0.1") (VStr "scan") (VStr "ok") VNone in
  let* r2 := Logging.log_action (fst r1) clock0
               (VStr "bob") (VStr "10.0.0.1") (VStr "report") (VStr "ok") VNone in
  Ok (fst r2).

(** A lab network: 22 answers with an SSH banner, 9999 refuses, 8080 never
    answers, 81 is unreachable, 25 accepts and then resets the connection,
    so that the banner read fails and [wait_closed] raises the reset. *)
Definition lab_network : NetworkScanner.network :=
  NetworkScanner.Network
    (fun _ _ port =>
       if Z.eqb port 22 then
         NetworkScanner.Connected
           (NetworkScanner.ReadBytes
              ("SSH-2.0-OpenSSH" ++ String (ascii_of_nat 13) (String (ascii_of_nat 10) "")))
           NetworkScanner.Closed
       else if Z.eqb port 9999 then
         NetworkScanner.ConnectRaises
           (Exn ConnectionRefusedError "[Errno 111] Connect call failed")
       else if Z.eqb port 8080 then
         NetworkScanner.ConnectRaises (Exn AsyncioTimeoutError "")
       else if Z.eqb port 81 then
         NetworkScanner.ConnectRaises (Exn OSError "[Errno 113] No route to host")
       else if Z.eqb port 25 then
         NetworkScanner.Connected
           (NetworkScanner.ReadRaises
              (Exn ConnectionResetError "[Errno 104] Connection reset by peer"))
           (NetworkScanner.CloseRaises
              (Exn ConnectionResetError "[Errno 104] Connection reset by peer"))
       else
         NetworkScanner.ConnectRaises
           (Exn ConnectionRefusedError "[Errno 111] Connect call failed"))
    (fun port =>
       if Z.eqb port 22 then Ok "ssh"
       else if Z.eqb port 25 then Ok "smtp"
       else Raise (Exn OSError "port/proto not found"))
    (fun bytes => bytes).

Definition default_scanner : NetworkScanner.NetworkScanner :=
  NetworkScanner.Scanner 5 true 10.

(** Public sources that all answer for example.com. *)
Definition whois_example : Osint.whois_answer :=
  Osint.Whois (VStr "RESERVED-Internet Assigned Numbers Authority")
              (VStr "1995-08-14 04:00:00") VNone
              (VList [VStr "a.iana-servers.net"; VStr "b.iana-servers.net"])
              VNone "Domain Name: EXAMPLE.COM".

Definition str_of (v : value) : string :=
  match v with VStr s => s | _ => EmptyString end.

Definition sources_with (names : list string) : Osint.sources :=
  Osint.Sources
    (fun _ => Ok whois_example)
    (fun url =>
       if String.eqb url (Osint.crtsh_url "example.com") then
         Ok (Osint.Response 200 (Ok (VList (map Osint.name_entry names))))
       else if String.eqb url (Osint.wayback_url "example.com") then
         Ok (Osint.Response 200
               (Ok (VList [VList [VStr "original"];
                           VList [VStr "http://example.com/"];
                           VList [VStr "http://example.com/login"]])))
       else Ok (Osint.Response 404 (Raise (Exn ValueError "no JSON"))))
    str_of.

Definition healthy_sources : Osint.sources :=
  sources_with ["www.example.com"; "*.example.com"; "mail.example.com";
                "example.com"; "www.example.com"].

(** Collaborators of the profiler for example.com: every stage answers. *)
Definition dns_answer : value :=
  VDict [("target", VStr "example.com"); ("is_ip", VBool false);
         ("is_domain", VBool true);
         ("a_records", VList [VStr "93.184.216.34"]);
         ("aaaa_records", VList []); ("mx_records", VList []);
         ("txt_records", VList []); ("ns_records", VList []);
         ("cname_records", VList [])].

Definition scan_answer : value :=
  VDict [("host", VStr "93.184.216.34"); ("scan_type", VStr "quick");
         ("total_ports_scanned", VInt 22);
         ("open_ports", VList [VDict [("port", VInt 443); ("state", VStr "open");
                                      ("service", VStr "https"); ("banner", VNone)]]);
         ("filtered_ports", VList []);
         ("all_results", VList [])].

Definition risk_answer : list (string * value) :=
  [("score", VInt 20); ("level", VStr "LOW");
   ("factors", VList []); ("recommendations", VList [])].

Definition lab (disk : string -> value -> Py.result unit) : Profiler.collaborators :=
  Profiler.Collaborators
    clock0
    str_of
    (fun url => Ok (VDict [("hostname", VStr "example.com")]))
    (fun host => Ok dns_answer)
    (fun host scan_type => Ok scan_answer)
    (fun host port service => Ok (VDict [("port", port); ("service", service)]))
    (fun url => Ok (VDict [("status", VInt 200); ("technologies", VList [])]))
    (fun url => Ok (VList []))
    (fun host => Ok (VDict [("target", host)]))
    (Profiler.VulnDb (fun technologies => Ok (VList []))
                     (fun profile => Ok risk_answer))
    (Ok tt)
    disk.

Definition disk_ok : string -> value -> Py.result unit := fun _ _ => Ok tt.

Definition disk_full : string -> value -> Py.result unit :=
  fun _ _ => Raise (Exn OSError "[Errno 28] No space left on device").

(** A logger created over the log that holds the first entry, as a new
    process creates it, and one call of [log_action] on it. *)
Definition hash_3 : string :=
  "439070466120eba02d184dc91d5350cea41e42076d5efa8eee5bf2aa48d667c1".

Definition entry_after_restart : value :=
  audit_entry "bob" "report" Logging.genesis_hash hash_3.

Definition restart_loads : string -> Py.result value :=
  decoder_for [entry_1; entry_2; entry_after_restart].

Definition log_after_restart : Py.result (Logging.AuditLogger * string) :=
  Logging.log_action (Logging.new_logger (Some [line_of entry_1])) clock0
    (VStr "bob") (VStr "10.0.0.1") (VStr "report") (VStr "ok") VNone.

(** A collector that holds two pieces of evidence. *)
Definition two_items : Profiler.EvidenceCollector :=
  Profiler.collect (lab disk_ok)
    (Profiler.collect (lab disk_ok)
       (Profiler.MkCollector "TargetProfiler" (VStr "case-1") [])
       "dns_resolution" dns_answer)
    "network_scan" scan_answer.

(** A disk that refuses one path. *)
Definition disk_without (path : string) : string -> value -> Py.result unit :=
  fun p _ => if String.eqb p path
             then Raise (Exn OSError "[Errno 13] Permission denied")
             else Ok tt.

(** The lab where the evidence directory cannot be created. *)
Definition lab_read_only : Profiler.collaborators :=
  Profiler.Collaborators
    clock0
    str_of
    (Profiler.parse_target_url (lab disk_ok))
    (Profiler.resolve_target (lab disk_ok))
    (Profiler.scan_target (lab disk_ok))
    (Profiler.fingerprint_service (lab disk_ok))
    (Profiler.fingerprint_http (lab disk_ok))
    (Profiler.probe_common_paths (lab disk_ok))
    (Profiler.collect_osint (lab disk_ok))
    (Profiler.vuln_db (lab disk_ok))
    (Raise (Exn OSError "[Errno 30] Read-only file system: 'evidence'"))
    disk_ok.

(** The lab with a scanner that cannot reach the network. *)
Definition lab_unreachable : Profiler.collaborators :=
  Profiler.Collaborators
    clock0
    str_of
    (Profiler.parse_target_url (lab disk_ok))
    (Profiler.resolve_target (lab disk_ok))
    (fun host scan_type => Raise (Exn OSError "[Errno 101] Network is unreachable"))
    (Profiler.fingerprint_service (lab disk_ok))
    (Profiler.fingerprint_http (lab disk_ok))
    (Profiler.probe_common_paths (lab disk_ok))
    (Profiler.collect_osint (lab disk_ok))
    (Profiler.vuln_db (lab disk_ok))
    (Ok tt)
    disk_ok.

(** The lab with a resolver that fails and a scanner that answers by host. *)
Definition lab_no_dns : Profiler.collaborators :=
  Profiler.Collaborators
    clock0
    str_of
    (Profiler.parse_target_url (lab disk_ok))
    (fun host => Raise (Exn RuntimeError "no nameservers"))
    (fun host scan_type =>
       Ok (VDict [("host", host); ("scan_type", VStr scan_type);
                  ("open_ports", VList [])]))
    (Profiler.fingerprint_service (lab disk_ok))
    (Profiler.fingerprint_http (lab disk_ok))
    (Profiler.probe_common_paths (lab disk_ok))
    (Profiler.collect_osint (lab disk_ok))
    (Profiler.vuln_db (lab disk_ok))
    (Ok tt)
    disk_ok.

End Examples.

(** ** Vocabulary of the statements *)

(** [r] returns, or raises an exception of a class in [ok]. *)
Definition raises_only {A} (ok : exn_class -> Prop) (r : result A) : Prop :=
  match r with
  | Ok _ => True
  | Raise e => ok (exn_cls e)
  end.

(** The events after the completion stamp, by what sealing does. *)
Definition sealing_events (ce : bool) (r : Py.result (list (string * string)))
  : list Profiler.event :=
  if ce then
    match r with
    | Ok _ => [Profiler.Step Profiler.SEAL; Profiler.Call Profiler.call_save_all;
               Profiler.Assign "evidence_sealed"; Profiler.Assign "evidence_files"]
    | Raise _ => [Profiler.Step Profiler.SEAL; Profiler.Call Profiler.call_save_all]
    end
  else [].

(** The profile after sealing. *)
Definition sealed_profile (ce : bool) (r : Py.result (list (string * string)))
    (profile : list (string * value)) : list (string * value) :=
  if ce then
    match r with
    | Ok files =>
        dict_set "evidence_files" (VList (map (fun kv => VStr (snd kv)) files))
          (dict_set "evidence_sealed" (VBool true) profile)
    | Raise _ => profile
    end
  else profile.

(** Two lists that agree everywhere except at one position, which holds [x]
    in the first and [y] in the second. *)
Inductive differ_at {A} (x y : A) : list A -> list A -> Prop :=
| differ_here l : differ_at x y (x :: l) (y :: l)
| differ_there a l1 l2 : differ_at x y l1 l2 -> differ_at x y (a :: l1) (a :: l2).

(** The bytes [seal_evidence] feeds to the digest. *)
Definition hashed_bytes (now : clock) (data metadata : value)
  : result string :=
  let* evidence_str :=
    Json.dumps true
      (Crypto.evidence_package (utcnow_isoformat now) data metadata) in
  Ok (Json.encode evidence_str).

(** * Properties *)

(** ** Sanity checks of the primitives *)

Example sha256_empty :
  Sha256.hexdigest "" =
  "e3b0c44298fc1c149afbf4c8996fb92427ae41e4649b934ca495991b7852b855".
Proof. vm_compute. reflexivity. Qed.

Example sha256_abc :
  Sha256.hexdigest "abc" =
  "ba7816bf8f01cfea414140de5dae2223b00361a396177a9cb410ff61f20015ad".
Proof. vm_compute. reflexivity. Qed.

Example sha256_two_blocks :
  Sha256.hexdigest "abcdbcdecdefdefgefghfghighijhijkijkljklmklmnlmnomnopnopq" =
  "248d6a61d20638b8e5c026930c3e6039a33ce45964ff2167f6ecedd419db06c1".
Proof. vm_compute. reflexivity. Qed.

Example dumps_sorted_example :
  Json.dumps true
    (VDict [("b", VList [VInt 1; VNone]); ("a", VStr "x"); ("c", VDict [])]) =
  Ok (String.concat ""
        ["{"; Json.encode_basestring_ascii "a"; ": ";
         Json.encode_basestring_ascii "x"; ", ";
         Json.encode_basestring_ascii "b"; ": [1, null], ";
         Json.encode_basestring_ascii "c"; ": {}}"]).
Proof. vm_compute. reflexivity. Qed.

Example dumps_negative_int : Json.dumps true (VInt (-42)) = Ok "-42".
Proof. reflexivity. Qed.

Example dumps_control_char :
  Json.encode_basestring_ascii (String (ascii_of_nat 1) "") =
  String Json.dquote ("\u0001" ++ String Json.dquote "")%string.
Proof. reflexivity. Qed.

(** ** Which exceptions the primitives raise *)

Lemma raises_only_bind {A B} ok (m : result A) (k : A -> result B) :
  raises_only ok m -> (forall a, raises_only ok (k a)) ->
  raises_only ok (let* a := m in k a).
Proof. destruct m as [a|e]; simpl; auto. Qed.

Lemma sequence_raises {A} ok (l : list (result A)) :
  Forall (raises_only ok) l -> raises_only ok (Json.sequence l).
Proof.
  induction 1 as [|r l Hr _ IH]; simpl; [exact I|].
  apply raises_only_bind; [exact Hr|]. intros x.
  apply raises_only_bind; [exact IH|]. intros xs. exact I.
Qed.

Lemma Forall_insert_item {A} (Q : string * A -> Prop) kv l :
  Q kv -> Forall Q l -> Forall Q (Json.insert_item kv l).
Proof.
  intros Hkv. induction 1 as [|x l Hx Hl IH]; simpl.
  - repeat constructor; exact Hkv.
  - destruct (String.leb _ _); repeat constructor; auto.
Qed.

Lemma Forall_sort_items {A} (Q : string * A -> Prop) l :
  Forall Q l -> Forall Q (Json.sort_items l).
Proof.
  induction 1 as [|x l Hx Hl IH]; simpl; [constructor|].
  apply Forall_insert_item; assumption.
Qed.

Lemma dumps_raises_TypeError sort_keys v :
  raises_only (fun c => c = TypeError) (Json.dumps sort_keys v).
Proof.
  induction v as [ | [] | | | l IH | l IH | d IH | n ] using value_nested_ind;
    simpl; auto.
  - apply raises_only_bind; [|intros; exact I].
    apply sequence_raises. rewrite Forall_map. exact IH.
  - apply raises_only_bind; [|intros; exact I].
    apply sequence_raises. rewrite Forall_map. exact IH.
  - apply raises_only_bind; [|intros; exact I].
    apply sequence_raises. rewrite Forall_map.
    assert (Hitems : Forall (fun kv : string * result string =>
                raises_only (fun c => c = TypeError) (snd kv))
              (map (fun kv => (fst kv, Json.dumps sort_keys (snd kv))) d)).
    { rewrite Forall_map. exact IH. }
    assert (Hall : forall items : list (string * result string),
               Forall (fun kv => raises_only (fun c => c = TypeError) (snd kv)) items ->
               Forall (fun kv => raises_only (fun c => c = TypeError)
                                   (Json.encode_item kv)) items).
    { intros items Hi. eapply Forall_impl; [exact Hi|].
      intros [k r] Hr. unfold Json.encode_item.
      apply raises_only_bind; [exact Hr|]. intros; exact I. }
    destruct sort_keys; apply Hall; [apply Forall_sort_items|]; exact Hitems.
Qed.

Lemma getitem_raises v k :
  raises_only (fun c => c = KeyError \/ c = TypeError) (getitem v k).
Proof.
  destruct v; simpl; auto.
  destruct (dict_lookup k d); simpl; auto.
Qed.

(** ** Evidence seals *)

Lemma verify_seal_total self sealed :
  exists b, Crypto.verify_seal self sealed = Ok b.
Proof.
  unfold Crypto.verify_seal.
  match goal with |- context [try_except ?m _] => 
    assert (H : raises_only (fun c => c = KeyError \/ c = TypeError) m) end.
  { apply raises_only_bind; [apply getitem_raises|]. intros ev.
    apply raises_only_bind; [apply getitem_raises|]. intros seal.
    apply raises_only_bind.
    { generalize (dumps_raises_TypeError true ev).
      destruct (Json.dumps true ev); simpl; auto. }
    intros s. apply raises_only_bind; [apply getitem_raises|]. intros; exact I. }
  match goal with |- context [try_except ?m _] => destruct m as [b|e] end;
    simpl in *; [eauto|].
  destruct H as [-> | ->]; eauto.
Qed.


Lemma verify_seal_of_seal_evidence self now data metadata sealed :
  Crypto.seal_evidence self now data metadata = Ok sealed ->
  Crypto.verify_seal self sealed = Ok true.
Proof.
  unfold Crypto.seal_evidence.
  remember (Crypto.evidence_package _ data metadata) as ev.
  destruct (Json.dumps true ev) as [s|e] eqn:E; simpl; [|discriminate].
  intros [= <-]. unfold Crypto.verify_seal. simpl getitem. cbn [bind].
  rewrite E. simpl. rewrite String.eqb_refl. reflexivity.
Qed.

(** *** Changing one value of a dictionary changes its serialization *)

Lemma differ_at_middle {A} (x y : A) pre post :
  differ_at x y (pre ++ x :: post) (pre ++ y :: post).
Proof. induction pre; simpl; constructor; assumption. Qed.

Lemma differ_at_map {A B} (f : A -> B) x y l1 l2 :
  differ_at x y l1 l2 -> differ_at (f x) (f y) (map f l1) (map f l2).
Proof. induction 1; simpl; constructor; assumption. Qed.

Lemma differ_at_nonempty {A} (x y : A) l1 l2 :
  differ_at x y l1 l2 -> l1 <> [] /\ l2 <> [].
Proof. destruct 1; split; discriminate. Qed.

Lemma insert_item_same_key {A} (x y : string * A) l :
  fst x = fst y ->
  differ_at x y (Json.insert_item x l) (Json.insert_item y l).
Proof.
  intros Hk. induction l as [|a l IH]; simpl; [constructor|].
  rewrite <- Hk. destruct (String.leb (fst x) (fst a)); constructor. exact IH.
Qed.

Lemma insert_item_differ {A} (kv x y : string * A) l1 l2 :
  fst x = fst y -> differ_at x y l1 l2 ->
  differ_at x y (Json.insert_item kv l1) (Json.insert_item kv l2).
Proof.
  intros Hk. induction 1 as [l|a l1 l2 H IH]; simpl.
  - rewrite <- Hk. destruct (String.leb (fst kv) (fst x)); repeat constructor.
  - destruct (String.leb (fst kv) (fst a)); repeat constructor; assumption.
Qed.

Lemma sort_items_differ {A} (x y : string * A) l1 l2 :
  fst x = fst y -> differ_at x y l1 l2 ->
  differ_at x y (Json.sort_items l1) (Json.sort_items l2).
Proof.
  intros Hk. induction 1 as [l|a l1 l2 _ IH]; simpl.
  - apply insert_item_same_key; exact Hk.
  - apply insert_item_differ; assumption.
Qed.

Lemma sequence_differ {A} (a b : A) l1 l2 c1 c2 :
  differ_at (Ok a) (Ok b) l1 l2 ->
  Json.sequence l1 = Ok c1 -> Json.sequence l2 = Ok c2 ->
  differ_at a b c1 c2.
Proof.
  intros H. revert c1 c2. induction H as [l|r l1 l2 _ IH]; simpl; intros c1 c2.
  - destruct (Json.sequence l); simpl; [|discriminate].
    intros [= <-] [= <-]. constructor.
  - destruct r as [x|e]; simpl; [|discriminate].
    destruct (Json.sequence l1) as [xs1|]; simpl; [|discriminate].
    destruct (Json.sequence l2) as [xs2|]; simpl; [|discriminate].
    intros [= <-] [= <-]. constructor. apply IH; reflexivity.
Qed.

Lemma string_app_inv_tail (s1 s2 t : string) :
  (s1 ++ t)%string = (s2 ++ t)%string -> s1 = s2.
Proof.
  intros H.
  assert (Hl : forall a b, list_ascii_of_string (a ++ b)%string =
                           list_ascii_of_string a ++ list_ascii_of_string b).
  { induction a; simpl; intros; [reflexivity|]. f_equal. apply IHa. }
  apply (f_equal list_ascii_of_string) in H. rewrite !Hl in H.
  apply app_inv_tail in H.
  rewrite <- (string_of_list_ascii_of_string s1),
          <- (string_of_list_ascii_of_string s2), H. reflexivity.
Qed.

Lemma string_app_inv_head (s t1 t2 : string) :
  (s ++ t1)%string = (s ++ t2)%string -> t1 = t2.
Proof. induction s; simpl; [auto|]. intros [= H]. auto. Qed.

Lemma concat_differ sep (a b : string) c1 c2 :
  differ_at a b c1 c2 -> a <> b -> String.concat sep c1 <> String.concat sep c2.
Proof.
  intros H Hab. induction H as [l|x l1 l2 H IH].
  - destruct l as [|z l]; simpl; [exact Hab|].
    intros E. apply string_app_inv_tail in E. contradiction.
  - destruct (differ_at_nonempty _ _ _ _ H) as [H1 H2].
    destruct l1 as [|z1 l1]; [contradiction|].
    destruct l2 as [|z2 l2]; [contradiction|].
    change (String.concat sep (x :: z1 :: l1))
      with (x ++ sep ++ String.concat sep (z1 :: l1))%string.
    change (String.concat sep (x :: z2 :: l2))
      with (x ++ sep ++ String.concat sep (z2 :: l2))%string.
    intros E. apply string_app_inv_head in E. apply string_app_inv_head in E.
    contradiction.
Qed.

Lemma dumps_dict_differ k v1 v2 s1 s2 d1 d2 t1 t2 :
  differ_at (k, v1) (k, v2) d1 d2 ->
  Json.dumps true v1 = Ok s1 -> Json.dumps true v2 = Ok s2 -> s1 <> s2 ->
  Json.dumps true (VDict d1) = Ok t1 -> Json.dumps true (VDict d2) = Ok t2 ->
  t1 <> t2.
Proof.
  intros Hd E1 E2 Hs. simpl.
  set (f := fun kv : string * value => (fst kv, Json.dumps true (snd kv))).
  assert (Hitems : differ_at (Ok (Json.encode_basestring_ascii k ++ ": " ++ s1)%string)
                             (Ok (Json.encode_basestring_ascii k ++ ": " ++ s2)%string)
                     (map Json.encode_item (Json.sort_items (map f d1)))
                     (map Json.encode_item (Json.sort_items (map f d2)))).
  { pose proof (differ_at_map f _ _ _ _ Hd) as H1. unfold f at 1 2 in H1.
    simpl in H1. rewrite E1, E2 in H1.
    apply sort_items_differ in H1; [|reflexivity].
    apply (differ_at_map Json.encode_item) in H1. exact H1. }
  destruct (Json.sequence (map Json.encode_item (Json.sort_items (map f d1))))
    as [c1|] eqn:S1; simpl; [|discriminate].
  destruct (Json.sequence (map Json.encode_item (Json.sort_items (map f d2))))
    as [c2|] eqn:S2; simpl; [|discriminate].
  intros [= <-] [= <-] E.
  apply string_app_inv_head in E. apply string_app_inv_tail in E.
  revert E. apply (concat_differ _ _ _ _ _ (sequence_differ _ _ _ _ _ _ Hitems S1 S2)).
  intros E. apply string_app_inv_head in E. apply string_app_inv_head in E.
  contradiction.
Qed.

(** *** UTF-8 encoding is injective *)

Lemma append_cons c (s t : string) :
  (String c s ++ t)%string = String c (s ++ t)%string.
Proof. reflexivity. Qed.

Lemma append_nil (t : string) : ("" ++ t)%string = t.
Proof. reflexivity. Qed.

Lemma encode_char_inj c1 c2 r1 r2 :
  (Json.encode_char c1 ++ r1)%string = (Json.encode_char c2 ++ r2)%string ->
  c1 = c2 /\ r1 = r2.
Proof.
  unfold Json.encode_char.
  pose proof (nat_ascii_bounded c1) as B1. pose proof (nat_ascii_bounded c2) as B2.
  pose proof (Nat.div_mod_eq (nat_of_ascii c1) 64) as Q1.
  pose proof (Nat.div_mod_eq (nat_of_ascii c2) 64) as Q2.
  pose proof (Nat.mod_upper_bound (nat_of_ascii c1) 64 ltac:(lia)) as M1.
  pose proof (Nat.mod_upper_bound (nat_of_ascii c2) 64 ltac:(lia)) as M2.
  revert Q1 Q2 M1 M2.
  generalize (nat_of_ascii c1 / 64) (nat_of_ascii c1 mod 64)
             (nat_of_ascii c2 / 64) (nat_of_ascii c2 mod 64).
  intros q1 m1 q2 m2 Q1 Q2 M1 M2.
  destruct (Nat.ltb_spec (nat_of_ascii c1) 128) as [L1|L1];
    destruct (Nat.ltb_spec (nat_of_ascii c2) 128) as [L2|L2];
    rewrite ?append_cons, ?append_nil.
  - intros [= -> ->]. auto.
  - intros [= E _]. apply (f_equal nat_of_ascii) in E.
    rewrite nat_ascii_embedding in E by lia. lia.
  - intros [= E _]. apply (f_equal nat_of_ascii) in E.
    rewrite nat_ascii_embedding in E by lia. lia.
  - intros [= E1 E2 ->]. split; [|reflexivity].
    apply (f_equal nat_of_ascii) in E1, E2.
    rewrite !nat_ascii_embedding in E1, E2 by lia.
    rewrite <- (ascii_nat_embedding c1), <- (ascii_nat_embedding c2).
    f_equal. lia.
Qed.

Lemma encode_inj s1 s2 : Json.encode s1 = Json.encode s2 -> s1 = s2.
Proof.
  revert s2.
  induction s1 as [|c1 s1 IH]; intros [|c2 s2]; simpl; auto.
  - unfold Json.encode_char.
    destruct (Nat.ltb _ 128); rewrite ?append_cons; discriminate.
  - unfold Json.encode_char.
    destruct (Nat.ltb _ 128); rewrite ?append_cons; discriminate.
  - intros E. apply encode_char_inj in E. destruct E as [-> E].
    f_equal. apply IH. exact E.
Qed.

(** *** C8 *)

Lemma seal_evidence_hash self now data metadata sealed :
  Crypto.seal_evidence self now data metadata = Ok sealed ->
  exists b, hashed_bytes now data metadata = Ok b /\
            Crypto.seal_hash sealed = Ok (VStr (Crypto.hashlib_hexdigest self b)).
Proof.
  unfold Crypto.seal_evidence, hashed_bytes.
  destruct (Json.dumps true _) as [s|e]; simpl; [|discriminate].
  intros [= <-]. eexists. split; reflexivity.
Qed.

Lemma hashed_bytes_differ now pre post k v1 v2 metadata s1 s2 b1 b2 :
  Json.dumps true v1 = Ok s1 -> Json.dumps true v2 = Ok s2 -> s1 <> s2 ->
  hashed_bytes now (VDict (pre ++ (k, v1) :: post)) metadata = Ok b1 ->
  hashed_bytes now (VDict (pre ++ (k, v2) :: post)) metadata = Ok b2 ->
  b1 <> b2.
Proof.
  intros E1 E2 Hs. unfold hashed_bytes.
  set (ts := utcnow_isoformat now).
  remember (VDict (pre ++ (k, v1) :: post)) as d1 eqn:D1.
  remember (VDict (pre ++ (k, v2) :: post)) as d2 eqn:D2.
  destruct (Json.dumps true (Crypto.evidence_package ts d1 metadata))
    as [t1|] eqn:T1; cbn [bind]; [|discriminate].
  destruct (Json.dumps true (Crypto.evidence_package ts d2 metadata))
    as [t2|] eqn:T2; cbn [bind]; [|discriminate].
  intros [= <-] [= <-] E. apply encode_inj in E. revert E.
  (* the data dictionaries serialize, and differently *)
  destruct (Json.dumps true d1) as [u1|e1] eqn:U1.
  2:{ unfold Crypto.evidence_package in T1. cbn in T1. rewrite U1 in T1.
      cbn in T1. discriminate. }
  destruct (Json.dumps true d2) as [u2|e2] eqn:U2.
  2:{ unfold Crypto.evidence_package in T2. cbn in T2. rewrite U2 in T2.
      cbn in T2. discriminate. }
  assert (Hu : u1 <> u2).
  { subst d1 d2.
    exact (dumps_dict_differ k v1 v2 s1 s2 _ _ u1 u2
             (differ_at_middle _ _ pre post) E1 E2 Hs U1 U2). }
  eapply (dumps_dict_differ "data"); [| exact U1 | exact U2 | exact Hu | exact T1 | exact T2].
  unfold Crypto.evidence_package.
  apply (differ_at_middle _ _ [(_, _)]).
Qed.

Lemma hashed_bytes_congr now data1 data2 metadata :
  Json.dumps true data1 = Json.dumps true data2 ->
  hashed_bytes now data1 metadata = hashed_bytes now data2 metadata.
Proof.
  intros H. unfold hashed_bytes, Crypto.evidence_package.
  cbn [Json.dumps map fst snd Json.sort_items fold_right Json.insert_item
       String.leb String.compare Ascii.compare].
  rewrite H. reflexivity.
Qed.

(** C8 (as amended).  [seal_evidence] reads nothing but its arguments and the
    clock: two calls that see the same timestamp return the same package.
    Replacing the value stored under one key of [data] by a value with a
    different JSON serialization changes the bytes that are hashed; the two
    packages then carry different hashes unless the digest collides on these
    two byte strings.  Data values with the same serialization are sealed
    with the same hash. *)
Theorem seal_evidence_deterministic_and_sensitive (self : Crypto.EvidenceSealer) :
  (forall now1 now2 data metadata,
      utcnow_isoformat now1 = utcnow_isoformat now2 ->
      Crypto.seal_evidence self now1 data metadata =
      Crypto.seal_evidence self now2 data metadata) /\
  (forall now pre post k v1 v2 metadata s1 s2 sealed1 sealed2,
      Json.dumps true v1 = Ok s1 -> Json.dumps true v2 = Ok s2 -> s1 <> s2 ->
      Crypto.seal_evidence self now (VDict (pre ++ (k, v1) :: post)) metadata
        = Ok sealed1 ->
      Crypto.seal_evidence self now (VDict (pre ++ (k, v2) :: post)) metadata
        = Ok sealed2 ->
      exists b1 b2,
        hashed_bytes now (VDict (pre ++ (k, v1) :: post)) metadata = Ok b1 /\
        hashed_bytes now (VDict (pre ++ (k, v2) :: post)) metadata = Ok b2 /\
        b1 <> b2 /\
        Crypto.seal_hash sealed1 = Ok (VStr (Crypto.hashlib_hexdigest self b1)) /\
        Crypto.seal_hash sealed2 = Ok (VStr (Crypto.hashlib_hexdigest self b2)) /\
        ((Crypto.hashlib_hexdigest self b1 = Crypto.hashlib_hexdigest self b2 ->
          b1 = b2) ->
         Crypto.seal_hash sealed1 <> Crypto.seal_hash sealed2)) /\
  (forall now data1 data2 metadata sealed1 sealed2,
      Json.dumps true data1 = Json.dumps true data2 ->
      Crypto.seal_evidence self now data1 metadata = Ok sealed1 ->
      Crypto.seal_evidence self now data2 metadata = Ok sealed2 ->
      Crypto.seal_hash sealed1 = Crypto.seal_hash sealed2).
Proof.
  split; [|split].
  - intros now1 now2 data metadata Hts. unfold Crypto.seal_evidence.
    rewrite Hts. reflexivity.
  - intros now pre post k v1 v2 metadata s1 s2 sealed1 sealed2 E1 E2 Hs S1 S2.
    destruct (seal_evidence_hash _ _ _ _ _ S1) as (b1 & B1 & H1).
    destruct (seal_evidence_hash _ _ _ _ _ S2) as (b2 & B2 & H2).
    pose proof (hashed_bytes_differ _ _ _ _ _ _ _ _ _ _ _ E1 E2 Hs B1 B2) as Hb.
    exists b1, b2. repeat split; try assumption.
    intros Hinj. rewrite H1, H2. intros [= E]. apply Hb, Hinj, E.
  - intros now data1 data2 metadata sealed1 sealed2 Hd S1 S2.
    destruct (seal_evidence_hash _ _ _ _ _ S1) as (b1 & B1 & H1).
    destruct (seal_evidence_hash _ _ _ _ _ S2) as (b2 & B2 & H2).
    rewrite (hashed_bytes_congr now data1 data2 metadata Hd), B2 in B1.
    injection B1 as ->. rewrite H1, H2. reflexivity.
Qed.

(** With the default SHA-256 sealer, changing the port from 80 to 443 changes
    the sealed hash. *)
Lemma seal_evidence_sensitive_witness :
  exists sealed1 sealed2,
    Crypto.seal_evidence Crypto.default_sealer Examples.clock0
      Examples.port_80 Examples.meta0 = Ok sealed1 /\
    Crypto.seal_evidence Crypto.default_sealer Examples.clock0
      Examples.port_443 Examples.meta0 = Ok sealed2 /\
    Crypto.seal_hash sealed1 <> Crypto.seal_hash sealed2.
Proof.
  eexists; eexists.
  split; [reflexivity|]. split; [reflexivity|].
  destruct (proj1 (proj2 (seal_evidence_deterministic_and_sensitive
                              Crypto.default_sealer))
              Examples.clock0 [("host", VStr "10.0.0.1")] [] "port"
              (VInt 80) (VInt 443) Examples.meta0 "80" "443" _ _
              eq_refl eq_refl ltac:(discriminate) eq_refl eq_refl)
    as (b1 & b2 & B1 & B2 & _ & _ & _ & H).
  apply H. injection B1 as <-. injection B2 as <-.
  vm_compute. discriminate.
Defined.

(** C8, second half as stated, fails: a list and a tuple with the same items
    are different values of the key, yet both packages carry the same hash. *)
Lemma seal_evidence_list_tuple_same_hash :
  getitem Examples.ports_as_list "ports" <> getitem Examples.ports_as_tuple "ports" /\
  exists sealed1 sealed2,
    Crypto.seal_evidence Crypto.default_sealer Examples.clock0
      Examples.ports_as_list VNone = Ok sealed1 /\
    Crypto.seal_evidence Crypto.default_sealer Examples.clock0
      Examples.ports_as_tuple VNone = Ok sealed2 /\
    Crypto.seal_hash sealed1 = Crypto.seal_hash sealed2.
Proof.
  split; [discriminate|].
  eexists; eexists. split; [reflexivity|].
  split; [reflexivity|]. reflexivity.
Qed.

(** *** C10 *)



Example verify_seal_detects_tampering :
  Crypto.verify_seal Crypto.default_sealer
    (VDict [("evidence", Examples.port_443);
            ("seal", VDict [("hash", VStr (Sha256.hexdigest "x"))])]) = Ok false.
Proof. vm_compute. reflexivity. Qed.

Example verify_seal_non_dict :
  Crypto.verify_seal Crypto.default_sealer (VList [VInt 1]) = Ok false.
Proof. reflexivity. Qed.

Example seal_evidence_unserializable :
  Crypto.seal_evidence Crypto.default_sealer Examples.clock0
    (VDict [("path", VOther "PosixPath")]) VNone =
  Raise (Exn TypeError "Object of type PosixPath is not JSON serializable").
Proof. vm_compute. reflexivity. Qed.

(** ** The audit chain *)

Ltac break_result :=
  repeat match goal with
         | H : Ok _ = Ok _ |- _ => injection H as H; try subst
         | H : inl _ = inl _ |- _ => injection H as H; try subst
         | H : inr _ = inr _ |- _ => injection H as H; try subst
         | H : (_, _) = (_, _) |- _ => injection H as ? ?; try subst
         | H : Raise _ = Ok _ |- _ => discriminate H
         | H : Ok _ = Raise _ |- _ => discriminate H
         | H : inl _ = inr _ |- _ => discriminate H
         | H : inr _ = inl _ |- _ => discriminate H
         end.

Lemma str_eq_value_true s x : str_eq_value s x = true <-> x = VStr s.
Proof.
  destruct x; simpl; try (split; [discriminate|discriminate]).
  rewrite String.eqb_eq. split; [intros ->; reflexivity|intros [= ->]; reflexivity].
Qed.

Section ReaderProps.
Variable json_loads : string -> Py.result value.

Local Abbreviation verify_line := (Logging.verify_line json_loads).
Local Abbreviation verify_lines := (Logging.verify_lines json_loads).
Local Abbreviation chain_valid := (Logging.chain_valid json_loads).

(** An iteration goes on to the next line exactly when the line is a valid
    link, and then with the hash stored in it. *)
Lemma verify_line_continues previous_hash line_num line h :
  verify_line previous_hash line_num line = Ok (inr h) <->
  exists d s,
    json_loads (strip line) = Ok (VDict d) /\
    dict_lookup "previous_hash" d = Some (VStr previous_hash) /\
    dict_lookup "hash" d = Some (VStr h) /\
    Json.dumps true (VDict (dict_remove "hash" d)) = Ok s /\
    h = Sha256.hexdigest (Json.encode s).
Proof.
  unfold Logging.verify_line. split.
  - destruct (json_loads (strip line)) as [entry|e] eqn:EL; cbn [bind try_except].
    2:{ destruct (exn_cls e); intros; break_result. }
    destruct entry as [ | | | | | | d | ]; cbn [get bind try_except exn_cls];
      try (intros; break_result; fail).
    destruct (dict_lookup "previous_hash" d) as [claimed|] eqn:EP.
    2:{ cbn [str_eq_value negb try_except]. intros; break_result. }
    destruct (str_eq_value previous_hash claimed) eqn:EC; cbn [negb try_except];
      [|intros; break_result].
    apply str_eq_value_true in EC. subst claimed.
    unfold Logging.pop. destruct (dict_lookup "hash" d) as [stored|] eqn:EH;
      cbn [bind try_except exn_cls]; [|intros; break_result].
    destruct (Json.dumps true (VDict (dict_remove "hash" d))) as [s|e] eqn:ED;
      cbn [bind try_except].
    2:{ pose proof (dumps_raises_TypeError true (VDict (dict_remove "hash" d))) as HT.
        rewrite ED in HT. simpl in HT. rewrite HT. intros; break_result. }
    destruct (str_eq_value (Sha256.hexdigest (Json.encode s)) stored) eqn:ES;
      cbn [negb try_except]; [|intros; break_result].
    apply str_eq_value_true in ES. subst stored.
    intros H. break_result. exists d, s. auto.
  - intros (d & s & EL & EP & EH & ED & ->).
    rewrite EL. cbn [bind get]. rewrite EP.
    cbn [str_eq_value]. rewrite String.eqb_refl. cbn [negb].
    unfold Logging.pop. rewrite EH. cbn [bind]. rewrite ED. cbn [bind].
    cbn [str_eq_value]. rewrite String.eqb_refl. reflexivity.
Qed.

(** A verdict reached inside the loop is always a failure. *)
Lemma verify_line_verdict previous_hash line_num line b msg :
  verify_line previous_hash line_num line = Ok (inl (b, msg)) -> b = false.
Proof.
  unfold Logging.verify_line.
  destruct (json_loads (strip line)) as [entry|e]; cbn [bind try_except].
  2:{ destruct (exn_cls e); intros; break_result; reflexivity. }
  destruct (get entry "previous_hash" VNone) as [claimed|e]; cbn [bind try_except].
  2:{ destruct (exn_cls e); intros; break_result; reflexivity. }
  destruct (negb (str_eq_value previous_hash claimed)); cbn [try_except].
  { intros; break_result; reflexivity. }
  destruct (Logging.pop entry "hash") as [[stored d]|e]; cbn [bind try_except].
  2:{ destruct (exn_cls e); intros; break_result; reflexivity. }
  destruct (Json.dumps true (VDict d)) as [s|e]; cbn [bind try_except].
  2:{ destruct (exn_cls e); intros; break_result; reflexivity. }
  destruct (negb _); cbn [try_except]; intros; break_result; reflexivity.
Qed.

(** The loop returns [True] exactly on valid chains. *)
Lemma verify_lines_true_iff lines previous_hash line_num :
  (exists msg, verify_lines lines previous_hash line_num = Ok (true, msg)) <->
  chain_valid previous_hash lines.
Proof.
  revert previous_hash line_num.
  induction lines as [|line rest IH]; intros previous_hash line_num;
    cbn [Logging.verify_lines Logging.chain_valid].
  - split; [auto|]. intros _. eexists. reflexivity.
  - destruct (verify_line previous_hash (S line_num) line) as [[[b m]|h]|e] eqn:EV;
      cbn [bind].
    + pose proof (verify_line_verdict _ _ _ _ _ EV) as ->. split.
      * intros [msg H]. discriminate H.
      * intros (d & h & s & EL & EP & EH & ED & Eh & _).
        assert (verify_line previous_hash (S line_num) line = Ok (inr h)) as HV
            by (apply verify_line_continues; eauto 10).
        congruence.
    + rewrite IH. apply verify_line_continues in EV.
      destruct EV as (d & s & EL & EP & EH & ED & Eh). split.
      * intros HC. exists d, h, s. auto 10.
      * intros (d' & h' & s' & EL' & EP' & EH' & ED' & Eh' & HC).
        rewrite EL in EL'. injection EL' as <-.
        rewrite EH in EH'. injection EH' as <-. exact HC.
    + split; [intros [msg H]; discriminate H|].
      intros (d & h & s & EL & EP & EH & ED & Eh & _).
      assert (verify_line previous_hash (S line_num) line = Ok (inr h)) as HV
          by (apply verify_line_continues; eauto 10).
      congruence.
Qed.

End ReaderProps.

(** [verify_integrity] succeeds exactly on valid chains (and on a missing
    file). *)
Lemma verify_integrity_true_iff json_loads lines previous_hash :
  (exists msg,
      Logging.verify_integrity json_loads (Logging.Logger (Some lines) previous_hash)
      = Ok (true, msg)) <->
  Logging.chain_valid json_loads Logging.genesis_hash lines.
Proof. apply verify_lines_true_iff. Qed.

(** The three causes the loop reports, each with the number of the line. *)
Lemma verify_line_reports json_loads previous_hash line_num line :
  (forall e, json_loads (strip line) = Raise e -> exn_cls e = JSONDecodeError ->
     Logging.verify_line json_loads previous_hash line_num line =
     Ok (inl (false, "Invalid JSON at line " ++ Logging.str_nat line_num)%string)) /\
  (forall d, json_loads (strip line) = Ok (VDict d) ->
     dict_lookup "previous_hash" d <> Some (VStr previous_hash) ->
     Logging.verify_line json_loads previous_hash line_num line =
     Ok (inl (false, "Hash chain broken at line " ++ Logging.str_nat line_num)%string)) /\
  (forall d stored s, json_loads (strip line) = Ok (VDict d) ->
     dict_lookup "previous_hash" d = Some (VStr previous_hash) ->
     dict_lookup "hash" d = Some stored ->
     Json.dumps true (VDict (dict_remove "hash" d)) = Ok s ->
     stored <> VStr (Sha256.hexdigest (Json.encode s)) ->
     Logging.verify_line json_loads previous_hash line_num line =
     Ok (inl (false, "Hash mismatch at line " ++ Logging.str_nat line_num)%string)).
Proof.
  unfold Logging.verify_line. repeat split.
  - intros e -> He. cbn [bind try_except]. rewrite He. reflexivity.
  - intros d -> Hp. cbn [bind get].
    destruct (dict_lookup "previous_hash" d) as [claimed|]; [|reflexivity].
    destruct (str_eq_value previous_hash claimed) eqn:E; [|reflexivity].
    apply str_eq_value_true in E. congruence.
  - intros d stored s -> Hp Hh Hd Hs. cbn [bind get]. rewrite Hp.
    cbn [str_eq_value]. rewrite String.eqb_refl. cbn [negb].
    unfold Logging.pop. rewrite Hh. cbn [bind]. rewrite Hd. cbn [bind].
    destruct (str_eq_value _ stored) eqn:E; [|reflexivity].
    apply str_eq_value_true in E. congruence.
Qed.

(** The loop walks over a valid prefix: what it returns is decided by the
    first line after it, read with the last stored hash. *)
Lemma verify_lines_after_valid_prefix json_loads good tail previous_hash line_num h :
  Logging.chain_links json_loads previous_hash good h ->
  Logging.verify_lines json_loads (good ++ tail) previous_hash line_num =
  Logging.verify_lines json_loads tail h (line_num + List.length good).
Proof.
  revert previous_hash line_num.
  induction good as [|line good IH]; intros previous_hash line_num;
    cbn [Logging.chain_links app List.length].
  - intros <-. rewrite Nat.add_0_r. reflexivity.
  - intros (d & h1 & s & EL & EP & EH & ED & Eh & HC).
    cbn [Logging.verify_lines].
    assert (Logging.verify_line json_loads previous_hash (S line_num) line
            = Ok (inr h1)) as ->
        by (apply verify_line_continues; eauto 10).
    cbn [bind]. rewrite (IH _ _ HC). f_equal. lia.
Qed.

(** The loop stops at the first line that yields a verdict: the lines before
    it are valid links, the lines after it are never read. *)
Lemma verify_lines_first_verdict json_loads good bad rest previous_hash line_num h v :
  Logging.chain_links json_loads previous_hash good h ->
  Logging.verify_line json_loads h (S (line_num + List.length good)) bad = Ok (inl v) ->
  Logging.verify_lines json_loads (good ++ bad :: rest) previous_hash line_num = Ok v.
Proof.
  intros HC HV. rewrite (verify_lines_after_valid_prefix _ _ _ _ _ _ HC).
  cbn [Logging.verify_lines]. rewrite HV. reflexivity.
Qed.

(** *** What [log_action] appends *)

Lemma chain_links_app json_loads p l1 l2 m h :
  Logging.chain_links json_loads p l1 m ->
  Logging.chain_links json_loads m l2 h ->
  Logging.chain_links json_loads p (l1 ++ l2) h.
Proof.
  revert p. induction l1 as [|line l1 IH]; intros p; cbn [Logging.chain_links app].
  - intros ->. auto.
  - intros (d & h1 & s & EL & EP & EH & ED & Eh & HC) H2.
    exists d, h1, s. repeat split; auto.
Qed.

(** An entry appended by [log_action] continues the chain: its
    [previous_hash] is the hash returned by the call before and its [hash]
    is the digest of its key-sorted serialization without the [hash] entry,
    provided [json.loads] reads the written line back as the entry. *)
Lemma log_action_extends_chain json_loads self now user target action result
    auth_token self' h lines :
  Logging.audit_file self = Some lines ->
  Logging.chain_links json_loads Logging.genesis_hash lines
    (Logging._previous_hash self) ->
  Logging.log_action self now user target action result auth_token = Ok (self', h) ->
  Logging._previous_hash self' = h /\
  exists line,
    Logging.audit_file self' = Some (lines ++ [line]) /\
    (json_loads (strip line) =
       Ok (VDict [("timestamp", VStr (utcnow_isoformat now)); ("user", user);
                  ("target", target); ("action", action); ("result", result);
                  ("auth_token", auth_token);
                  ("previous_hash", VStr (Logging._previous_hash self));
                  ("hash", VStr h)]) ->
     Logging.chain_links json_loads Logging.genesis_hash (lines ++ [line]) h).
Proof.
  intros Hfile Hchain. unfold Logging.log_action. rewrite Hfile.
  match goal with
  | |- context [Json.dumps true ?e] => destruct (Json.dumps true e) as [s|e1] eqn:Es
  end; cbn [bind]; [|discriminate].
  match goal with
  | |- context [Json.dumps false ?e] => destruct (Json.dumps false e) as [l|e2] eqn:El
  end; cbn [bind]; [|discriminate].
  intros [= <- <-]. cbn [Logging._previous_hash Logging.audit_file].
  split; [reflexivity|]. eexists. split; [reflexivity|].
  intros Hloads. eapply chain_links_app; [exact Hchain|].
  cbn [Logging.chain_links]. eexists _, _, s.
  split; [exact Hloads|]. split; [reflexivity|]. split; [reflexivity|].
  split; [exact Es|]. split; reflexivity.
Qed.

(** C1.  A line that is valid JSON, continues the chain, and has no [hash]
    entry is a divergence the claim wants reported with its line number;
    [entry.pop("hash")] raises [KeyError] there, which the loop does not catch:
    [verify_integrity] raises instead of returning a verdict. *)
Theorem verify_integrity_missing_hash_raises json_loads good bad rest h d p :
  Logging.chain_links json_loads Logging.genesis_hash good h ->
  json_loads (strip bad) = Ok (VDict d) ->
  dict_lookup "previous_hash" d = Some (VStr h) ->
  dict_lookup "hash" d = None ->
  Logging.verify_integrity json_loads (Logging.Logger (Some (good ++ bad :: rest)) p)
  = Raise (Exn KeyError "'hash'").
Proof.
  intros HC EL EP EH. unfold Logging.verify_integrity. cbn [Logging.audit_file].
  rewrite (verify_lines_after_valid_prefix _ _ _ _ _ _ HC).
  cbn [Logging.verify_lines]. unfold Logging.verify_line.
  rewrite EL. cbn [bind get]. rewrite EP. cbn [str_eq_value].
  rewrite String.eqb_refl. cbn [negb]. unfold Logging.pop. rewrite EH.
  reflexivity.
Qed.

Lemma verify_integrity_missing_hash_witness :
  Logging.verify_integrity Examples.example_loads
    (Logging.new_logger (Some [Examples.line_of Examples.entry_without_hash]))
  = Raise (Exn KeyError "'hash'").
Proof.
  apply (verify_integrity_missing_hash_raises Examples.example_loads
           [] (Examples.line_of Examples.entry_without_hash) []
           Logging.genesis_hash
           [("timestamp", VStr "2024-05-01T12:00:00.000000");
            ("user", VStr "alice");
            ("previous_hash", VStr Logging.genesis_hash)]).
  - reflexivity.
  - vm_compute. reflexivity.
  - reflexivity.
  - reflexivity.
Defined.

Example verify_integrity_two_entries :
  Examples.two_entries =
    Ok (Logging.Logger
          (Some [Examples.line_of Examples.entry_1; Examples.line_of Examples.entry_2])
          Examples.hash_2) /\
  Logging.verify_integrity Examples.example_loads
    (Logging.new_logger
       (Some [Examples.line_of Examples.entry_1; Examples.line_of Examples.entry_2]))
  = Ok (true, "Audit log verified: 2 entries").
Proof. split; vm_compute; reflexivity. Qed.

Example verify_integrity_tampered_payload :
  Logging.verify_integrity Examples.example_loads
    (Logging.new_logger
       (Some [Examples.line_of Examples.entry_1;
              Examples.line_of Examples.entry_2_tampered]))
  = Ok (false, "Hash mismatch at line 2").
Proof. vm_compute. reflexivity. Qed.

Example verify_integrity_broken_link :
  Logging.verify_integrity Examples.example_loads
    (Logging.new_logger
       (Some [Examples.line_of Examples.entry_2; Examples.line_of Examples.entry_1]))
  = Ok (false, "Hash chain broken at line 1").
Proof. vm_compute. reflexivity. Qed.

Example verify_integrity_not_json :
  Logging.verify_integrity Examples.example_loads
    (Logging.new_logger (Some [Examples.line_of Examples.entry_1; "{oops"]))
  = Ok (false, "Invalid JSON at line 2").
Proof. vm_compute. reflexivity. Qed.

Example verify_integrity_no_file :
  Logging.verify_integrity Examples.example_loads (Logging.new_logger None)
  = Ok (true, "No audit log found").
Proof. reflexivity. Qed.

(** A line holding a JSON array: [entry.get] raises [AttributeError]. *)
Example verify_integrity_array_line :
  Logging.verify_integrity Examples.example_loads
    (Logging.new_logger (Some [Examples.line_of (VList [])]))
  = Raise (Exn AttributeError "'list' object has no attribute 'get'").
Proof. vm_compute. reflexivity. Qed.

(** ** The port scanner *)

Lemma scan_port_is_dict self net task host port :
  exists d, NetworkScanner.scan_port self net task host port = VDict d /\
            dict_lookup "port" d = Some (VInt port) /\
            dict_lookup "state" d =
              Some (VStr (NetworkScanner.classify (NetworkScanner.open_connection net task host port))).
Proof.
  unfold NetworkScanner.scan_port, NetworkScanner.classify, NetworkScanner.state_for,
    NetworkScanner.on_exception.
  destruct (NetworkScanner.open_connection net task host port)
    as [[data|e0] [|e]|e]; try destruct (negb (String.eqb data ""));
    try destruct (exn_cls e); eexists; split; try reflexivity; split; reflexivity.
Qed.

Lemma scan_port_state self net task host port :
  NetworkScanner.state_of (NetworkScanner.scan_port self net task host port)
  = Ok (VStr (NetworkScanner.classify (NetworkScanner.open_connection net task host port))).
Proof.
  destruct (scan_port_is_dict self net task host port) as (d & -> & _ & Hs).
  unfold NetworkScanner.state_of, getitem. rewrite Hs. reflexivity.
Qed.

Lemma classify_four_states o :
  In (NetworkScanner.classify o) ["open"; "closed"; "filtered"; "error"].
Proof.
  unfold NetworkScanner.classify, NetworkScanner.state_for.
  destruct o as [? [|e]|e]; try destruct (exn_cls e); simpl; auto 6.
Qed.

Lemma scan_tasks_all_dicts self net host task ports :
  List.filter NetworkScanner.is_dict_result
    (NetworkScanner.scan_tasks self net host task ports)
  = NetworkScanner.scan_tasks self net host task ports.
Proof.
  revert task. induction ports as [|p ports IH]; intros task; simpl; [reflexivity|].
  destruct (scan_port_is_dict self net task host p) as (d & -> & _).
  simpl. f_equal. apply IH.
Qed.

(** One result per requested port, in the order of the request. *)
Lemma scan_ports_one_per_port self net host ports :
  map NetworkScanner.port_of (NetworkScanner.scan_ports self net host ports)
  = map (fun p => Ok (VInt p)) ports.
Proof.
  unfold NetworkScanner.scan_ports. rewrite scan_tasks_all_dicts.
  generalize 0. induction ports as [|p ports IH]; intros task; simpl; [reflexivity|].
  f_equal; [|apply IH].
  destruct (scan_port_is_dict self net task host p) as (d & -> & Hp & _).
  unfold NetworkScanner.port_of, getitem. rewrite Hp. reflexivity.
Qed.

Lemma scan_ports_length self net host ports :
  List.length (NetworkScanner.scan_ports self net host ports) = List.length ports.
Proof.
  rewrite <- (length_map NetworkScanner.port_of), scan_ports_one_per_port.
  apply length_map.
Qed.

(** Every result carries one of the four states. *)
Lemma scan_ports_states self net host ports :
  Forall (fun r => exists s, NetworkScanner.state_of r = Ok (VStr s) /\
                             In s ["open"; "closed"; "filtered"; "error"])
         (NetworkScanner.scan_ports self net host ports).
Proof.
  unfold NetworkScanner.scan_ports. rewrite scan_tasks_all_dicts.
  generalize 0. induction ports as [|p ports IH]; intros task; simpl;
    constructor; [|apply IH].
  eexists. split; [apply scan_port_state|apply classify_four_states].
Qed.

(** The message of an exception classified as an error is kept. *)
Lemma scan_port_error_message self net task host port e :
  (NetworkScanner.open_connection net task host port = NetworkScanner.ConnectRaises e \/
   exists b, NetworkScanner.open_connection net task host port
             = NetworkScanner.Connected b (NetworkScanner.CloseRaises e)) ->
  NetworkScanner.state_for e = "error" ->
  getitem (NetworkScanner.scan_port self net task host port) "error"
  = Ok (VStr (str_exn e)).
Proof.
  unfold NetworkScanner.scan_port, NetworkScanner.state_for, NetworkScanner.on_exception.
  intros [-> | [b ->]].
  - destruct (exn_cls e); try discriminate; reflexivity.
  - destruct b as [data|e0]; try destruct (negb (String.eqb data ""));
      destruct (exn_cls e); try discriminate; reflexivity.
Qed.

(** C5.  The claim gives state ['open'] to every probe whose connect
    succeeded.  When closing the connection raises after a successful
    connect, the outer [except Exception] clause overwrites the state: the
    result says ['error'] (and carries the message) for a port that accepted
    the connection. *)
Theorem scan_port_connected_close_error self net task host port banner e :
  NetworkScanner.open_connection net task host port
    = NetworkScanner.Connected banner (NetworkScanner.CloseRaises e) ->
  exn_cls e <> AsyncioTimeoutError -> exn_cls e <> ConnectionRefusedError ->
  NetworkScanner.state_of (NetworkScanner.scan_port self net task host port)
    = Ok (VStr "error") /\
  getitem (NetworkScanner.scan_port self net task host port) "error"
    = Ok (VStr (str_exn e)).
Proof.
  intros Ho H1 H2.
  assert (Hs : NetworkScanner.state_for e = "error")
    by (unfold NetworkScanner.state_for; destruct (exn_cls e); congruence).
  split.
  - rewrite scan_port_state, Ho. simpl. rewrite Hs. reflexivity.
  - apply scan_port_error_message; [right; eauto|exact Hs].
Qed.

Lemma scan_port_connected_close_error_witness :
  NetworkScanner.state_of
    (NetworkScanner.scan_port Examples.default_scanner Examples.lab_network
       0 "127.0.0.1" 25) = Ok (VStr "error") /\
  getitem
    (NetworkScanner.scan_port Examples.default_scanner Examples.lab_network
       0 "127.0.0.1" 25) "error"
  = Ok (VStr "[Errno 104] Connection reset by peer").
Proof.
  apply (scan_port_connected_close_error Examples.default_scanner
           Examples.lab_network 0 "127.0.0.1" 25
           (NetworkScanner.ReadRaises
              (Exn ConnectionResetError "[Errno 104] Connection reset by peer"))
           (Exn ConnectionResetError "[Errno 104] Connection reset by peer")).
  - reflexivity.
  - discriminate.
  - discriminate.
Defined.

(** The scenario of the specification: 22 open with its banner, 9999 refused. *)
Example scan_ports_scenario :
  NetworkScanner.scan_ports Examples.default_scanner Examples.lab_network
    "127.0.0.1" [22; 9999]%Z
  = [VDict [("port", VInt 22); ("state", VStr "open");
            ("service", VStr "ssh"); ("banner", VStr "SSH-2.0-OpenSSH")];
     VDict [("port", VInt 9999); ("state", VStr "closed");
            ("service", VStr "unknown"); ("banner", VNone)]].
Proof. vm_compute. reflexivity. Qed.

Example scan_ports_filtered_and_error :
  NetworkScanner.scan_ports Examples.default_scanner Examples.lab_network
    "127.0.0.1" [8080; 81]%Z
  = [VDict [("port", VInt 8080); ("state", VStr "filtered");
            ("service", VStr "http-proxy"); ("banner", VNone)];
     VDict [("port", VInt 81); ("state", VStr "error");
            ("service", VStr "unknown"); ("banner", VNone);
            ("error", VStr "[Errno 113] No route to host")]].
Proof. vm_compute. reflexivity. Qed.

(** *** C6 *)

Lemma all_ports_range p :
  In p NetworkScanner.all_ports <-> (1 <= p <= 1024)%Z.
Proof.
  unfold NetworkScanner.all_ports. rewrite in_map_iff. split.
  - intros (n & <- & Hn). apply in_seq in Hn. lia.
  - intros Hp. exists (Z.to_nat p). split; [lia|]. apply in_seq. lia.
Qed.

(** C6 (as amended).  [quick_scan] probes the fixed list of common ports,
    which has 22 entries, and [full_scan] probes the ports 1 to 1024, each
    once: the results name exactly these ports, in this order. *)
Theorem quick_and_full_scan_ports self net host :
  map NetworkScanner.port_of (NetworkScanner.quick_scan self net host)
    = map (fun p => Ok (VInt p)) NetworkScanner.common_ports /\
  List.length NetworkScanner.common_ports = 22 /\
  map NetworkScanner.port_of (NetworkScanner.full_scan self net host)
    = map (fun p => Ok (VInt p)) NetworkScanner.all_ports /\
  List.length NetworkScanner.all_ports = 1024 /\
  NoDup NetworkScanner.all_ports /\
  (forall p, In p NetworkScanner.all_ports <-> (1 <= p <= 1024)%Z).
Proof.
  split; [apply scan_ports_one_per_port|].
  split; [reflexivity|].
  split; [apply scan_ports_one_per_port|].
  split; [unfold NetworkScanner.all_ports; rewrite length_map; apply length_seq|].
  split; [|apply all_ports_range].
  unfold NetworkScanner.all_ports. apply NoDup_fmap_2; [intros a b; lia|].
  apply NoDup_ListNoDup, List.seq_NoDup.
Qed.

(** C6 as stated fails: the quick scan returns 22 results, not 21. *)
Lemma quick_scan_not_21_ports :
  List.length (NetworkScanner.quick_scan Examples.default_scanner
                 Examples.lab_network "127.0.0.1") <> 21.
Proof.
  unfold NetworkScanner.quick_scan. rewrite scan_ports_length. discriminate.
Qed.

(** ** OSINT aggregation *)


Lemma getitem_assemble target w s u :
  getitem (Osint.assemble target (Ok w) (Ok s) (Ok u)) "whois" = Ok w /\
  getitem (Osint.assemble target (Ok w) (Ok s) (Ok u)) "subdomains"
    = Ok (VList (map VStr s)) /\
  getitem (Osint.assemble target (Ok w) (Ok s) (Ok u)) "historical_urls"
    = Ok (VList u) /\
  getitem (Osint.assemble target (Ok w) (Ok s) (Ok u)) "subdomain_count"
    = Ok (VInt (Z.of_nat (List.length s))).
Proof. repeat split; reflexivity. Qed.



Example collect_osint_whois_failure :
  getitem
    (Osint.collect_osint
       (Osint.fail_whois Examples.healthy_sources (Exn OSError "connection timed out"))
       "example.com") "whois"
  = Ok (VDict [("domain", VStr "example.com"); ("registrar", VNone);
               ("creation_date", VNone); ("expiration_date", VNone);
               ("name_servers", VList []); ("status", VList []);
               ("raw", VNone); ("error", VStr "connection timed out")]).
Proof. reflexivity. Qed.

(** A sub-query whose coroutine itself ends with an exception, as [gather]
    reports it: again only WHOIS gets a marker. *)
Example assemble_raised_tasks :
  Osint.assemble "example.com" (Raise (Exn RuntimeError "boom"))
    (Raise (Exn RuntimeError "boom")) (Raise (Exn RuntimeError "boom"))
  = VDict [("target", VStr "example.com");
           ("whois", VDict [("error", VStr "boom")]);
           ("subdomains", VList []);
           ("historical_urls", VList []);
           ("subdomain_count", VInt 0)].
Proof. reflexivity. Qed.

(** *** C9 *)

Lemma insert_sorted_perm s l : Osint.insert_sorted s l ≡ₚ s :: l.
Proof.
  induction l as [|x l IH]; simpl; [reflexivity|].
  destruct (String.leb s x); [reflexivity|].
  rewrite IH. apply Permutation_swap.
Qed.

Lemma sorted_perm l : Osint.sorted l ≡ₚ l.
Proof.
  induction l as [|x l IH]; simpl; [reflexivity|].
  rewrite insert_sorted_perm, IH. reflexivity.
Qed.

Lemma insert_sorted_Sorted s l :
  Sorted String.le l -> Sorted String.le (Osint.insert_sorted s l).
Proof.
  induction 1 as [|x l Hl IH Hx]; simpl; [repeat constructor|].
  destruct (String.leb s x) eqn:E.
  - constructor; [constructor; assumption|]. constructor.
    unfold String.le. rewrite E. exact I.
  - assert (Hxs : String.le x s).
    { destruct (String.leb_total s x) as [H|H]; [congruence|].
      unfold String.le. rewrite H. exact I. }
    constructor; [exact IH|].
    destruct l as [|y l]; simpl; [constructor; exact Hxs|].
    destruct (String.leb s y); constructor; [exact Hxs|].
    inversion Hx; assumption.
Qed.

Lemma sorted_Sorted l : Sorted String.le (Osint.sorted l).
Proof.
  induction l as [|x l IH]; simpl; [constructor|].
  apply insert_sorted_Sorted, IH.
Qed.

(** The list handed back is in ascending order and holds each name once. *)
Lemma collect_subdomains_sorted_nodup src domain :
  Sorted String.le (Osint.collect_subdomains_passive src domain) /\
  NoDup (Osint.collect_subdomains_passive src domain) /\
  (forall name, name ∈ Osint.collect_subdomains_passive src domain <->
                name ∈ Osint.subdomain_set src domain).
Proof.
  unfold Osint.collect_subdomains_passive. split; [apply sorted_Sorted|]. split.
  - rewrite sorted_perm. apply NoDup_elements.
  - intros name. rewrite sorted_perm. apply elem_of_elements.
Qed.

(** What one record with a [str] name adds to the set. *)
Lemma add_entry_name domain name (subdomains : gset string) :
  Osint.add_entry domain (Osint.name_entry name) subdomains =
  Ok (if Osint.kept domain name
      then {[ Osint.subdomain_key name ]} ∪ subdomains else subdomains).
Proof.
  unfold Osint.add_entry, Osint.name_entry, Osint.kept, Osint.subdomain_key.
  cbn [get dict_lookup String.eqb Ascii.eqb Bool.eqb bind truthy str_in
       Osint.replace_wildcards].
  change (match dict_lookup "name_value" [("name_value", VStr name)] with
          | Some x => x | None => VStr "" end) with (VStr name).
  cbn [bind truthy str_in Osint.replace_wildcards].
  destruct (String.eqb name ""); cbn [negb andb]; [reflexivity|].
  destruct (contains domain name); cbn [bind andb]; [|reflexivity].
  destruct (String.eqb (Osint.remove_wildcards name) ""); reflexivity.
Qed.

(** The set built from an answer whose records all carry [str] names: the
    keys of the names that are kept. *)
Lemma add_entries_names domain names (subdomains : gset string) :
  Osint.add_entries domain (map Osint.name_entry names) subdomains =
  list_to_set (map Osint.subdomain_key (List.filter (Osint.kept domain) names))
  ∪ subdomains.
Proof.
  revert subdomains. induction names as [|name names IH]; intros subdomains.
  - simpl. set_solver.
  - cbn [map Osint.add_entries]. rewrite add_entry_name, IH.
    cbn [List.filter]. destruct (Osint.kept domain name); cbn [map list_to_set];
      set_solver.
Qed.

Lemma subdomain_set_names src domain names :
  Osint.http_get src (Osint.crtsh_url domain)
    = Ok (Osint.Response 200 (Ok (VList (map Osint.name_entry names)))) ->
  Osint.subdomain_set src domain =
  list_to_set (map Osint.subdomain_key (List.filter (Osint.kept domain) names)).
Proof.
  intros H. unfold Osint.subdomain_set. rewrite H.
  cbn [Osint.status Osint.json iterate Z.eqb Pos.eqb].
  rewrite add_entries_names. set_solver.
Qed.

Lemma remove_wildcards_leading name :
  Osint.remove_wildcards ("*." ++ name) = Osint.remove_wildcards name.
Proof. reflexivity. Qed.

Lemma contains_cons needle c hay :
  contains needle hay = true -> contains needle (String c hay) = true.
Proof. intros H. cbn [contains]. rewrite H. apply orb_true_r. Qed.

Lemma kept_leading_wildcard domain name :
  Osint.kept domain name = true -> Osint.kept domain ("*." ++ name) = true.
Proof.
  unfold Osint.kept. rewrite remove_wildcards_leading.
  intros H. apply andb_prop in H as [H H3]. apply andb_prop in H as [H1 H2].
  rewrite H3. change ("*." ++ name)%string with (String "*" (String "." name)).
  rewrite (contains_cons _ "*" _ (contains_cons _ "." _ H2)). reflexivity.
Qed.

(** C9 (as amended).  The list comes from a set keyed by the certificate
    name with every ['*.'] removed and the surrounding white space stripped,
    upper and lower case kept apart: it is sorted and free of duplicates, an
    answer of names [ns] yields exactly the keys of the names kept, and a
    name and the same name behind a leading ['*.'] yield a single entry. *)
Theorem collect_subdomains_dedup src domain :
  (Sorted String.le (Osint.collect_subdomains_passive src domain) /\
   NoDup (Osint.collect_subdomains_passive src domain)) /\
  (forall names key,
      Osint.http_get src (Osint.crtsh_url domain)
        = Ok (Osint.Response 200 (Ok (VList (map Osint.name_entry names)))) ->
      (key ∈ Osint.collect_subdomains_passive src domain <->
       exists name, name ∈ names /\ Osint.kept domain name = true /\
                    key = Osint.subdomain_key name)) /\
  (forall name,
      Osint.http_get src (Osint.crtsh_url domain)
        = Ok (Osint.Response 200
                (Ok (VList (map Osint.name_entry [("*." ++ name)%string; name])))) ->
      Osint.kept domain name = true ->
      Osint.collect_subdomains_passive src domain = [Osint.subdomain_key name]).
Proof.
  split; [|split].
  - split; apply collect_subdomains_sorted_nodup.
  - intros names key H.
    rewrite (proj2 (proj2 (collect_subdomains_sorted_nodup src domain))).
    rewrite (subdomain_set_names _ _ _ H), elem_of_list_to_set, list_elem_of_fmap.
    split.
    + intros (name & -> & Hin). apply list_elem_of_In, filter_In in Hin.
      destruct Hin as [Hin Hk]. exists name. rewrite list_elem_of_In. auto.
    + intros (name & Hin & Hk & ->). exists name. split; [reflexivity|].
      apply list_elem_of_In, filter_In. rewrite <- list_elem_of_In. auto.
  - intros name H Hk. unfold Osint.collect_subdomains_passive.
    rewrite (subdomain_set_names _ _ _ H). cbn [List.filter].
    rewrite (kept_leading_wildcard _ _ Hk), Hk. cbn [map list_to_set].
    unfold Osint.subdomain_key at 1. rewrite remove_wildcards_leading.
    fold (Osint.subdomain_key name).
    replace ({[Osint.subdomain_key name]} ∪ ({[Osint.subdomain_key name]} ∪ ∅))
      with ({[Osint.subdomain_key name]} : gset string) by set_solver.
    rewrite elements_singleton. reflexivity.
Qed.

Lemma collect_subdomains_dedup_witness :
  Osint.collect_subdomains_passive
    (Examples.sources_with ["*.example.com"; "example.com"]) "example.com"
  = ["example.com"].
Proof.
  apply (proj2 (proj2 (collect_subdomains_dedup
                         (Examples.sources_with ["*.example.com"; "example.com"])
                         "example.com")) "example.com").
  - reflexivity.
  - reflexivity.
Defined.

(** C9 as stated fails: two names that differ only in case are two entries. *)
Lemma collect_subdomains_case_sensitive :
  Osint.collect_subdomains_passive
    (Examples.sources_with ["WWW.example.com"; "www.example.com"]) "example.com"
  = ["WWW.example.com"; "www.example.com"].
Proof. vm_compute. reflexivity. Qed.

Example collect_subdomains_healthy :
  Osint.collect_subdomains_passive Examples.healthy_sources "example.com"
  = ["example.com"; "mail.example.com"; "www.example.com"].
Proof. vm_compute. reflexivity. Qed.

(** ** The profiling pipeline *)

Lemma dict_lookup_set a b v d :
  dict_lookup a (dict_set b v d) =
  if String.eqb a b then Some v else dict_lookup a d.
Proof.
  induction d as [|[k x] d IH]; simpl.
  - destruct (String.eqb a b); reflexivity.
  - destruct (String.eqb b k) eqn:Ebk; simpl.
    + apply String.eqb_eq in Ebk. subst k.
      destruct (String.eqb a b); reflexivity.
    + rewrite IH. destruct (String.eqb a b) eqn:Eab; [|reflexivity].
      apply String.eqb_eq in Eab. subst b. rewrite Ebk. reflexivity.
Qed.

Section Combinators.
Import Profiler.
Context {A B : Type}.
Variable P : event -> Prop.

Lemma logs_ret (a : A) : logs P (ret a).
Proof. intros st. exists []. simpl. rewrite app_nil_r. auto. Qed.

Lemma logs_lift (r : Py.result A) : logs P (lift r).
Proof. intros st. exists []. simpl. rewrite app_nil_r. auto. Qed.

Lemma logs_attr a : logs P (attr a).
Proof. intros st. exists []. simpl. rewrite app_nil_r. auto. Qed.

Lemma logs_to_dict_profile : logs P to_dict_profile.
Proof. intros st. exists []. simpl. rewrite app_nil_r. auto. Qed.

Lemma logs_emit e : P e -> logs P (emit e).
Proof. intros He st. exists [e]. simpl. auto. Qed.

Lemma logs_calling c (r : Py.result A) : P (Call c) -> logs P (calling c r).
Proof. intros He st. exists [Call c]. simpl. auto. Qed.

Lemma logs_assign a v : P (Assign a) -> logs P (assign a v).
Proof.
  intros He st. exists [Assign a]. simpl. repeat split; auto.
  intros b Hb. rewrite dict_lookup_set.
  destruct (String.eqb b a) eqn:E; [|reflexivity].
  apply String.eqb_eq in E. subst b. destruct Hb. simpl. auto.
Qed.

Lemma logs_collect_if env ce ty data :
  P (Call (call_collect ty)) -> logs P (collect_if env ce ty data).
Proof.
  intros He st. unfold collect_if. destruct ce.
  - exists [Call (call_collect ty)]. simpl. auto.
  - exists []. simpl. rewrite app_nil_r. auto.
Qed.

Lemma logs_saving_all env : P (Call call_save_all) -> logs P (saving_all env).
Proof.
  intros He st. unfold saving_all.
  destruct (save_all env (evidence_collector st)) as [r c].
  exists [Call call_save_all]. simpl. auto.
Qed.

Lemma logs_bind (m : M A) (k : A -> M B) :
  logs P m -> (forall a, logs P (k a)) -> logs P (mbind m k).
Proof.
  intros Hm Hk st. unfold mbind.
  destruct (Hm st) as (evs & Ht & Hp & Hf).
  destruct (m st) as [[a|e] st1]; simpl in *.
  - destruct (Hk a st1) as (evs' & Ht' & Hp' & Hf').
    exists (evs ++ evs'). rewrite Ht', Ht, app_assoc. repeat split.
    + apply Forall_app; auto.
    + intros b Hb. rewrite Hf', Hf; [reflexivity| |];
        intros Hin; apply Hb, in_or_app; auto.
  - exists evs. auto.
Qed.

Lemma logs_try_catch (m : M A) (h : exn -> M A) :
  logs P m -> (forall e, logs P (h e)) -> logs P (try_catch m h).
Proof.
  intros Hm Hh st. unfold try_catch.
  destruct (Hm st) as (evs & Ht & Hp & Hf).
  destruct (m st) as [[a|e] st1]; simpl in *.
  - exists evs. auto.
  - destruct (Hh e st1) as (evs' & Ht' & Hp' & Hf').
    exists (evs ++ evs'). rewrite Ht', Ht, app_assoc. repeat split.
    + apply Forall_app; auto.
    + intros b Hb. rewrite Hf', Hf; [reflexivity| |];
        intros Hin; apply Hb, in_or_app; auto.
Qed.

Lemma total_ret (a : A) : total (ret a).
Proof. intros st. eexists. reflexivity. Qed.

Lemma total_emit e : total (emit e).
Proof. intros st. eexists. reflexivity. Qed.

Lemma total_assign a v : total (assign a v).
Proof. intros st. eexists. reflexivity. Qed.

Lemma total_bind (m : M A) (k : A -> M B) :
  total m -> (forall a, total (k a)) -> total (mbind m k).
Proof.
  intros Hm Hk st. unfold mbind. destruct (Hm st) as [a Ha].
  destruct (m st) as [[a'|e] st1]; simpl in *; [|discriminate]. apply Hk.
Qed.

Lemma total_try_catch (m : M A) (h : exn -> M A) :
  (forall e, total (h e)) -> total (try_catch m h).
Proof.
  intros Hh st. unfold try_catch.
  destruct (m st) as [[a|e] st1]; simpl; [eauto|apply Hh].
Qed.

End Combinators.

Lemma logs_weaken {A} (P Q : Profiler.event -> Prop) (m : Profiler.M A) :
  (forall e, P e -> Q e) -> Profiler.logs P m -> Profiler.logs Q m.
Proof.
  intros HPQ Hm st. destruct (Hm st) as (evs & Ht & Hp & Hf).
  exists evs. repeat split; auto. eapply Forall_impl; eauto.
Qed.

Lemma total_collect_if env ce ty data : Profiler.total (Profiler.collect_if env ce ty data).
Proof. intros st. unfold Profiler.collect_if. destruct ce; eexists; reflexivity. Qed.

(** Solves [logs P m] for a straight-line [m] by following its structure. *)
Ltac logs_steps :=
  repeat first
    [ apply logs_ret | apply logs_lift | apply logs_attr
    | apply logs_to_dict_profile
    | apply logs_emit; reflexivity
    | apply logs_calling; reflexivity
    | apply logs_assign; reflexivity
    | apply logs_collect_if; reflexivity
    | apply logs_saving_all; reflexivity
    | apply logs_bind; [|intros ?]
    | apply logs_try_catch; [|intros ?]
    | match goal with
      | |- Profiler.logs _ (if ?b then _ else _) => destruct b
      | |- Profiler.logs _ (let _ := _ in _) => cbv zeta
      end ].

(** *** The five stage blocks *)

Lemma stage_block_closed s : Profiler.stage_block s false (Profiler.ret tt).
Proof.
  intros st. exists [], st. simpl. rewrite app_nil_r. repeat split; auto.
  discriminate.
Qed.

Lemma stage_block_open s (k : unit -> Profiler.M unit) :
  Profiler.logs (Profiler.in_stage s) (k tt) -> Profiler.total (k tt) ->
  Profiler.stage_block s true (Profiler.mbind (Profiler.emit (Profiler.Step s)) k).
Proof.
  intros Hl Ht st. unfold Profiler.mbind, Profiler.emit.
  set (st1 := Profiler.RunState (Profiler.profile st) (Profiler.evidence_collector st)
                (Profiler.trace st ++ [Profiler.Step s])).
  destruct (Hl st1) as (evs & Htr & Hp & Hf). destruct (Ht st1) as [[] Ha].
  exists (Profiler.Step s :: evs), (snd (k tt st1)).
  destruct (k tt st1) as [r st']; simpl in *. subst r. repeat split.
  - rewrite Htr. unfold st1. simpl. rewrite <- app_assoc. reflexivity.
  - constructor; [reflexivity|exact Hp].
  - intros _. left. reflexivity.
  - discriminate.
  - intros a Ha'. rewrite Hf; [reflexivity|]. intros Hin. apply Ha'. right. exact Hin.
Qed.

Lemma fingerprint_services_logs env host ports :
  Profiler.logs (Profiler.in_stage Profiler.FINGERPRINT)
    (Profiler.fingerprint_services env host ports).
Proof.
  induction ports as [|p ports IH]; cbn [Profiler.fingerprint_services].
  - apply logs_ret.
  - logs_steps. exact IH.
Qed.

Lemma step_1_block env ce host :
  Profiler.stage_block Profiler.DNS true (Profiler.step_1_dns env ce host).
Proof.
  apply stage_block_open.
  - logs_steps.
  - apply total_try_catch. intros e.
    apply total_bind; [apply total_emit|intros; apply total_assign].
Qed.

Lemma step_2_block env ce depth host :
  Profiler.stage_block Profiler.SCAN (Profiler.entered depth Profiler.SCAN)
    (Profiler.step_2_scan env ce depth host).
Proof.
  unfold Profiler.step_2_scan, Profiler.entered.
  destruct (Profiler.depth_in depth ["standard"; "full"; "deep"]).
  - apply stage_block_open.
    + logs_steps.
    + apply total_try_catch. intros e.
      apply total_bind; [apply total_emit|intros; apply total_assign].
  - apply stage_block_closed.
Qed.

Lemma step_3_block env ce depth host :
  Profiler.stage_block Profiler.FINGERPRINT (Profiler.entered depth Profiler.FINGERPRINT)
    (Profiler.step_3_fingerprint env ce depth host).
Proof.
  unfold Profiler.step_3_fingerprint, Profiler.entered.
  destruct (Profiler.depth_in depth ["full"; "deep"]).
  - apply stage_block_open.
    + apply logs_try_catch; [|intros; apply logs_emit; reflexivity].
      apply logs_bind; [apply logs_attr|intros network_scan].
      apply logs_bind; [apply logs_lift|intros open_ports].
      apply logs_bind; [apply logs_lift|intros first_ports].
      apply logs_bind; [apply fingerprint_services_logs|intros _].
      logs_steps.
    + apply total_try_catch. intros e. apply total_emit.
  - apply stage_block_closed.
Qed.

Lemma step_4_block env ce depth host :
  Profiler.stage_block Profiler.OSINT (Profiler.entered depth Profiler.OSINT)
    (Profiler.step_4_osint env ce depth host).
Proof.
  unfold Profiler.step_4_osint, Profiler.entered.
  destruct (Profiler.depth_in depth ["full"; "deep"]).
  - apply stage_block_open.
    + logs_steps.
    + apply total_try_catch. intros e.
      apply total_bind; [apply total_emit|intros; apply total_assign].
  - apply stage_block_closed.
Qed.

Lemma step_5_block env ce :
  Profiler.stage_block Profiler.RISK true (Profiler.step_5_vulnerabilities env ce).
Proof.
  apply stage_block_open.
  - logs_steps.
  - apply total_try_catch. intros e.
    apply total_bind; [apply total_emit|intros; apply total_assign].
Qed.

Lemma seal_logs env ce :
  Profiler.logs (Profiler.in_stage Profiler.SEAL) (Profiler.seal_evidence_files env ce).
Proof. unfold Profiler.seal_evidence_files. logs_steps. Qed.

(** *** The run as a whole *)

Lemma mbind_ok {A B} (m : Profiler.M A) (k : A -> Profiler.M B) st a st' :
  m st = (Ok a, st') -> Profiler.mbind m k st = k a st'.
Proof. intros H. unfold Profiler.mbind. rewrite H. reflexivity. Qed.

Lemma not_assigned s a evs :
  Forall (Profiler.in_stage s) evs -> Profiler.attribute_stage a <> Some s ->
  ~ In (Profiler.Assign a) evs.
Proof.
  intros Hall Ha Hin. rewrite List.Forall_forall in Hall.
  apply Ha. exact (Hall _ Hin).
Qed.

Lemma step_1_sets_dns_info env ce host dns st :
  Profiler.resolve_target env host = Ok dns ->
  dict_lookup "dns_info" (Profiler.profile (snd (Profiler.step_1_dns env ce host st)))
  = Some dns.
Proof.
  intros H.
  unfold Profiler.step_1_dns, Profiler.mbind, Profiler.emit, Profiler.try_catch,
    Profiler.calling, Profiler.assign, Profiler.collect_if.
  cbn [Profiler.profile Profiler.trace Profiler.evidence_collector fst snd].
  rewrite H. destruct ce; cbn; apply dict_lookup_set.
Qed.

Lemma step_5_risk_is_dict env ce st :
  exists d,
    dict_lookup "risk_assessment"
      (Profiler.profile (snd (Profiler.step_5_vulnerabilities env ce st)))
    = Some (VDict d).
Proof.
  unfold Profiler.step_5_vulnerabilities, Profiler.mbind, Profiler.emit,
    Profiler.try_catch, Profiler.calling, Profiler.assign, Profiler.collect_if,
    Profiler.attr, Profiler.lift, Profiler.to_dict_profile.
  cbn [Profiler.profile Profiler.trace Profiler.evidence_collector fst snd].
  destruct (get _ "technologies" (VList [])) as [technologies|e1];
    [|cbn; rewrite dict_lookup_set; eauto].
  destruct (Profiler.match_vulnerabilities (Profiler.vuln_db env) technologies) as [vulns|e2];
    [|cbn; rewrite dict_lookup_set; eauto].
  cbn [Profiler.profile Profiler.trace Profiler.evidence_collector fst snd].
  destruct (Profiler.assess_risk_score (Profiler.vuln_db env) _) as [risk|e3];
    [|cbn; rewrite dict_lookup_set; eauto].
  destruct ce; cbn; rewrite dict_lookup_set; eauto.
Qed.

(** The stages of a run, block by block: every block returns, the trace is
    the concatenation of their events followed by the completion stamp. *)
Lemma run_stages_spec env ce target depth :
  ce = false \/ Profiler.make_evidence_dir env = Ok tt ->
  exists st1 st6 e1 e2 e3 e4 e5,
    Profiler.step_1_dns env ce (Profiler.parse_target env target)
      (Profiler.initial_state env target depth) = (Ok tt, st1) /\
    Profiler.run_stages env ce target depth (Profiler.initial_state env target depth)
      = (Ok tt, st6) /\
    Profiler.trace st6
      = e1 ++ e2 ++ e3 ++ e4 ++ e5 ++ [Profiler.Assign "completed_at"] /\
    Profiler.stage_events Profiler.DNS true e1 /\
    Profiler.stage_events Profiler.SCAN (Profiler.entered depth Profiler.SCAN) e2 /\
    Profiler.stage_events Profiler.FINGERPRINT
      (Profiler.entered depth Profiler.FINGERPRINT) e3 /\
    Profiler.stage_events Profiler.OSINT (Profiler.entered depth Profiler.OSINT) e4 /\
    Profiler.stage_events Profiler.RISK true e5 /\
    (forall a, ~ In (Profiler.Assign a) (e2 ++ e3 ++ e4 ++ e5) ->
               a <> "completed_at" ->
               dict_lookup a (Profiler.profile st6)
               = dict_lookup a (Profiler.profile st1)) /\
    (forall a, ~ In (Profiler.Assign a) e1 ->
               dict_lookup a (Profiler.profile st1)
               = dict_lookup a (Profiler.new_profile target depth
                                  (utcnow_isoformat (Profiler.now env)))) /\
    (exists d, dict_lookup "risk_assessment" (Profiler.profile st6) = Some (VDict d)).
Proof.
  intros Hdir.
  set (st0 := Profiler.initial_state env target depth).
  set (host := Profiler.parse_target env target).
  destruct (step_1_block env ce host st0) as (e1 & st1 & H1 & T1 & F1 & G1 & C1 & R1).
  destruct (step_2_block env ce depth host st1) as (e2 & st2 & H2 & T2 & F2 & G2 & C2 & R2).
  destruct (step_3_block env ce depth host st2) as (e3 & st3 & H3 & T3 & F3 & G3 & C3 & R3).
  destruct (step_4_block env ce depth host st3) as (e4 & st4 & H4 & T4 & F4 & G4 & C4 & R4).
  destruct (step_5_block env ce st4) as (e5 & st5 & H5 & T5 & F5 & G5 & C5 & R5).
  pose proof (step_5_risk_is_dict env ce st4) as [d Hd]. rewrite H5 in Hd. simpl in Hd.
  exists st1,
    (Profiler.RunState
       (dict_set "completed_at" (VStr (utcnow_isoformat (Profiler.now env)))
          (Profiler.profile st5))
       (Profiler.evidence_collector st5)
       (Profiler.trace st5 ++ [Profiler.Assign "completed_at"])),
    e1, e2, e3, e4, e5.
  split; [exact H1|]. split.
  { unfold Profiler.run_stages. fold st0. fold host.
    assert (Hmk : (if ce then Profiler.lift (Profiler.make_evidence_dir env)
                   else Profiler.ret tt) st0 = (Ok tt, st0)).
    { destruct Hdir as [-> | Hmk]; [reflexivity|].
      destruct ce; [|reflexivity]. unfold Profiler.lift. rewrite Hmk. reflexivity. }
    rewrite (mbind_ok _ _ _ _ _ Hmk). cbv zeta.
    rewrite (mbind_ok _ _ _ _ _ H1), (mbind_ok _ _ _ _ _ H2),
      (mbind_ok _ _ _ _ _ H3), (mbind_ok _ _ _ _ _ H4), (mbind_ok _ _ _ _ _ H5).
    reflexivity. }
  cbn [Profiler.trace Profiler.profile].
  split.
  { rewrite T5, T4, T3, T2, T1. unfold st0. simpl. rewrite <- !app_assoc. reflexivity. }
  split; [repeat split; assumption|]. split; [repeat split; assumption|].
  split; [repeat split; assumption|]. split; [repeat split; assumption|].
  split; [repeat split; assumption|]. split; [|split].
  - intros a Ha Hc. rewrite dict_lookup_set.
    destruct (String.eqb a "completed_at") eqn:E;
      [apply String.eqb_eq in E; contradiction|].
    rewrite R5, R4, R3, R2; [reflexivity| | | |]; intros Hin; apply Ha;
      repeat (apply in_or_app; first [left; assumption | right]); assumption.
  - intros a Ha. rewrite R1 by exact Ha. reflexivity.
  - exists d. rewrite dict_lookup_set. cbn. exact Hd.
Qed.

Lemma closing_log_ok st d :
  dict_lookup "risk_assessment" (Profiler.profile st) = Some (VDict d) ->
  Profiler.closing_log st = (Ok tt, st).
Proof.
  intros H. unfold Profiler.closing_log, Profiler.mbind, Profiler.attr, Profiler.lift.
  rewrite H. reflexivity.
Qed.

Lemma seal_evidence_files_run env ce st :
  let r := fst (Profiler.save_all env (Profiler.evidence_collector st)) in
  exists c,
    Profiler.seal_evidence_files env ce st =
    ((if ce then match r with Ok _ => Ok tt | Raise e => Raise e end else Ok tt),
     Profiler.RunState (sealed_profile ce r (Profiler.profile st)) c
       (Profiler.trace st ++ sealing_events ce r)).
Proof.
  cbv zeta.
  unfold Profiler.seal_evidence_files, Profiler.mbind, Profiler.emit,
    Profiler.saving_all, Profiler.assign, sealed_profile, sealing_events.
  destruct ce.
  - cbn [Profiler.profile Profiler.trace Profiler.evidence_collector].
    destruct (Profiler.save_all env (Profiler.evidence_collector st)) as [[files|e] c];
      cbn [fst snd Profiler.profile Profiler.trace Profiler.evidence_collector];
      exists c; rewrite <- !app_assoc; reflexivity.
  - exists (Profiler.evidence_collector st). rewrite app_nil_r.
    destruct st; reflexivity.
Qed.

(** What [profile_target] returns once the stages are through: the profile,
    or the exception of [save_all]. *)
Lemma profile_target_after_stages env ce target depth st6 d :
  Profiler.run_stages env ce target depth (Profiler.initial_state env target depth)
    = (Ok tt, st6) ->
  dict_lookup "risk_assessment" (Profiler.profile st6) = Some (VDict d) ->
  let r := fst (Profiler.save_all env (Profiler.evidence_collector st6)) in
  let run := Profiler.profile_target env ce target depth in
  Profiler.trace (snd run) = Profiler.trace st6 ++ sealing_events ce r /\
  Profiler.profile (snd run) = sealed_profile ce r (Profiler.profile st6) /\
  fst run = (if ce then
               match r with
               | Ok _ => Ok (VDict (Profiler.profile (snd run)))
               | Raise e => Raise e
               end
             else Ok (VDict (Profiler.profile (snd run)))).
Proof.
  intros Hst Hd. cbv zeta.
  destruct (seal_evidence_files_run env ce st6) as [c Hseal].
  set (r := fst (Profiler.save_all env (Profiler.evidence_collector st6))) in *.
  set (st7 := Profiler.RunState (sealed_profile ce r (Profiler.profile st6)) c
                (Profiler.trace st6 ++ sealing_events ce r)) in *.
  assert (Hrisk : dict_lookup "risk_assessment" (Profiler.profile st7)
                  = Some (VDict d)).
  { unfold st7, sealed_profile. cbn [Profiler.profile]. destruct ce; [|exact Hd].
    destruct r; [|exact Hd]. rewrite !dict_lookup_set. exact Hd. }
  assert (Hrun : Profiler.profile_target env ce target depth =
                 ((if ce then
                     match r with
                     | Ok _ => Ok (VDict (Profiler.profile st7))
                     | Raise e => Raise e
                     end
                   else Ok (VDict (Profiler.profile st7))), st7)).
  { unfold Profiler.profile_target, Profiler.profile_target_body.
    rewrite (mbind_ok _ _ _ _ _ Hst). unfold Profiler.mbind at 1. rewrite Hseal.
    destruct ce; [destruct r as [files|e]|]; try reflexivity;
      rewrite (mbind_ok _ _ _ _ _ (closing_log_ok _ _ Hrisk)); reflexivity. }
  rewrite Hrun. cbn [fst snd]. auto.
Qed.

Lemma stage_events_not_assign s gate a evs :
  Profiler.stage_events s gate evs -> Profiler.attribute_stage a <> Some s ->
  ~ In (Profiler.Assign a) evs.
Proof. intros (H & _ & _). apply not_assigned. exact H. Qed.

Lemma sealing_events_in_seal ce r :
  Forall (fun e => In e [Profiler.Step Profiler.SEAL;
                         Profiler.Call Profiler.call_save_all;
                         Profiler.Assign "evidence_sealed";
                         Profiler.Assign "evidence_files"])
         (sealing_events ce r).
Proof.
  unfold sealing_events.
  destruct ce; [destruct r|]; repeat (constructor; [simpl; tauto|]); constructor.
Qed.


(** *** C3 *)




(** *** C2 *)

Lemma sealed_profile_frame ce r a profile :
  a <> "evidence_sealed" -> a <> "evidence_files" ->
  dict_lookup a (sealed_profile ce r profile) = dict_lookup a profile.
Proof.
  intros H1 H2. unfold sealed_profile. destruct ce; [|reflexivity].
  destruct r; [|reflexivity]. rewrite !dict_lookup_set.
  destruct (String.eqb a "evidence_files") eqn:E2;
    [apply String.eqb_eq in E2; contradiction|].
  destruct (String.eqb a "evidence_sealed") eqn:E1;
    [apply String.eqb_eq in E1; contradiction|]. reflexivity.
Qed.

(** C2 (as amended).  At depth ['basic'] a run enters the DNS stage and the
    vulnerability and risk stage, which every depth runs, and no other:
    nothing of SCAN, FINGERPRINT or OSINT happens and [network_scan] stays
    empty.  [dns_info] is what the resolver answered, and the object
    returned is the profile. *)
Theorem basic_depth_runs_dns_and_risk env ce target :
  ce = false \/ Profiler.make_evidence_dir env = Ok tt ->
  let run := Profiler.profile_target env ce target "basic" in
  In (Profiler.Step Profiler.DNS) (Profiler.trace (snd run)) /\
  In (Profiler.Step Profiler.RISK) (Profiler.trace (snd run)) /\
  (forall e, In e (Profiler.trace (snd run)) ->
             Profiler.event_stage e <> Some Profiler.SCAN /\
             Profiler.event_stage e <> Some Profiler.FINGERPRINT /\
             Profiler.event_stage e <> Some Profiler.OSINT) /\
  dict_lookup "network_scan" (Profiler.profile (snd run)) = Some (VDict []) /\
  (forall dns,
      Profiler.resolve_target env (Profiler.parse_target env target) = Ok dns ->
      dict_lookup "dns_info" (Profiler.profile (snd run)) = Some dns) /\
  (forall p, fst run = Ok p -> p = VDict (Profiler.profile (snd run))).
Proof.
  intros Hdir. cbv zeta.
  destruct (run_stages_spec env ce target "basic" Hdir)
    as (st1 & st6 & e1 & e2 & e3 & e4 & e5 & H1 & H6 & T6 & S1 & S2 & S3 & S4 & S5
        & Fr6 & Fr1 & [d Hd]).
  destruct (profile_target_after_stages env ce target "basic" st6 d H6 Hd)
    as (Ht & Hp & Hr).
  set (r := fst (Profiler.save_all env (Profiler.evidence_collector st6))) in *.
  assert (E2 : e2 = []) by (apply S2; reflexivity).
  assert (E3 : e3 = []) by (apply S3; reflexivity).
  assert (E4 : e4 = []) by (apply S4; reflexivity).
  subst e2 e3 e4. cbn [app] in T6, Fr6.
  rewrite Ht, T6, Hp.
  split; [|split; [|split; [|split; [|split]]]].
  - apply in_or_app. left. apply in_or_app. left. apply S1. reflexivity.
  - apply in_or_app. left. apply in_or_app. right. apply in_or_app. left.
    apply S5. reflexivity.
  - intros e Hin.
    assert (He : Profiler.event_stage e = Some Profiler.DNS \/
                 Profiler.event_stage e = Some Profiler.RISK \/
                 Profiler.event_stage e = None \/
                 Profiler.event_stage e = Some Profiler.SEAL).
    { apply in_app_or in Hin as [Hin|Hin].
      - apply in_app_or in Hin as [Hin|Hin].
        + left. destruct S1 as (F1 & _). rewrite List.Forall_forall in F1.
          apply F1, Hin.
        + apply in_app_or in Hin as [Hin|Hin].
          * right. left. destruct S5 as (F5 & _). rewrite List.Forall_forall in F5.
            apply F5, Hin.
          * right. right. left. destruct Hin as [<-|[]]. reflexivity.
      - pose proof (sealing_events_in_seal ce r) as Hs.
        rewrite List.Forall_forall in Hs. specialize (Hs _ Hin). simpl in Hs.
        right. right. right.
        repeat destruct Hs as [<-|Hs]; try reflexivity. contradiction. }
    destruct He as [He|[He|[He|He]]]; rewrite He; repeat split; discriminate.
  - rewrite sealed_profile_frame by discriminate.
    rewrite Fr6; [| |discriminate].
    + rewrite Fr1; [reflexivity|].
      apply (stage_events_not_assign _ _ _ _ S1). discriminate.
    + apply (stage_events_not_assign _ _ _ _ S5). discriminate.
  - intros dns Hdns. rewrite sealed_profile_frame by discriminate.
    rewrite Fr6; [| |discriminate].
    + pose proof (step_1_sets_dns_info env ce _ dns
                    (Profiler.initial_state env target "basic") Hdns) as Hs.
      rewrite H1 in Hs. exact Hs.
    + apply (stage_events_not_assign _ _ _ _ S5). discriminate.
  - intros p Hfst. rewrite Hr in Hfst. rewrite Hp in Hfst.
    destruct ce; [destruct r|]; congruence.
Qed.

Lemma basic_depth_witness :
  dict_lookup "network_scan"
    (Profiler.profile
       (snd (Profiler.profile_target (Examples.lab Examples.disk_ok) false
               "example.com" "basic"))) = Some (VDict []) /\
  (let* dns_info :=
     Py.get (VDict (Profiler.profile
                      (snd (Profiler.profile_target (Examples.lab Examples.disk_ok)
                              false "example.com" "basic"))))
       "dns_info" VNone in
   getitem dns_info "a_records") = Ok (VList [VStr "93.184.216.34"]).
Proof.
  destruct (basic_depth_runs_dns_and_risk (Examples.lab Examples.disk_ok) false
              "example.com" (or_introl eq_refl))
    as (_ & _ & _ & Hscan & Hdns & _).
  split; [exact Hscan|].
  cbn [Py.get]. rewrite (Hdns Examples.dns_answer eq_refl). reflexivity.
Defined.

(** C2 as stated fails: at depth ['basic'] the risk stage is entered and the
    risk score is computed. *)
Lemma basic_depth_runs_risk_stage :
  In (Profiler.Step Profiler.RISK)
     (Profiler.trace
        (snd (Profiler.profile_target (Examples.lab Examples.disk_ok) false
                "example.com" "basic"))) /\
  In (Profiler.Call Profiler.call_assess_risk_score)
     (Profiler.trace
        (snd (Profiler.profile_target (Examples.lab Examples.disk_ok) false
                "example.com" "basic"))) /\
  dict_lookup "risk_assessment"
    (Profiler.profile
       (snd (Profiler.profile_target (Examples.lab Examples.disk_ok) false
               "example.com" "basic"))) = Some (VDict Examples.risk_answer).
Proof. vm_compute. repeat split; auto 10. Qed.

(** *** C4 *)

(** C4.  The claim wants the profile returned when sealing fails.  There is
    no [try] around [save_all]: its exception leaves [profile_target], and
    the profile, complete and unchanged in the state of the run, is not
    returned. *)
Theorem profile_target_sealing_failure_raises env target depth st e :
  Profiler.make_evidence_dir env = Ok tt ->
  Profiler.run_stages env true target depth
    (Profiler.initial_state env target depth) = (Ok tt, st) ->
  fst (Profiler.save_all env (Profiler.evidence_collector st)) = Raise e ->
  fst (Profiler.profile_target env true target depth) = Raise e /\
  Profiler.profile (snd (Profiler.profile_target env true target depth))
    = Profiler.profile st.
Proof.
  intros Hdir Hst Hsave.
  destruct (run_stages_spec env true target depth (or_intror Hdir))
    as (st1 & st6 & e1 & e2 & e3 & e4 & e5 & _ & H6 & _ & _ & _ & _ & _ & _
        & _ & _ & [d Hd]).
  rewrite Hst in H6. injection H6 as <-.
  destruct (profile_target_after_stages env true target depth st d Hst Hd)
    as (_ & Hp & Hr).
  rewrite Hsave in Hp, Hr. split; [exact Hr|exact Hp].
Qed.

Lemma profile_target_sealing_failure_witness :
  fst (Profiler.profile_target (Examples.lab Examples.disk_full) true
         "example.com" "full")
  = Raise (Exn OSError "[Errno 28] No space left on device") /\
  dict_lookup "osint"
    (Profiler.profile
       (snd (Profiler.profile_target (Examples.lab Examples.disk_full) true
               "example.com" "full")))
  = Some (VDict [("target", VStr "example.com")]).
Proof.
  destruct (profile_target_sealing_failure_raises
              (Examples.lab Examples.disk_full) "example.com" "full"
              (snd (Profiler.run_stages (Examples.lab Examples.disk_full) true
                      "example.com" "full"
                      (Profiler.initial_state (Examples.lab Examples.disk_full)
                         "example.com" "full")))
              (Exn OSError "[Errno 28] No space left on device")
              eq_refl) as [Hr Hp].
  - vm_compute. reflexivity.
  - vm_compute. reflexivity.
  - split; [exact Hr|]. rewrite Hp. vm_compute. reflexivity.
Defined.

(** With a disk that takes the files the same run returns the profile. *)
Example profile_target_sealing_success :
  exists p,
    fst (Profiler.profile_target (Examples.lab Examples.disk_ok) true
           "example.com" "full") = Ok (VDict p) /\
    dict_lookup "evidence_sealed" p = Some (VBool true).
Proof. eexists. split; vm_compute; reflexivity. Qed.

(** * Further properties of the code *)

(** ** Sealed evidence files *)

Lemma verify_seal_true_iff self sealed :
  Crypto.verify_seal self sealed = Ok true <->
  exists evidence seal s,
    getitem sealed "evidence" = Ok evidence /\
    getitem sealed "seal" = Ok seal /\
    Json.dumps true evidence = Ok s /\
    getitem seal "hash"
      = Ok (VStr (Crypto.hashlib_hexdigest self (Json.encode s))).
Proof.
  unfold Crypto.verify_seal, Crypto._calculate_hash. split.
  - pose proof (getitem_raises sealed "evidence") as He.
    pose proof (getitem_raises sealed "seal") as Hs.
    destruct (getitem sealed "evidence") as [ev|e] eqn:E1; cbn [bind try_except];
      [|simpl in He; destruct He as [-> | ->]; discriminate].
    destruct (getitem sealed "seal") as [sl|e] eqn:E2; cbn [bind try_except];
      [|simpl in Hs; destruct Hs as [-> | ->]; discriminate].
    pose proof (dumps_raises_TypeError true ev) as Hd.
    destruct (Json.dumps true ev) as [s|e] eqn:E3; cbn [bind try_except];
      [|simpl in Hd; rewrite Hd; discriminate].
    pose proof (getitem_raises sl "hash") as Hh.
    destruct (getitem sl "hash") as [stored|e] eqn:E4; cbn [bind try_except];
      [|simpl in Hh; destruct Hh as [-> | ->]; discriminate].
    intros [= H]. apply str_eq_value_true in H. subst stored.
    exists ev, sl, s. auto.
  - intros (ev & sl & s & -> & -> & E3 & E4). cbn [bind].
    rewrite E3. cbn [bind]. rewrite E4. cbn [bind try_except str_eq_value].
    rewrite String.eqb_refl. reflexivity.
Qed.

Lemma load_sealed_evidence_cases self sealed :
  (Crypto.load_sealed_evidence self (Ok sealed) = Ok sealed <->
   Crypto.verify_seal self sealed = Ok true) /\
  (Crypto.load_sealed_evidence self (Ok sealed)
   = Raise (Exn ValueError
              "Evidence seal verification failed - data may be tampered") <->
   Crypto.verify_seal self sealed = Ok false) /\
  (forall v, Crypto.load_sealed_evidence self (Ok sealed) = Ok v -> v = sealed) /\
  (forall e, Crypto.load_sealed_evidence self (Raise e) = Raise e).
Proof.
  unfold Crypto.load_sealed_evidence. cbn [bind].
  destruct (verify_seal_total self sealed) as [[|] ->]; cbn [bind negb];
    repeat split; try congruence; try discriminate.
Qed.

(** X1.  [verify_seal] accepts a package exactly when it has an [evidence]
    entry that serializes, a [seal] entry, and the [hash] of the seal is the
    digest of the key-sorted serialization of the evidence.  Nothing else is
    read: neither the algorithm name nor [sealed_at] nor the metadata. *)
Theorem verify_seal_accepts_iff self sealed :
  Crypto.verify_seal self sealed = Ok true <->
  exists evidence seal s,
    getitem sealed "evidence" = Ok evidence /\
    getitem sealed "seal" = Ok seal /\
    Json.dumps true evidence = Ok s /\
    getitem seal "hash"
      = Ok (VStr (Crypto.hashlib_hexdigest self (Json.encode s))).
Proof. apply verify_seal_true_iff. Qed.


(** X3.  A sealed package whose evidence was replaced after sealing is
    refused when it is loaded, whenever the digest of the new evidence is
    not the stored hash (an evidence that does not serialize is refused as
    well). *)
Theorem load_sealed_evidence_rejects_tampering self now data metadata sealed
    seal h evidence' :
  Crypto.seal_evidence self now data metadata = Ok sealed ->
  getitem sealed "seal" = Ok seal ->
  Crypto.seal_hash sealed = Ok (VStr h) ->
  (forall s, Json.dumps true evidence' = Ok s ->
             Crypto.hashlib_hexdigest self (Json.encode s) <> h) ->
  Crypto.load_sealed_evidence self
    (Ok (VDict [("evidence", evidence'); ("seal", seal)]))
  = Raise (Exn ValueError
             "Evidence seal verification failed - data may be tampered").
Proof.
  intros Hseal Hs Hh Hne.
  apply load_sealed_evidence_cases.
  destruct (verify_seal_total self (VDict [("evidence", evidence'); ("seal", seal)]))
    as [[|] Hv]; [|exact Hv].
  exfalso. apply verify_seal_true_iff in Hv.
  destruct Hv as (ev & sl & s & E1 & E2 & E3 & E4).
  cbn in E1, E2. injection E1 as <-. injection E2 as <-.
  unfold Crypto.seal_hash in Hh. rewrite Hs in Hh. cbn [bind] in Hh.
  rewrite E4 in Hh. injection Hh as Hh. exact (Hne s E3 Hh).
Qed.

Lemma load_sealed_evidence_rejects_tampering_witness :
  exists sealed seal,
    Crypto.seal_evidence Crypto.default_sealer Examples.clock0
      Examples.port_80 Examples.meta0 = Ok sealed /\
    getitem sealed "seal" = Ok seal /\
    Crypto.load_sealed_evidence Crypto.default_sealer
      (Ok (VDict [("evidence",
                   Crypto.evidence_package "2024-05-01T12:00:00.000000"
                     Examples.port_443 Examples.meta0);
                  ("seal", seal)]))
    = Raise (Exn ValueError
               "Evidence seal verification failed - data may be tampered").
Proof.
  eexists. eexists. split; [vm_compute; reflexivity|].
  split; [reflexivity|].
  eapply (load_sealed_evidence_rejects_tampering Crypto.default_sealer
            Examples.clock0 Examples.port_80 Examples.meta0).
  - vm_compute. reflexivity.
  - reflexivity.
  - reflexivity.
  - intros s Hs. vm_compute in Hs. injection Hs as <-. vm_compute. discriminate.
Defined.

(** X4.  The seal is an unkeyed digest: for any evidence that serializes,
    a package that carries [hash_string] of its key-sorted serialization
    as the hash of its seal passes [verify_seal] and is loaded by
    [load_sealed_evidence], whoever built it and without any of the other
    seal fields. *)
Theorem recomputed_seal_is_accepted evidence s :
  Json.dumps true evidence = Ok s ->
  let package := VDict [("evidence", evidence);
                        ("seal", VDict [("hash", VStr (Crypto.hash_string s))])] in
  Crypto.verify_seal Crypto.default_sealer package = Ok true /\
  Crypto.load_sealed_evidence Crypto.default_sealer (Ok package) = Ok package.
Proof.
  intros Hs package.
  assert (Hv : Crypto.verify_seal Crypto.default_sealer package = Ok true).
  { apply verify_seal_true_iff. exists evidence, (VDict [("hash", VStr (Crypto.hash_string s))]), s.
    repeat split; auto. }
  split; [exact Hv|]. apply load_sealed_evidence_cases. exact Hv.
Qed.

Lemma recomputed_seal_is_accepted_witness :
  exists s,
    Json.dumps true Examples.port_443 = Ok s /\
    Crypto.load_sealed_evidence Crypto.default_sealer
      (Ok (VDict [("evidence", Examples.port_443);
                  ("seal", VDict [("hash", VStr (Crypto.hash_string s))])]))
    = Ok (VDict [("evidence", Examples.port_443);
                 ("seal", VDict [("hash", VStr (Crypto.hash_string s))])]).
Proof.
  eexists. split; [vm_compute; reflexivity|].
  refine (proj2 (recomputed_seal_is_accepted Examples.port_443 _ _)).
  vm_compute. reflexivity.
Defined.
(** ** The audit log over time *)

Lemma chain_valid_links json_loads p lines :
  Logging.chain_valid json_loads p lines <->
  exists h, Logging.chain_links json_loads p lines h.
Proof.
  revert p. induction lines as [|line lines IH]; intros p;
    cbn [Logging.chain_valid Logging.chain_links].
  - split; eauto.
  - split.
    + intros (d & h & s & E1 & E2 & E3 & E4 & E5 & HC).
      apply IH in HC. destruct HC as [last HC]. exists last, d, h, s. auto 10.
    + intros (last & d & h & s & E1 & E2 & E3 & E4 & E5 & HC).
      exists d, h, s. repeat split; auto. apply IH. eauto.
Qed.

Lemma verify_lines_valid json_loads lines p h n :
  Logging.chain_links json_loads p lines h ->
  Logging.verify_lines json_loads lines p n
  = Ok (true, "Audit log verified: " ++ Logging.str_nat (n + List.length lines)
              ++ " entries")%string.
Proof.
  intros HC. rewrite <- (app_nil_r lines) at 1.
  rewrite (verify_lines_after_valid_prefix _ _ _ _ _ _ HC). reflexivity.
Qed.

Lemma chain_links_prefix json_loads p l1 l2 h :
  Logging.chain_links json_loads p (l1 ++ l2) h ->
  exists m, Logging.chain_links json_loads p l1 m.
Proof.
  revert p. induction l1 as [|line l1 IH]; intros p; cbn [Logging.chain_links app].
  - eauto.
  - intros (d & h1 & s & E1 & E2 & E3 & E4 & E5 & HC).
    destruct (IH _ HC) as [m Hm]. exists m, d, h1, s. auto 10.
Qed.

Lemma verify_integrity_true_links json_loads lines p msg :
  Logging.verify_integrity json_loads (Logging.Logger (Some lines) p) = Ok (true, msg) ->
  exists h, Logging.chain_links json_loads Logging.genesis_hash lines h.
Proof.
  intros H. apply chain_valid_links.
  apply (verify_integrity_true_iff json_loads lines p). eauto.
Qed.

(** X5.  [verify_integrity] answers [True] exactly on the logs in which
    every line decodes to an entry linked to the line before it and hashed
    as [log_action] hashes, and the message it gives then counts all the
    lines of the file. *)
Theorem verify_integrity_accepts_exactly_valid_chains json_loads lines p :
  ((exists msg, Logging.verify_integrity json_loads
                  (Logging.Logger (Some lines) p) = Ok (true, msg)) <->
   Logging.chain_valid json_loads Logging.genesis_hash lines) /\
  (forall msg,
      Logging.verify_integrity json_loads (Logging.Logger (Some lines) p)
      = Ok (true, msg) ->
      msg = ("Audit log verified: " ++ Logging.str_nat (List.length lines)
             ++ " entries")%string).
Proof.
  split; [apply verify_integrity_true_iff|].
  intros msg H. destruct (verify_integrity_true_links _ _ _ _ H) as [h HC].
  unfold Logging.verify_integrity in H. cbn [Logging.audit_file] in H.
  rewrite (verify_lines_valid _ _ _ _ 0 HC) in H. injection H as <-. reflexivity.
Qed.

(** X6.  Verification starts from the genesis hash and checks links only:
    a log that verifies still verifies after any number of entries are cut
    off its end, and a log that was deleted verifies too. *)
Theorem verify_integrity_accepts_truncated_log json_loads lines tail p msg :
  Logging.verify_integrity json_loads (Logging.Logger (Some (lines ++ tail)) p)
  = Ok (true, msg) ->
  Logging.verify_integrity json_loads (Logging.Logger (Some lines) p)
  = Ok (true, "Audit log verified: " ++ Logging.str_nat (List.length lines)
              ++ " entries")%string /\
  Logging.verify_integrity json_loads (Logging.Logger None p)
  = Ok (true, "No audit log found").
Proof.
  intros H. split; [|reflexivity].
  destruct (verify_integrity_true_links _ _ _ _ H) as [h HC].
  destruct (chain_links_prefix _ _ _ _ _ HC) as [m Hm].
  unfold Logging.verify_integrity. cbn [Logging.audit_file].
  apply (verify_lines_valid _ _ _ _ 0 Hm).
Qed.

Lemma verify_integrity_accepts_truncated_log_witness :
  Logging.verify_integrity Examples.example_loads
    (Logging.new_logger (Some [Examples.line_of Examples.entry_1]))
  = Ok (true, "Audit log verified: 1 entries").
Proof.
  refine (proj1 (verify_integrity_accepts_truncated_log Examples.example_loads
                   [Examples.line_of Examples.entry_1]
                   [Examples.line_of Examples.entry_2]
                   Logging.genesis_hash "Audit log verified: 2 entries" _)).
  vm_compute. reflexivity.
Defined.

(** X7.  Appending keeps a log verifiable: when the file holds a valid
    chain that ends in the hash the logger remembers (an absent file counts
    as empty), then after [log_action] the log verifies with one more entry,
    provided [json.loads] reads the written line back as the entry
    written. *)
Theorem log_action_keeps_log_verifiable json_loads self now user target action
    result auth_token self' h lines :
  Logging.audit_file self = Some lines \/
  (Logging.audit_file self = None /\ lines = []) ->
  Logging.chain_links json_loads Logging.genesis_hash lines
    (Logging._previous_hash self) ->
  Logging.log_action self now user target action result auth_token = Ok (self', h) ->
  (forall line, Logging.audit_file self' = Some (lines ++ [line]) ->
     json_loads (strip line) =
       Ok (VDict [("timestamp", VStr (utcnow_isoformat now)); ("user", user);
                  ("target", target); ("action", action); ("result", result);
                  ("auth_token", auth_token);
                  ("previous_hash", VStr (Logging._previous_hash self));
                  ("hash", VStr h)])) ->
  Logging.verify_integrity json_loads self'
  = Ok (true, "Audit log verified: " ++ Logging.str_nat (S (List.length lines))
              ++ " entries")%string.
Proof.
  intros Hfile Hchain Hlog Hloads.
  assert (Hlog' : Logging.log_action
                    (Logging.Logger (Some lines) (Logging._previous_hash self))
                    now user target action result auth_token = Ok (self', h)).
  { rewrite <- Hlog. destruct self as [f p]. cbn [Logging.audit_file] in Hfile.
    destruct Hfile as [-> | [-> ->]]; reflexivity. }
  destruct (log_action_extends_chain json_loads
              (Logging.Logger (Some lines) (Logging._previous_hash self))
              _ _ _ _ _ _ _ _ lines eq_refl Hchain Hlog') as (_ & line & Hf & HC).
  specialize (HC (Hloads line Hf)).
  unfold Logging.verify_integrity. rewrite Hf.
  rewrite (verify_lines_valid _ _ _ _ 0 HC). rewrite length_app. cbn [List.length].
  rewrite Nat.add_0_l, Nat.add_1_r. reflexivity.
Qed.

Lemma log_action_keeps_log_verifiable_witness :
  exists self' h,
    Logging.log_action (Logging.new_logger None) Examples.clock0
      (VStr "alice") (VStr "10.0.0.1") (VStr "scan") (VStr "ok") VNone
    = Ok (self', h) /\
    Logging.verify_integrity Examples.example_loads self'
    = Ok (true, "Audit log verified: 1 entries").
Proof.
  eexists. eexists. split; [vm_compute; reflexivity|].
  refine (log_action_keeps_log_verifiable Examples.example_loads
            (Logging.new_logger None) Examples.clock0
            (VStr "alice") (VStr "10.0.0.1") (VStr "scan") (VStr "ok") VNone
            _ _ [] _ _ _ _).
  - right. split; reflexivity.
  - reflexivity.
  - vm_compute. reflexivity.
  - intros line [= <-]. vm_compute. reflexivity.
Defined.

(** X8.  A logger always starts from the genesis hash, whatever the file
    already holds.  Created over a log that holds a valid chain with a last
    hash other than the genesis hash, its first [log_action] appends an
    entry that does not continue the chain, and [verify_integrity] then
    reports the chain broken at that line. *)
Theorem log_action_after_restart_breaks_chain json_loads lines last now user
    target action result auth_token self' h :
  Logging.chain_links json_loads Logging.genesis_hash lines last ->
  last <> Logging.genesis_hash ->
  Logging.log_action (Logging.new_logger (Some lines)) now user target action
    result auth_token = Ok (self', h) ->
  (forall line, Logging.audit_file self' = Some (lines ++ [line]) ->
     json_loads (strip line) =
       Ok (VDict [("timestamp", VStr (utcnow_isoformat now)); ("user", user);
                  ("target", target); ("action", action); ("result", result);
                  ("auth_token", auth_token);
                  ("previous_hash", VStr Logging.genesis_hash);
                  ("hash", VStr h)])) ->
  Logging.verify_integrity json_loads self'
  = Ok (false, "Hash chain broken at line "
               ++ Logging.str_nat (S (List.length lines)))%string.
Proof.
  intros Hchain Hlast Hlog Hloads.
  unfold Logging.log_action in Hlog.
  cbn [Logging.new_logger Logging.audit_file Logging._previous_hash] in Hlog.
  match type of Hlog with
  | context [Json.dumps true ?e] => destruct (Json.dumps true e) as [s|e1] eqn:Es
  end; cbn [bind] in Hlog; [|discriminate].
  match type of Hlog with
  | context [Json.dumps false ?e] => destruct (Json.dumps false e) as [l|e2] eqn:El
  end; cbn [bind] in Hlog; [|discriminate].
  injection Hlog as <- <-.
  cbn [Logging.audit_file] in Hloads. specialize (Hloads _ eq_refl).
  unfold Logging.verify_integrity. cbn [Logging.audit_file].
  apply (verify_lines_first_verdict json_loads lines _ [] _ 0 last); [exact Hchain|].
  cbn [Nat.add].
  eapply (proj1 (proj2 (verify_line_reports json_loads last _ _))); [exact Hloads|].
  cbn. intros [= H]. auto.
Qed.

Lemma log_action_after_restart_breaks_chain_witness :
  exists self' h,
    Examples.log_after_restart = Ok (self', h) /\
    Logging.verify_integrity Examples.restart_loads self'
    = Ok (false, "Hash chain broken at line 2").
Proof.
  eexists. eexists. split; [vm_compute; reflexivity|].
  refine (log_action_after_restart_breaks_chain Examples.restart_loads
            [Examples.line_of Examples.entry_1] Examples.hash_1 Examples.clock0
            (VStr "bob") (VStr "10.0.0.1") (VStr "report") (VStr "ok") VNone
            _ _ _ _ _ _).
  - cbn [Logging.chain_links]. eexists _, _, _.
    split; [vm_compute; reflexivity|].
    split; [reflexivity|]. split; [reflexivity|].
    split; [vm_compute; reflexivity|]. split; [vm_compute; reflexivity|reflexivity].
  - vm_compute. discriminate.
  - vm_compute. reflexivity.
  - intros line [= <-]. vm_compute. reflexivity.
Defined.
(** ** The scan summary *)

(** The results of a batch whose state passes [keep], in probe order. *)
Lemma select_state_scan_tasks self net host keep s task ports :
  exists selected,
    NetworkScanner.select_state keep s
      (NetworkScanner.returned (NetworkScanner.scan_tasks self net host task ports))
    = Ok selected /\
    map NetworkScanner.port_of selected
    = map (fun p => Ok (VInt p))
        (NetworkScanner.ports_where (fun st => keep (String.eqb s st))
           (NetworkScanner.probe_states net host task ports)) /\
    Forall (fun r => exists st, NetworkScanner.state_of r = Ok (VStr st) /\
                                keep (String.eqb s st) = true) selected.
Proof.
  revert task. induction ports as [|p ports IH]; intros task.
  - exists []. repeat split; constructor.
  - destruct (IH (S task)) as (tail & Htail & Hports & Hall).
    cbn [NetworkScanner.scan_tasks NetworkScanner.returned
         NetworkScanner.select_state NetworkScanner.probe_states].
    pose proof (scan_port_state self net task host p) as Hst.
    unfold NetworkScanner.state_of in Hst. rewrite Hst. cbn [bind].
    rewrite Htail. cbn [bind str_eq_value].
    unfold NetworkScanner.ports_where in *. cbn [List.filter snd].
    destruct (keep (String.eqb s _)) eqn:Ek.
    + eexists. split; [reflexivity|]. split.
      * cbn [map fst]. f_equal; [|exact Hports].
        destruct (scan_port_is_dict self net task host p) as (d & -> & Hp & _).
        unfold NetworkScanner.port_of, getitem. rewrite Hp. reflexivity.
      * constructor; [|exact Hall]. eexists. split; [exact Hst|exact Ek].
    + eexists. split; [reflexivity|]. split; [exact Hports|exact Hall].
Qed.

Lemma scanned_ports_length scan_type :
  List.length (NetworkScanner.scanned_ports scan_type)
  = if String.eqb scan_type "full" then 1024 else 22.
Proof.
  unfold NetworkScanner.scanned_ports. destruct (String.eqb scan_type "full").
  - unfold NetworkScanner.all_ports. rewrite length_map, length_seq. reflexivity.
  - reflexivity.
Qed.

(** X9.  [scan_target] never raises.  Any scan type other than ['full']
    probes the 22 common ports.  [all_results] holds one result per probed
    port; [open_ports] and [filtered_ports] hold, in probe order, the results
    of exactly the ports whose probe ended open, respectively filtered; and
    [total_ports_scanned] is the number of probes that did not end in state
    [error], not the number of ports probed. *)
Theorem scan_target_summary self net host scan_type :
  let ports := NetworkScanner.scanned_ports scan_type in
  let probes := NetworkScanner.probe_states net host 0 ports in
  List.length ports = (if String.eqb scan_type "full" then 1024 else 22) /\
  exists all_results open_ports filtered_ports,
    NetworkScanner.scan_target self net host scan_type
    = Ok (VDict
            [("host", VStr host);
             ("scan_type", VStr scan_type);
             ("total_ports_scanned",
              VInt (Z.of_nat
                      (List.length
                         (NetworkScanner.ports_where
                            (fun st => negb (String.eqb "error" st)) probes))));
             ("open_ports", VList open_ports);
             ("filtered_ports", VList filtered_ports);
             ("all_results", VList all_results)]) /\
    map NetworkScanner.port_of all_results = map (fun p => Ok (VInt p)) ports /\
    map NetworkScanner.port_of open_ports
    = map (fun p => Ok (VInt p))
        (NetworkScanner.ports_where (String.eqb "open") probes) /\
    map NetworkScanner.port_of filtered_ports
    = map (fun p => Ok (VInt p))
        (NetworkScanner.ports_where (String.eqb "filtered") probes) /\
    Forall (fun r => NetworkScanner.state_of r = Ok (VStr "open")) open_ports /\
    Forall (fun r => NetworkScanner.state_of r = Ok (VStr "filtered")) filtered_ports.
Proof.
  intros ports probes. split; [apply scanned_ports_length|].
  assert (Hscan : (if String.eqb scan_type "full"
                   then NetworkScanner.full_scan self net host
                   else NetworkScanner.quick_scan self net host)
                  = NetworkScanner.returned
                      (NetworkScanner.scan_tasks self net host 0 ports)).
  { unfold ports, NetworkScanner.scanned_ports, NetworkScanner.full_scan,
      NetworkScanner.quick_scan, NetworkScanner.scan_ports.
    destruct (String.eqb scan_type "full"); rewrite scan_tasks_all_dicts; reflexivity. }
  destruct (select_state_scan_tasks self net host negb "error" 0 ports)
    as (ne & Hne & Pne & _).
  destruct (select_state_scan_tasks self net host id "open" 0 ports)
    as (op & Hop & Pop & Aop).
  destruct (select_state_scan_tasks self net host id "filtered" 0 ports)
    as (fl & Hfl & Pfl & Afl).
  exists (NetworkScanner.returned (NetworkScanner.scan_tasks self net host 0 ports)),
    op, fl.
  split.
  - unfold NetworkScanner.scan_target. rewrite Hscan, Hne, Hop, Hfl. cbn [bind].
    do 5 f_equal. f_equal. f_equal. f_equal.
    rewrite <- (length_map NetworkScanner.port_of ne), Pne, length_map. reflexivity.
  - split.
    { rewrite <- scan_tasks_all_dicts. apply scan_ports_one_per_port. }
    split; [exact Pop|]. split; [exact Pfl|].
    split; (eapply Forall_impl; [eassumption|]); cbn beta;
      intros r (st & Hst & Ek); unfold id in Ek; apply String.eqb_eq in Ek;
      subst st; exact Hst.
Qed.
(** ** The OSINT collector: shapes and bounds *)

Lemma collect_wayback_urls_length src domain :
  List.length (Osint.collect_wayback_urls src domain) <= 100.
Proof. unfold Osint.collect_wayback_urls. apply firstn_le_length. Qed.

Lemma first_columns_single urls :
  Osint.first_columns (map (fun u => VList [VStr u]) urls) = Ok (map VStr urls).
Proof.
  induction urls as [|u urls IH]; [reflexivity|].
  cbn [map Osint.first_columns truthy index_0 bind]. rewrite IH. reflexivity.
Qed.

(** X10.  [collect_wayback_urls] never raises and returns at most 100
    URLs.  On a 200 answer it drops the first row whatever it holds, and
    returns the first 100 of the remaining one-column rows in their order;
    any other status, a failed request or an answer that is not JSON give
    the empty list. *)
Theorem collect_wayback_urls_bounded src domain :
  List.length (Osint.collect_wayback_urls src domain) <= 100 /\
  (forall header urls,
      Osint.http_get src (Osint.wayback_url domain)
      = Ok (Osint.Response 200
              (Ok (VList (header :: map (fun u => VList [VStr u]) urls)))) ->
      Osint.collect_wayback_urls src domain = map VStr (firstn 100 urls)) /\
  (Osint.http_get src (Osint.wayback_url domain)
   = Ok (Osint.Response 200 (Ok (VList []))) ->
   Osint.collect_wayback_urls src domain = []) /\
  (forall response,
      Osint.http_get src (Osint.wayback_url domain) = Ok response ->
      Osint.status response <> 200%Z ->
      Osint.collect_wayback_urls src domain = []) /\
  (forall response e,
      Osint.http_get src (Osint.wayback_url domain) = Ok response ->
      Osint.json response = Raise e ->
      Osint.collect_wayback_urls src domain = []) /\
  (forall e,
      Osint.http_get src (Osint.wayback_url domain) = Raise e ->
      Osint.collect_wayback_urls src domain = []).
Proof.
  split; [apply collect_wayback_urls_length|].
  unfold Osint.collect_wayback_urls. repeat split.
  - intros header urls ->. cbn [Osint.status Osint.json Z.eqb Pos.eqb bind
                               slice_from_1 tl iterate].
    rewrite first_columns_single. rewrite firstn_map. reflexivity.
  - intros ->. reflexivity.
  - intros response -> Hs. apply Z.eqb_neq in Hs. rewrite Hs. reflexivity.
  - intros response e -> ->. destruct (Z.eqb _ 200); reflexivity.
  - intros e ->. reflexivity.
Qed.



Lemma breach_names_length items names :
  Osint.breach_names items = Ok names -> List.length names = List.length items.
Proof.
  revert names. induction items as [|b items IH]; intros names; cbn [Osint.breach_names].
  - intros [= <-]. reflexivity.
  - destruct (get b "Name" VNone); cbn [bind]; [|discriminate].
    destruct (Osint.breach_names items); cbn [bind]; [|discriminate].
    intros [= <-]. cbn [List.length]. f_equal. apply IH. reflexivity.
Qed.

(** X12.  Whatever the service answers, the record returned by
    [check_haveibeenpwned] keeps the address asked about, its [breaches]
    entry is a list and its [total_breaches] entry is the length of that
    list. *)
Theorem check_haveibeenpwned_counts http_get_with email api_key :
  let r := Osint.check_haveibeenpwned http_get_with email api_key in
  exists names,
    getitem r "email" = Ok (VStr email) /\
    getitem r "breaches" = Ok (VList names) /\
    getitem r "total_breaches" = Ok (VInt (Z.of_nat (List.length names))).
Proof.
  intros r. unfold r, Osint.check_haveibeenpwned.
  destruct (negb (truthy api_key)); [exists []; repeat split|].
  destruct (http_get_with _ _) as [response|e]; [|exists []; repeat split].
  destruct (Z.eqb (Osint.status response) 200).
  - destruct (Osint.json response) as [breaches|e]; cbn [bind];
      [|exists []; repeat split].
    destruct (iterate breaches) as [items|e]; cbn [bind]; [|exists []; repeat split].
    destruct (Osint.breach_names items) as [names|e] eqn:En; cbn [bind];
      [|exists []; repeat split].
    exists names. rewrite (breach_names_length _ _ En). repeat split.
  - destruct (Z.eqb (Osint.status response) 404); exists []; repeat split.
Qed.

(** X13.  Without an API key ([None] or the empty string)
    [check_haveibeenpwned] sends no request: its answer is the empty record
    whatever the HTTP client would do.  With a key, a 404 answer gives that
    same record, a failed request gives it with the message of the
    exception, and a status other than 200 and 404 gives it with the error
    ["HTTP <status>"]. *)
Theorem check_haveibeenpwned_statuses http_get_with email api_key :
  let empty := [("email", VStr email); ("breaches", VList []);
                ("total_breaches", VInt 0)] in
  let r := Osint.check_haveibeenpwned http_get_with email api_key in
  let request := http_get_with (Osint.hibp_url email)
                   [("hibp-api-key", api_key); ("User-Agent", VStr "ForensicSense")] in
  (truthy api_key = false -> r = VDict empty) /\
  (truthy api_key = true ->
   (forall response, request = Ok response -> Osint.status response = 404%Z ->
                     r = VDict empty) /\
   (forall response, request = Ok response ->
                     Osint.status response <> 200%Z ->
                     Osint.status response <> 404%Z ->
                     r = VDict (empty ++
                                [("error",
                                  VStr ("HTTP " ++ Json.repr_int (Osint.status response)))])) /\
   (forall e, request = Raise e ->
              r = VDict (empty ++ [("error", VStr (str_exn e))]))).
Proof.
  intros empty r request. unfold r, Osint.check_haveibeenpwned. fold request.
  split.
  - intros ->. reflexivity.
  - intros ->. cbn [negb]. repeat split.
    + intros response -> ->. reflexivity.
    + intros response -> H2 H4.
      apply Z.eqb_neq in H2. apply Z.eqb_neq in H4. rewrite H2, H4. reflexivity.
    + intros e ->. reflexivity.
Qed.

(** X14.  The record [collect_osint] returns always has the same five
    entries: the WHOIS entry is a record for the target, the subdomains are
    in strictly increasing order, [subdomain_count] is their number, and
    there are at most 100 historical URLs. *)
Theorem collect_osint_shape src target :
  exists whois subdomains urls,
    Osint.collect_osint src target
    = VDict [("target", VStr target);
             ("whois", VDict whois);
             ("subdomains", VList (map VStr subdomains));
             ("historical_urls", VList urls);
             ("subdomain_count", VInt (Z.of_nat (List.length subdomains)))] /\
    dict_lookup "domain" whois = Some (VStr target) /\
    Sorted String.le subdomains /\ NoDup subdomains /\
    List.length urls <= 100.
Proof.
  assert (Hw : exists whois, Osint.collect_whois src target = VDict whois /\
                             dict_lookup "domain" whois = Some (VStr target)).
  { unfold Osint.collect_whois.
    destruct (Osint.whois_query src target); eexists; split; reflexivity. }
  destruct Hw as (whois & Hw & Hd).
  exists whois, (Osint.collect_subdomains_passive src target),
    (Osint.collect_wayback_urls src target).
  unfold Osint.collect_osint, Osint.assemble. rewrite Hw.
  split; [reflexivity|]. split; [exact Hd|].
  destruct (collect_subdomains_sorted_nodup src target) as (Hs & Hn & _).
  repeat split; auto. apply collect_wayback_urls_length.
Qed.

(** ** Saving evidence *)

Lemma seal_and_save_ok env self ev path ev' :
  Profiler.seal_and_save env self ev = Ok (path, ev') ->
  path = Profiler.sealed_path ev /\ ev' = Profiler.marked_saved env self ev /\
  exists sealed,
    Profiler.seal env ev = Ok sealed /\
    Profiler.save_sealed_evidence env path sealed = Ok tt.
Proof.
  unfold Profiler.seal_and_save.
  destruct (Profiler.seal env ev) as [sealed|e]; cbn [bind]; [|discriminate].
  destruct (Profiler.save_sealed_evidence env _ sealed) as [[]|e] eqn:Es;
    cbn [bind]; [|discriminate].
  intros [= <- <-]. repeat split. exists sealed. auto.
Qed.

Lemma saved_set_keys k p saved x :
  In x (map fst (Profiler.saved_set k p saved)) <-> x = k \/ In x (map fst saved).
Proof.
  induction saved as [|[k' p'] saved IH]; cbn [Profiler.saved_set map fst].
  - simpl. intuition.
  - destruct (String.eqb k k') eqn:E; cbn [map fst In].
    + apply String.eqb_eq in E. subst k'. intuition.
    + rewrite IH. intuition.
Qed.

Lemma saved_set_NoDup k p saved :
  List.NoDup (map fst saved) -> List.NoDup (map fst (Profiler.saved_set k p saved)).
Proof.
  induction saved as [|[k' p'] saved IH]; cbn [Profiler.saved_set map fst].
  - intros _. constructor; [intros []|constructor].
  - intros H. inversion H as [|? ? Hn Hd]; subst.
    destruct (String.eqb k k') eqn:E; cbn [map fst].
    + apply String.eqb_eq in E. subst k'. constructor; assumption.
    + constructor; [|auto]. rewrite saved_set_keys. intros [->|Hin]; [|auto].
      rewrite String.eqb_refl in E. discriminate.
Qed.

Lemma saved_set_Forall (Q : string * string -> Prop) k p saved :
  Q (k, p) -> Forall Q saved -> Forall Q (Profiler.saved_set k p saved).
Proof.
  intros Hq. induction 1 as [|[k' p'] saved Hx Hs IH]; cbn [Profiler.saved_set].
  - repeat constructor. exact Hq.
  - destruct (String.eqb k k'); constructor; auto.
Qed.

Lemma saved_set_new k p saved :
  ~ In k (map fst saved) -> Profiler.saved_set k p saved = saved ++ [(k, p)].
Proof.
  induction saved as [|[k' p'] saved IH]; cbn [Profiler.saved_set map fst In app].
  - reflexivity.
  - intros H. destruct (String.eqb k k') eqn:E.
    + apply String.eqb_eq in E. subst k'. tauto.
    + f_equal. apply IH. tauto.
Qed.

Lemma saved_set_length k p saved :
  List.length (Profiler.saved_set k p saved) <= S (List.length saved).
Proof.
  induction saved as [|[k' p'] saved IH]; cbn [Profiler.saved_set List.length].
  - lia.
  - destruct (String.eqb k k'); cbn [List.length]; lia.
Qed.

(** The entry of the dictionary of paths for one piece of evidence. *)
Local Abbreviation saved_entry :=
  (fun ev => (Profiler.evidence_id ev, Profiler.sealed_path ev)).

(** What the loop of [save_all] has done when it ends. *)
Lemma save_items_spec env self items :
  forall done saved r items',
    Profiler.save_items env self done items saved = (r, items') ->
    match r with
    | Ok saved' =>
        items' = done ++ map (Profiler.marked_saved env self) items /\
        Forall (fun ev => exists sealed,
                    Profiler.seal env ev = Ok sealed /\
                    Profiler.save_sealed_evidence env (Profiler.sealed_path ev) sealed
                    = Ok tt) items /\
        (List.NoDup (map fst saved) -> List.NoDup (map fst saved')) /\
        (forall k, In k (map fst saved') <->
                   In k (map fst saved) \/ In k (map Profiler.evidence_id items)) /\
        (forall Q : string * string -> Prop,
            Forall Q saved -> Forall Q (map saved_entry items) -> Forall Q saved') /\
        List.length saved' <= List.length saved + List.length items /\
        (List.NoDup (map fst saved ++ map Profiler.evidence_id items) ->
         saved' = saved ++ map saved_entry items)
    | Raise e =>
        exists saved_items ev rest,
          items = saved_items ++ ev :: rest /\
          Forall (fun x => exists r, Profiler.seal_and_save env self x = Ok r)
                 saved_items /\
          Profiler.seal_and_save env self ev = Raise e /\
          items' = done ++ map (Profiler.marked_saved env self) saved_items
                   ++ ev :: rest
    end.
Proof.
  induction items as [|ev items IH]; intros done saved r items';
    cbn [Profiler.save_items].
  - intros [= <- <-]. cbn [map List.length In]. rewrite !app_nil_r.
    split; [reflexivity|]. split; [constructor|]. split; [auto|].
    split; [intros k; tauto|]. split; [auto|]. split; [lia|reflexivity].
  - destruct (Profiler.seal_and_save env self ev) as [[path ev']|e] eqn:Es.
    + intros H. apply IH in H.
      destruct (seal_and_save_ok _ _ _ _ _ Es) as (-> & -> & sealed & Hseal & Hsave).
      destruct r as [saved'|e].
      * destruct H as (-> & Hall & Hnd & Hkeys & HQ & Hlen & Hexact).
        split; [rewrite <- app_assoc; reflexivity|].
        split; [constructor; [eauto|exact Hall]|].
        split; [intros Hs; apply Hnd, saved_set_NoDup, Hs|].
        split; [intros k; rewrite Hkeys, saved_set_keys; cbn [map In]; intuition|].
        split.
        { intros Q Hs Hi. cbn [map] in Hi. inversion Hi; subst.
          apply HQ; [apply saved_set_Forall|]; assumption. }
        split.
        { pose proof (saved_set_length (Profiler.evidence_id ev)
                        (Profiler.sealed_path ev) saved).
          cbn [List.length]. lia. }
        intros Hd. cbn [map] in Hd.
        assert (Hnew : ~ In (Profiler.evidence_id ev) (map fst saved)).
        { apply List.NoDup_remove_2 in Hd. intros Hin. apply Hd.
          apply in_or_app. left. exact Hin. }
        rewrite (saved_set_new _ _ _ Hnew) in Hexact.
        cbn [map]. rewrite Hexact; [rewrite <- app_assoc; reflexivity|].
        rewrite map_app. cbn [map fst]. rewrite <- app_assoc. exact Hd.
      * destruct H as (si & bad & rest & -> & Hsi & Hbad & ->).
        exists (ev :: si), bad, rest. cbn [map app].
        split; [reflexivity|]. split; [constructor; eauto|].
        split; [exact Hbad|]. rewrite <- app_assoc. reflexivity.
    + intros [= <- <-]. exists [], ev, items. repeat split; auto.
Qed.

Lemma save_all_unfold env self :
  Profiler.save_all env self
  = (fst (Profiler.save_items env self [] (Profiler.evidence_items self) []),
     Profiler.MkCollector (Profiler.collector_name self)
       (Profiler.collector_case_id self)
       (snd (Profiler.save_items env self [] (Profiler.evidence_items self) []))).
Proof.
  unfold Profiler.save_all.
  destruct (Profiler.save_items env self [] (Profiler.evidence_items self) []).
  reflexivity.
Qed.

Lemma save_all_ok env self saved self' :
  Profiler.save_all env self = (Ok saved, self') ->
  Profiler.evidence_items self'
  = map (Profiler.marked_saved env self) (Profiler.evidence_items self) /\
  Forall (fun ev => exists sealed,
              Profiler.seal env ev = Ok sealed /\
              Profiler.save_sealed_evidence env (Profiler.sealed_path ev) sealed
              = Ok tt) (Profiler.evidence_items self) /\
  List.NoDup (map fst saved) /\
  (forall k p, In (k, p) saved <->
               exists ev, In ev (Profiler.evidence_items self) /\
                          k = Profiler.evidence_id ev /\
                          p = Profiler.sealed_path ev) /\
  List.length saved <= List.length (Profiler.evidence_items self) /\
  (List.NoDup (map Profiler.evidence_id (Profiler.evidence_items self)) ->
   saved = map saved_entry (Profiler.evidence_items self)).
Proof.
  rewrite save_all_unfold.
  destruct (Profiler.save_items env self [] (Profiler.evidence_items self) [])
    as [r items'] eqn:E. cbn [fst snd]. intros [= -> <-].
  apply save_items_spec in E.
  destruct E as (-> & Hall & Hnd & Hkeys & HQ & Hlen & Hexact).
  cbn [Profiler.evidence_items app]. split; [reflexivity|]. split; [exact Hall|].
  split; [apply Hnd; constructor|].
  split.
  - intros k p. split.
    + intros Hin.
      assert (HF : Forall (fun kp => exists ev,
                               In ev (Profiler.evidence_items self) /\
                               kp = saved_entry ev) saved).
      { apply HQ; [constructor|]. apply List.Forall_forall. intros kp Hkp.
        apply in_map_iff in Hkp. destruct Hkp as (ev & <- & Hev). eauto. }
      rewrite List.Forall_forall in HF. destruct (HF _ Hin) as (ev & Hev & [= -> ->]).
      eauto.
    + intros (ev & Hev & -> & ->).
      assert (Hk : In (Profiler.evidence_id ev) (map fst saved)).
      { apply Hkeys. right. apply in_map. exact Hev. }
      apply in_map_iff in Hk. destruct Hk as ([k p] & Hk & Hin). cbn [fst] in Hk.
      subst k.
      assert (HF : Forall (fun kp => snd kp = ("evidence/" ++ fst kp ++ ".sealed")%string)
                          saved).
      { apply HQ; [constructor|]. apply List.Forall_forall. intros kp Hkp.
        apply in_map_iff in Hkp. destruct Hkp as (x & <- & _). reflexivity. }
      rewrite List.Forall_forall in HF. specialize (HF _ Hin). cbn [fst snd] in HF.
      subst p. exact Hin.
  - split; [cbn [List.length] in Hlen; lia|].
    intros Hd. apply Hexact. exact Hd.
Qed.

(** X15.  When [save_all] returns, every collected item has been sealed
    and written to [evidence/<id>.sealed] and carries one more custody
    entry, [sealed_and_saved], after the entries it had; the items keep
    their order.  The dictionary returned has exactly the evidence ids as
    keys, each with the path of its file: one entry per item when the ids
    are distinct, fewer when two items share an id (their files are the
    same path). *)
Theorem save_all_saves_every_item env self saved self' :
  Profiler.save_all env self = (Ok saved, self') ->
  Profiler.evidence_items self'
  = map (Profiler.marked_saved env self) (Profiler.evidence_items self) /\
  Forall (fun ev => exists sealed,
              Profiler.seal env ev = Ok sealed /\
              Profiler.save_sealed_evidence env (Profiler.sealed_path ev) sealed
              = Ok tt) (Profiler.evidence_items self) /\
  List.NoDup (map fst saved) /\
  (forall k p, In (k, p) saved <->
               exists ev, In ev (Profiler.evidence_items self) /\
                          k = Profiler.evidence_id ev /\
                          p = Profiler.sealed_path ev) /\
  List.length saved <= List.length (Profiler.evidence_items self) /\
  (List.NoDup (map Profiler.evidence_id (Profiler.evidence_items self)) ->
   saved = map (fun ev => (Profiler.evidence_id ev, Profiler.sealed_path ev))
             (Profiler.evidence_items self)).
Proof. apply save_all_ok. Qed.

(** X16.  When [save_all] raises, it is the exception of the first item
    that could not be sealed or written.  The items before it have been
    saved and carry the [sealed_and_saved] entry; that item and the items
    after it are as they were, and nothing was attempted for the latter. *)
Theorem save_all_stops_at_first_failure env self e self' :
  Profiler.save_all env self = (Raise e, self') ->
  exists saved_items ev rest,
    Profiler.evidence_items self = saved_items ++ ev :: rest /\
    Forall (fun x => exists r, Profiler.seal_and_save env self x = Ok r) saved_items /\
    Profiler.seal_and_save env self ev = Raise e /\
    Profiler.evidence_items self'
    = map (Profiler.marked_saved env self) saved_items ++ ev :: rest.
Proof.
  rewrite save_all_unfold.
  destruct (Profiler.save_items env self [] (Profiler.evidence_items self) [])
    as [r items'] eqn:E. cbn [fst snd]. intros [= -> <-].
  apply save_items_spec in E. exact E.
Qed.

Lemma save_all_saves_every_item_witness :
  exists saved self',
    Profiler.save_all (Examples.lab Examples.disk_ok) Examples.two_items
    = (Ok saved, self') /\
    saved = [("dns_resolution_20240501_120000",
              "evidence/dns_resolution_20240501_120000.sealed");
             ("network_scan_20240501_120000",
              "evidence/network_scan_20240501_120000.sealed")] /\
    Profiler.evidence_items self'
    = map (Profiler.marked_saved (Examples.lab Examples.disk_ok) Examples.two_items)
        (Profiler.evidence_items Examples.two_items).
Proof.
  eexists. eexists. split; [vm_compute; reflexivity|]. split; [reflexivity|].
  eapply (save_all_saves_every_item (Examples.lab Examples.disk_ok) Examples.two_items).
  vm_compute. reflexivity.
Defined.

Lemma save_all_stops_at_first_failure_witness :
  exists self',
    Profiler.save_all
      (Examples.lab (Examples.disk_without
                       "evidence/network_scan_20240501_120000.sealed"))
      Examples.two_items
    = (Raise (Exn OSError "[Errno 13] Permission denied"), self') /\
    exists saved_items ev rest,
      Profiler.evidence_items Examples.two_items = saved_items ++ ev :: rest /\
      Forall (fun x => exists r,
                  Profiler.seal_and_save
                    (Examples.lab (Examples.disk_without
                                     "evidence/network_scan_20240501_120000.sealed"))
                    Examples.two_items x = Ok r) saved_items /\
      Profiler.seal_and_save
        (Examples.lab (Examples.disk_without
                         "evidence/network_scan_20240501_120000.sealed"))
        Examples.two_items ev
      = Raise (Exn OSError "[Errno 13] Permission denied") /\
      Profiler.evidence_items self'
      = map (Profiler.marked_saved
               (Examples.lab (Examples.disk_without
                                "evidence/network_scan_20240501_120000.sealed"))
               Examples.two_items) saved_items ++ ev :: rest.
Proof.
  eexists. split; [vm_compute; reflexivity|].
  eapply (save_all_stops_at_first_failure
            (Examples.lab (Examples.disk_without
                             "evidence/network_scan_20240501_120000.sealed"))
            Examples.two_items).
  vm_compute. reflexivity.
Defined.

Lemma truthy_seal_metadata ev : truthy (Profiler.seal_metadata ev) = true.
Proof. reflexivity. Qed.

(** X17.  The document [seal_and_save] hands to the file writer passes
    [verify_seal], and [load_evidence] on it gives back the sealed package:
    the evidence as it was before the [sealed_and_saved] custody entry was
    added, with the collector, the case and the evidence type as metadata. *)
Theorem seal_and_save_writes_verifiable_package env self ev path ev' :
  Profiler.seal_and_save env self ev = Ok (path, ev') ->
  path = Profiler.sealed_path ev /\
  Profiler.chain ev'
  = (Profiler.chain ev
     ++ [VDict [("timestamp", VStr (utcnow_isoformat (Profiler.now env)));
                ("action", VStr "sealed_and_saved");
                ("actor", VStr (Profiler.collector_name self));
                ("notes", VStr ("Saved to " ++ path)%string)]])%list /\
  exists sealed,
    Profiler.save_sealed_evidence env path sealed = Ok tt /\
    Crypto.verify_seal Crypto.default_sealer sealed = Ok true /\
    Profiler.load_evidence (Ok sealed)
    = Ok (VDict [("timestamp", VStr (utcnow_isoformat (Profiler.now env)));
                 ("data", Profiler.to_dict ev);
                 ("metadata", Profiler.seal_metadata ev);
                 ("sealer_version", VStr "1.0")]).
Proof.
  intros H. destruct (seal_and_save_ok _ _ _ _ _ H) as (-> & -> & sealed & Hseal & Hsave).
  split; [reflexivity|]. split; [reflexivity|].
  exists sealed. split; [exact Hsave|].
  unfold Profiler.seal in Hseal. fold (Profiler.seal_metadata ev) in Hseal.
  pose proof (verify_seal_of_seal_evidence _ _ _ _ _ Hseal) as Hv.
  split; [exact Hv|].
  unfold Profiler.load_evidence.
  rewrite (proj2 (proj1 (load_sealed_evidence_cases _ sealed)) Hv). cbn [bind].
  unfold Crypto.seal_evidence in Hseal.
  destruct (Json.dumps true _); cbn [bind] in Hseal; [|discriminate].
  injection Hseal as <-. unfold Crypto.evidence_package.
  rewrite truthy_seal_metadata. reflexivity.
Qed.

Lemma seal_and_save_writes_verifiable_package_witness :
  exists path ev' sealed,
    Profiler.seal_and_save (Examples.lab Examples.disk_ok) Examples.two_items
      (Profiler.MkEvidence "osint_1" "osint" (VDict []) "TargetProfiler" VNone
         "2024-05-01T12:00:00.000000" [])
    = Ok (path, ev') /\
    path = "evidence/osint_1.sealed" /\
    Crypto.verify_seal Crypto.default_sealer sealed = Ok true /\
    Profiler.load_evidence (Ok sealed)
    = Ok (VDict [("timestamp", VStr "2024-05-01T12:00:00.000000");
                 ("data",
                  Profiler.to_dict
                    (Profiler.MkEvidence "osint_1" "osint" (VDict []) "TargetProfiler"
                       VNone "2024-05-01T12:00:00.000000" []));
                 ("metadata",
                  Profiler.seal_metadata
                    (Profiler.MkEvidence "osint_1" "osint" (VDict []) "TargetProfiler"
                       VNone "2024-05-01T12:00:00.000000" []));
                 ("sealer_version", VStr "1.0")]).
Proof.
  eexists. eexists.
  destruct (seal_and_save_writes_verifiable_package
              (Examples.lab Examples.disk_ok) Examples.two_items
              (Profiler.MkEvidence "osint_1" "osint" (VDict []) "TargetProfiler" VNone
                 "2024-05-01T12:00:00.000000" [])
              "evidence/osint_1.sealed" _ ltac:(vm_compute; reflexivity))
    as (_ & _ & sealed & _ & Hv & Hl).
  exists sealed. split; [vm_compute; reflexivity|]. split; [reflexivity|].
  split; [exact Hv|exact Hl].
Defined.

(** ** The run, stage by stage *)

Section Hoare.
Import Profiler.
Context {A B : Type}.

Lemma hoare_ret P (a : A) : hoare P (ret a) P.
Proof. intros st H. exact H. Qed.

Lemma hoare_lift P (r : Py.result A) : hoare P (lift r) P.
Proof. intros st H. exact H. Qed.

Lemma hoare_attr P a : hoare P (attr a) P.
Proof. intros st H. exact H. Qed.

Lemma hoare_to_dict_profile P : hoare P to_dict_profile P.
Proof. intros st H. exact H. Qed.

Lemma hoare_bind P Q R (m : M A) (k : A -> M B) :
  hoare P m Q -> (forall a, hoare Q (k a) R) -> (forall st, Q st -> R st) ->
  hoare P (mbind m k) R.
Proof.
  intros Hm Hk HQR st HP. specialize (Hm st HP). unfold mbind.
  destruct (m st) as [[a|e] st1]; cbn [snd] in *; [apply Hk|apply HQR]; exact Hm.
Qed.

Lemma hoare_try_catch P Q R (m : M A) (h : exn -> M A) :
  hoare P m Q -> (forall e, hoare Q (h e) R) -> (forall st, Q st -> R st) ->
  hoare P (try_catch m h) R.
Proof.
  intros Hm Hh HQR st HP. specialize (Hm st HP). unfold try_catch.
  destruct (m st) as [[a|e] st1]; cbn [snd] in *; [apply HQR|apply Hh]; exact Hm.
Qed.

(** The continuation of a pure step sees the value the step returned. *)
Lemma hoare_lift_bind P R (r : Py.result A) (k : A -> M B) :
  (forall a, r = Ok a -> hoare P (k a) R) -> (forall st, P st -> R st) ->
  hoare P (mbind (lift r) k) R.
Proof.
  intros Hk HPR st HP. unfold mbind, lift.
  destruct r as [a|e]; cbn [snd]; [apply (Hk a eq_refl)|apply HPR]; exact HP.
Qed.

End Hoare.

Lemma hoare_weaken {A} (P P' Q Q' : Profiler.run_state -> Prop) (m : Profiler.M A) :
  (forall st, P' st -> P st) -> (forall st, Q st -> Q' st) ->
  Profiler.hoare P m Q -> Profiler.hoare P' m Q'.
Proof. intros HP HQ H st Hst. apply HQ, H, HP, Hst. Qed.

(** The continuation of an attribute read sees the attribute. *)
Lemma hoare_attr_bind {B} P R a (k : value -> Profiler.M B) :
  (forall v, Profiler.hoare
               (fun st => P st /\
                          v = match dict_lookup a (Profiler.profile st) with
                              | Some x => x
                              | None => VNone
                              end) (k v) R) ->
  Profiler.hoare P (Profiler.mbind (Profiler.attr a) k) R.
Proof. intros Hk st HP. unfold Profiler.mbind, Profiler.attr. apply Hk. auto. Qed.

(** *** Invariants of the trace *)

Section TraceInvariant.
Import Profiler.
Variable Q : event -> Prop.

Lemma traced_emit e : Q e -> hoare (traced Q) (emit e) (traced Q).
Proof. intros He st H. apply Forall_app. split; [exact H|repeat constructor; exact He]. Qed.

Lemma traced_calling {A} c (r : Py.result A) :
  Q (Call c) -> hoare (traced Q) (calling c r) (traced Q).
Proof. intros He st H. apply Forall_app. split; [exact H|repeat constructor; exact He]. Qed.

Lemma traced_assign a v : Q (Assign a) -> hoare (traced Q) (assign a v) (traced Q).
Proof. intros He st H. apply Forall_app. split; [exact H|repeat constructor; exact He]. Qed.

Lemma traced_collect_if env ce ty data :
  (ce = true -> Q (Call (call_collect ty))) ->
  hoare (traced Q) (collect_if env ce ty data) (traced Q).
Proof.
  intros He st H. unfold collect_if. destruct ce; [|exact H].
  apply Forall_app. split; [exact H|repeat constructor; auto].
Qed.

Lemma traced_saving_all env :
  Q (Call call_save_all) -> hoare (traced Q) (saving_all env) (traced Q).
Proof.
  intros He st H. unfold saving_all.
  destruct (save_all env (evidence_collector st)) as [r c]. cbn [snd trace].
  apply Forall_app. split; [exact H|repeat constructor; exact He].
Qed.

End TraceInvariant.

(** Follows the structure of a block for an invariant of the trace; the
    events are left as goals. *)
Ltac traced_steps :=
  repeat first
    [ apply hoare_ret | apply hoare_lift | apply hoare_attr
    | apply hoare_to_dict_profile
    | apply traced_emit
    | apply traced_calling
    | apply traced_assign
    | apply traced_collect_if; intros ?
    | apply traced_saving_all
    | eapply hoare_bind; [| intros ? | intros ? ?; eassumption]
    | eapply hoare_try_catch; [| intros ? | intros ? ?; eassumption]
    | match goal with
      | |- Profiler.hoare _ (if ?b then _ else _) _ => destruct b eqn:?
      | |- Profiler.hoare _ (let _ := _ in _) _ => cbv zeta
      end ].

Ltac allowed_event :=
  unfold Profiler.allowed, Profiler.entered, Profiler.stage_evidence_types;
  cbn -[Profiler.depth_in String.eqb];
  repeat match goal with
         | H : _ = true |- _ => rewrite H
         | H : _ = false |- _ => rewrite H
         end;
  try reflexivity.

Lemma fingerprint_services_allowed env ce depth host ports :
  Profiler.depth_in depth ["full"; "deep"] = true ->
  Profiler.hoare (Profiler.traced (fun e => Profiler.allowed ce depth e = true))
    (Profiler.fingerprint_services env host ports)
    (Profiler.traced (fun e => Profiler.allowed ce depth e = true)).
Proof.
  intros Hd. induction ports as [|p ports IH]; cbn [Profiler.fingerprint_services].
  - apply hoare_ret.
  - traced_steps; try exact IH; allowed_event.
Qed.

Lemma depth_in_full_standard depth :
  Profiler.depth_in depth ["full"; "deep"] = true ->
  Profiler.depth_in depth ["standard"; "full"; "deep"] = true.
Proof.
  unfold Profiler.depth_in. cbn [existsb]. intros ->. apply orb_true_r.
Qed.

Lemma depth_deep depth :
  String.eqb depth "deep" = true -> Profiler.depth_in depth ["full"; "deep"] = true.
Proof.
  unfold Profiler.depth_in. cbn [existsb]. intros ->.
  rewrite orb_true_r. reflexivity.
Qed.

Lemma run_stages_allowed env ce target depth :
  Profiler.hoare (Profiler.traced (fun e => Profiler.allowed ce depth e = true))
    (Profiler.run_stages env ce target depth)
    (Profiler.traced (fun e => Profiler.allowed ce depth e = true)).
Proof.
  unfold Profiler.run_stages.
  eapply hoare_bind; [| intros ? | intros ? ?; eassumption].
  { destruct ce; [apply hoare_lift|apply hoare_ret]. }
  cbv zeta.
  eapply hoare_bind; [| intros ? | intros ? ?; eassumption].
  { unfold Profiler.step_1_dns. traced_steps; allowed_event. }
  eapply hoare_bind; [| intros ? | intros ? ?; eassumption].
  { unfold Profiler.step_2_scan. traced_steps; allowed_event.
    all: try (rewrite String.eqb_refl; reflexivity). }
  eapply hoare_bind; [| intros ? | intros ? ?; eassumption].
  { unfold Profiler.step_3_fingerprint.
    destruct (Profiler.depth_in depth ["full"; "deep"]) eqn:Hd; [|apply hoare_ret].
    eapply hoare_bind; [apply traced_emit; allowed_event| intros ? | intros ? ?; eassumption].
    eapply hoare_try_catch; [| intros ?; apply traced_emit; allowed_event
                             | intros ? ?; eassumption].
    eapply hoare_bind; [apply hoare_attr| intros ? | intros ? ?; eassumption].
    eapply hoare_bind; [apply hoare_lift| intros ? | intros ? ?; eassumption].
    eapply hoare_bind; [apply hoare_lift| intros ? | intros ? ?; eassumption].
    eapply hoare_bind; [apply fingerprint_services_allowed; exact Hd
                       | intros ? | intros ? ?; eassumption].
    traced_steps; allowed_event. }
  eapply hoare_bind; [| intros ? | intros ? ?; eassumption].
  { unfold Profiler.step_4_osint. traced_steps; allowed_event. }
  eapply hoare_bind; [| intros ? | intros ? ?; eassumption].
  { unfold Profiler.step_5_vulnerabilities. traced_steps; allowed_event. }
  apply traced_assign. reflexivity.
Qed.

Lemma profile_target_allowed env ce target depth :
  Forall (fun e => Profiler.allowed ce depth e = true)
    (Profiler.trace (snd (Profiler.profile_target env ce target depth))).
Proof.
  unfold Profiler.profile_target, Profiler.profile_target_body.
  match goal with
  | |- Forall ?Q (Profiler.trace (snd (?m ?st))) =>
      change (Profiler.traced Q (snd (m st)));
      cut (Profiler.hoare (Profiler.traced Q) m (Profiler.traced Q))
  end.
  { intros H. apply H. constructor. }
  eapply hoare_bind; [apply run_stages_allowed| intros ? | intros ? ?; eassumption].
  eapply hoare_bind; [| intros ? | intros ? ?; eassumption].
  { unfold Profiler.seal_evidence_files. destruct ce; [|apply hoare_ret].
    traced_steps; reflexivity. }
  unfold Profiler.closing_log. traced_steps.
Qed.
(** *** The collector and the trace *)

Lemma collected_types_app evs1 evs2 :
  Profiler.collected_types (evs1 ++ evs2)
  = Profiler.collected_types evs1 ++ Profiler.collected_types evs2.
Proof.
  induction evs1 as [|e evs1 IH]; [reflexivity|].
  destruct e as [s|c|a|s m]; cbn [app Profiler.collected_types]; try exact IH.
  destruct c; cbn [app]; try exact IH. f_equal. exact IH.
Qed.

Lemma save_all_keeps_ids env c :
  map (fun ev => (Profiler.evidence_type ev, Profiler.evidence_id ev))
      (Profiler.evidence_items (snd (Profiler.save_all env c)))
  = map (fun ev => (Profiler.evidence_type ev, Profiler.evidence_id ev))
      (Profiler.evidence_items c).
Proof.
  rewrite save_all_unfold. cbn [snd Profiler.evidence_items].
  destruct (Profiler.save_items env c [] (Profiler.evidence_items c) [])
    as [r items'] eqn:E. cbn [snd].
  apply save_items_spec in E. destruct r as [saved|e].
  - destruct E as (-> & _). cbn [app]. rewrite map_map. reflexivity.
  - destruct E as (si & ev & rest & -> & _ & _ & ->). cbn [app].
    rewrite !map_app, map_map. reflexivity.
Qed.

Section ItemsInvariant.
Import Profiler.
Variable env : collaborators.

Lemma items_emit e :
  collected_types [e] = [] ->
  hoare (items_follow_trace env) (emit e) (items_follow_trace env).
Proof.
  intros He st H. unfold items_follow_trace in *. cbn [emit snd trace evidence_collector].
  rewrite collected_types_app, He, app_nil_r. exact H.
Qed.

Lemma items_calling {A} c (r : Py.result A) :
  collected_types [Call c] = [] ->
  hoare (items_follow_trace env) (calling c r) (items_follow_trace env).
Proof.
  intros He st H. unfold items_follow_trace in *.
  cbn [calling snd trace evidence_collector].
  rewrite collected_types_app, He, app_nil_r. exact H.
Qed.

Lemma items_assign a v :
  hoare (items_follow_trace env) (assign a v) (items_follow_trace env).
Proof.
  intros st H. unfold items_follow_trace in *.
  cbn [assign snd trace evidence_collector].
  rewrite collected_types_app. cbn [collected_types]. rewrite app_nil_r. exact H.
Qed.

Lemma items_collect_if ce ty data :
  hoare (items_follow_trace env) (collect_if env ce ty data) (items_follow_trace env).
Proof.
  intros st H. unfold items_follow_trace, collect_if in *. destruct ce; [|exact H].
  cbn [snd trace evidence_collector collect evidence_items].
  rewrite collected_types_app, !map_app, H. reflexivity.
Qed.

Lemma items_saving_all :
  hoare (items_follow_trace env) (saving_all env) (items_follow_trace env).
Proof.
  intros st H. unfold items_follow_trace, saving_all in *.
  pose proof (save_all_keeps_ids env (evidence_collector st)) as Hk.
  destruct (save_all env (evidence_collector st)) as [r c].
  cbn [snd trace evidence_collector] in *.
  rewrite collected_types_app. cbn [collected_types]. rewrite app_nil_r, Hk. exact H.
Qed.

End ItemsInvariant.

(** *** Counting the calls to the service fingerprinter *)

Lemma fingerprint_service_calls_app evs1 evs2 :
  Profiler.fingerprint_service_calls (evs1 ++ evs2)
  = Profiler.fingerprint_service_calls evs1 + Profiler.fingerprint_service_calls evs2.
Proof.
  induction evs1 as [|e evs1 IH]; [reflexivity|].
  destruct e as [s|c|a|s m]; cbn [app Profiler.fingerprint_service_calls]; try exact IH.
  destruct c; cbn [Nat.add]; try exact IH. f_equal. exact IH.
Qed.

Section CallsInvariant.
Import Profiler.
Variable n : nat.

Lemma calls_emit e :
  fingerprint_service_calls [e] = 0 ->
  hoare (services_bounded n) (emit e) (services_bounded n).
Proof.
  intros He st (H & l & Hl & Hn). unfold services_bounded.
  cbn [emit snd trace profile]. rewrite fingerprint_service_calls_app, He.
  split; [lia|]. exists l. split; [exact Hl|lia].
Qed.

Lemma calls_calling {A} c (r : Py.result A) :
  fingerprint_service_calls [Call c] = 0 ->
  hoare (services_bounded n) (calling c r) (services_bounded n).
Proof.
  intros He st (H & l & Hl & Hn). unfold services_bounded.
  cbn [calling snd trace profile]. rewrite fingerprint_service_calls_app, He.
  split; [lia|]. exists l. split; [exact Hl|lia].
Qed.

Lemma calls_assign a v :
  String.eqb "services" a = false ->
  hoare (services_bounded n) (assign a v) (services_bounded n).
Proof.
  intros Ha st (H & l & Hl & Hn). unfold services_bounded.
  cbn [assign snd trace profile]. rewrite fingerprint_service_calls_app.
  cbn [fingerprint_service_calls]. split; [lia|]. exists l.
  rewrite dict_lookup_set, Ha. split; [exact Hl|lia].
Qed.

Lemma calls_collect_if env ce ty data :
  hoare (services_bounded n) (collect_if env ce ty data) (services_bounded n).
Proof.
  intros st (H & l & Hl & Hn). unfold collect_if. destruct ce; [|unfold services_bounded; eauto].
  unfold services_bounded. cbn [snd trace profile].
  rewrite fingerprint_service_calls_app. cbn [fingerprint_service_calls].
  split; [lia|]. exists l. split; [exact Hl|lia].
Qed.

Lemma calls_saving_all env :
  hoare (services_bounded n) (saving_all env) (services_bounded n).
Proof.
  intros st (H & l & Hl & Hn). unfold saving_all, services_bounded.
  destruct (save_all env (evidence_collector st)) as [r c]. cbn [snd trace profile].
  rewrite fingerprint_service_calls_app. cbn [fingerprint_service_calls].
  split; [lia|]. exists l. split; [exact Hl|lia].
Qed.

End CallsInvariant.

Lemma services_bounded_weaken n m st :
  n <= m -> Profiler.services_bounded n st -> Profiler.services_bounded m st.
Proof. intros Hnm (H & Hs). split; [lia|exact Hs]. Qed.

(** Follows the structure of a block for an invariant; side conditions on
    the events are left as goals. *)
Ltac invariant_steps :=
  repeat first
    [ apply hoare_ret | apply hoare_lift | apply hoare_attr
    | apply hoare_to_dict_profile
    | apply items_emit | apply items_calling | apply items_assign
    | apply items_collect_if | apply items_saving_all
    | apply calls_emit | apply calls_calling | apply calls_assign
    | apply calls_collect_if | apply calls_saving_all
    | eapply hoare_bind; [| intros ? | intros ? ?; eassumption]
    | eapply hoare_try_catch; [| intros ? | intros ? ?; eassumption]
    | match goal with
      | |- Profiler.hoare _ (if ?b then _ else _) _ => destruct b eqn:?
      | |- Profiler.hoare _ (let _ := _ in _) _ => cbv zeta
      end ].

Lemma fingerprint_services_items env host ports :
  Profiler.hoare (Profiler.items_follow_trace env)
    (Profiler.fingerprint_services env host ports)
    (Profiler.items_follow_trace env).
Proof.
  induction ports as [|p ports IH]; cbn [Profiler.fingerprint_services].
  - apply hoare_ret.
  - invariant_steps; try exact IH; reflexivity.
Qed.

Lemma profile_target_items env ce target depth :
  Profiler.items_follow_trace env (snd (Profiler.profile_target env ce target depth)).
Proof.
  unfold Profiler.profile_target, Profiler.profile_target_body.
  match goal with
  | |- Profiler.items_follow_trace _ (snd (?m ?st)) =>
      cut (Profiler.hoare (Profiler.items_follow_trace env) m
             (Profiler.items_follow_trace env))
  end.
  { intros H. apply H. reflexivity. }
  eapply hoare_bind; [| intros ? | intros ? ?; eassumption].
  { unfold Profiler.run_stages, Profiler.step_1_dns, Profiler.step_2_scan,
      Profiler.step_3_fingerprint, Profiler.step_4_osint,
      Profiler.step_5_vulnerabilities.
    invariant_steps; try apply fingerprint_services_items; try reflexivity. }
  eapply hoare_bind; [| intros ? | intros ? ?; eassumption].
  { unfold Profiler.seal_evidence_files. invariant_steps; reflexivity. }
  unfold Profiler.closing_log. invariant_steps.
Qed.

(** The loop over the open ports calls the fingerprinter at most once per
    port and appends one entry to [profile.services] per call that
    returned. *)
Lemma fingerprint_services_calls env host ports :
  forall n,
    Profiler.hoare (Profiler.services_bounded n)
      (Profiler.fingerprint_services env host ports)
      (Profiler.services_bounded (n + List.length ports)).
Proof.
  induction ports as [|p ports IH]; intros n; cbn [Profiler.fingerprint_services].
  - intros st H. cbn [Profiler.ret snd List.length]. rewrite Nat.add_0_r. exact H.
  - assert (Hup : forall k st, k <= S n -> Profiler.services_bounded k st ->
                    Profiler.services_bounded (n + List.length (p :: ports)) st).
    { intros k st Hk. apply services_bounded_weaken. cbn [List.length]. lia. }
    apply hoare_lift_bind; [intros port _|intros st; apply Hup; lia].
    apply hoare_lift_bind; [intros service _|intros st; apply Hup; lia].
    eapply hoare_bind with
      (Q := fun st =>
              Profiler.fingerprint_service_calls (Profiler.trace st) <= S n /\
              exists services,
                dict_lookup "services" (Profiler.profile st) = Some (VList services) /\
                S (List.length services)
                <= Profiler.fingerprint_service_calls (Profiler.trace st)).
    + intros st (H & l & Hl & Hn). cbn [Profiler.calling snd Profiler.trace Profiler.profile].
      rewrite fingerprint_service_calls_app. cbn [Profiler.fingerprint_service_calls].
      split; [lia|]. exists l. split; [exact Hl|lia].
    + intros service_fp st (H & l & Hl & Hn).
      unfold Profiler.mbind at 1, Profiler.attr. rewrite Hl.
      unfold Profiler.mbind at 1, Profiler.lift, Profiler.append.
      unfold Profiler.mbind at 1, Profiler.assign.
      eapply services_bounded_weaken; [|apply (IH (S n))].
      { cbn [List.length]. lia. }
      split; cbn [Profiler.trace Profiler.profile];
        rewrite fingerprint_service_calls_app; cbn [Profiler.fingerprint_service_calls];
        [lia|].
      eexists. rewrite dict_lookup_set. cbn [String.eqb Ascii.eqb Bool.eqb].
      split; [reflexivity|]. rewrite length_app. cbn [List.length]. lia.
    + intros st (H & l & Hl & Hn). apply (Hup (S n)); [lia|].
      split; [exact H|]. exists l. split; [exact Hl|lia].
Qed.
Lemma substring_0_length m s : String.length (String.substring 0 m s) <= m.
Proof.
  revert s. induction m as [|m IH]; intros [|c s]; cbn [String.substring String.length];
    try lia. specialize (IH s). lia.
Qed.

Lemma length_list_ascii s :
  List.length (list_ascii_of_string s) = String.length s.
Proof.
  induction s; cbn [list_ascii_of_string List.length String.length]; congruence.
Qed.

Lemma first_ten_length v l :
  (let* s := Profiler.slice_to_10 v in iterate s) = Ok l -> List.length l <= 10.
Proof.
  destruct v; cbn [Profiler.slice_to_10 bind iterate]; try discriminate.
  - intros [= <-]. rewrite length_map, length_list_ascii.
    apply substring_0_length.
  - intros [= <-]. apply firstn_le_length.
  - intros [= <-]. apply firstn_le_length.
Qed.

Lemma step_3_calls env ce depth host n :
  Profiler.hoare (Profiler.services_bounded n)
    (Profiler.step_3_fingerprint env ce depth host)
    (Profiler.services_bounded (n + 10)).
Proof.
  assert (Hup : forall st, Profiler.services_bounded n st ->
                           Profiler.services_bounded (n + 10) st).
  { intros st. apply services_bounded_weaken. lia. }
  unfold Profiler.step_3_fingerprint.
  destruct (Profiler.depth_in depth ["full"; "deep"]); [|exact Hup].
  eapply hoare_bind; [apply calls_emit; reflexivity|intros _|exact Hup].
  eapply hoare_try_catch with (Q := Profiler.services_bounded (n + 10));
    [|intros e; apply calls_emit; reflexivity|auto].
  eapply hoare_bind; [apply hoare_attr|intros network_scan|exact Hup].
  eapply hoare_bind; [apply hoare_lift|intros open_ports|exact Hup].
  apply hoare_lift_bind; [intros first_ports Hfirst|exact Hup].
  eapply hoare_bind with (Q := Profiler.services_bounded (n + 10)); [| |auto].
  - eapply hoare_weaken; [intros st H; exact H| |apply fingerprint_services_calls].
    intros st. apply services_bounded_weaken.
    pose proof (first_ten_length _ _ Hfirst). lia.
  - intros _. invariant_steps; reflexivity.
Qed.

Lemma profile_target_calls env ce target depth :
  Profiler.services_bounded 10 (snd (Profiler.profile_target env ce target depth)).
Proof.
  unfold Profiler.profile_target, Profiler.profile_target_body.
  match goal with
  | |- Profiler.services_bounded _ (snd (?m ?st)) =>
      cut (Profiler.hoare (Profiler.services_bounded 0) m (Profiler.services_bounded 10))
  end.
  { intros H. apply H. split; [cbn; lia|]. exists []. split; [reflexivity|cbn; lia]. }
  assert (Hup : forall st, Profiler.services_bounded 0 st ->
                           Profiler.services_bounded 10 st).
  { intros st. apply services_bounded_weaken. lia. }
  eapply hoare_bind with (Q := Profiler.services_bounded 10); [| |auto].
  - unfold Profiler.run_stages.
    eapply hoare_bind; [|intros _|exact Hup].
    { destruct ce; [apply hoare_lift|apply hoare_ret]. }
    cbv zeta.
    eapply hoare_bind; [|intros _|exact Hup].
    { unfold Profiler.step_1_dns. invariant_steps; reflexivity. }
    eapply hoare_bind; [|intros _|exact Hup].
    { unfold Profiler.step_2_scan. invariant_steps; reflexivity. }
    eapply hoare_bind with (Q := Profiler.services_bounded 10); [|intros _|auto].
    { apply (step_3_calls env ce depth _ 0). }
    unfold Profiler.step_4_osint, Profiler.step_5_vulnerabilities.
    invariant_steps; reflexivity.
  - intros _. unfold Profiler.seal_evidence_files, Profiler.closing_log.
    invariant_steps; reflexivity.
Qed.
(** *** The states between the stages *)

Lemma run_steps env ce target depth :
  ce = false \/ Profiler.make_evidence_dir env = Ok tt ->
  exists st1 st2 st3 st4 st5,
    Profiler.step_1_dns env ce (Profiler.parse_target env target)
      (Profiler.initial_state env target depth) = (Ok tt, st1) /\
    Profiler.step_2_scan env ce depth (Profiler.parse_target env target) st1
      = (Ok tt, st2) /\
    Profiler.step_3_fingerprint env ce depth (Profiler.parse_target env target) st2
      = (Ok tt, st3) /\
    Profiler.step_4_osint env ce depth (Profiler.parse_target env target) st3
      = (Ok tt, st4) /\
    Profiler.step_5_vulnerabilities env ce st4 = (Ok tt, st5) /\
    Profiler.run_stages env ce target depth (Profiler.initial_state env target depth)
      = (Ok tt, Profiler.stamped env st5) /\
    let r := fst (Profiler.save_all env (Profiler.evidence_collector st5)) in
    let run := Profiler.profile_target env ce target depth in
    Profiler.trace (snd run)
      = Profiler.trace st5 ++ Profiler.Assign "completed_at" :: sealing_events ce r /\
    Profiler.profile (snd run)
      = sealed_profile ce r (Profiler.profile (Profiler.stamped env st5)) /\
    fst run = (if ce then
                 match r with
                 | Ok _ => Ok (VDict (Profiler.profile (snd run)))
                 | Raise e => Raise e
                 end
               else Ok (VDict (Profiler.profile (snd run)))).
Proof.
  intros Hdir.
  set (st0 := Profiler.initial_state env target depth).
  set (host := Profiler.parse_target env target).
  destruct (step_1_block env ce host st0) as (e1 & st1 & H1 & _).
  destruct (step_2_block env ce depth host st1) as (e2 & st2 & H2 & _).
  destruct (step_3_block env ce depth host st2) as (e3 & st3 & H3 & _).
  destruct (step_4_block env ce depth host st3) as (e4 & st4 & H4 & _).
  destruct (step_5_block env ce st4) as (e5 & st5 & H5 & _).
  pose proof (step_5_risk_is_dict env ce st4) as [d Hd]. rewrite H5 in Hd. simpl in Hd.
  exists st1, st2, st3, st4, st5. repeat (split; [assumption|]).
  assert (Hrun : Profiler.run_stages env ce target depth st0
                 = (Ok tt, Profiler.stamped env st5)).
  { unfold Profiler.run_stages. fold st0. fold host.
    assert (Hmk : (if ce then Profiler.lift (Profiler.make_evidence_dir env)
                   else Profiler.ret tt) st0 = (Ok tt, st0)).
    { destruct Hdir as [-> | Hmk]; [reflexivity|].
      destruct ce; [|reflexivity]. unfold Profiler.lift. rewrite Hmk. reflexivity. }
    rewrite (mbind_ok _ _ _ _ _ Hmk). cbv zeta.
    rewrite (mbind_ok _ _ _ _ _ H1), (mbind_ok _ _ _ _ _ H2),
      (mbind_ok _ _ _ _ _ H3), (mbind_ok _ _ _ _ _ H4), (mbind_ok _ _ _ _ _ H5).
    reflexivity. }
  split; [exact Hrun|].
  assert (Hd' : dict_lookup "risk_assessment"
                  (Profiler.profile (Profiler.stamped env st5)) = Some (VDict d)).
  { unfold Profiler.stamped. cbn [Profiler.profile]. rewrite dict_lookup_set. exact Hd. }
  pose proof (profile_target_after_stages env ce target depth _ d Hrun Hd')
    as (Ht & Hp & Hr).
  cbv zeta. split; [|split; [exact Hp|exact Hr]].
  rewrite Ht. unfold Profiler.stamped. cbn [Profiler.trace Profiler.evidence_collector].
  rewrite <- app_assoc. reflexivity.
Qed.

Lemma stage_block_frame s gate m st st' a :
  Profiler.stage_block s gate m -> m st = (Ok tt, st') ->
  Profiler.attribute_stage a <> Some s ->
  dict_lookup a (Profiler.profile st') = dict_lookup a (Profiler.profile st).
Proof.
  intros Hb Hm Ha. destruct (Hb st) as (evs & st1 & Hm' & _ & Hall & _ & _ & Hf).
  rewrite Hm in Hm'. injection Hm' as <-. apply Hf. apply (not_assigned s); assumption.
Qed.

Lemma stage_block_trace s gate m st st' :
  Profiler.stage_block s gate m -> m st = (Ok tt, st') ->
  exists evs, Profiler.trace st' = Profiler.trace st ++ evs /\
              Forall (Profiler.in_stage s) evs.
Proof.
  intros Hb Hm. destruct (Hb st) as (evs & st1 & Hm' & Ht & Hall & _).
  rewrite Hm in Hm'. injection Hm' as <-. eauto.
Qed.

Lemma sealed_stamped_lookup env ce r st a :
  a <> "completed_at" -> a <> "evidence_sealed" -> a <> "evidence_files" ->
  dict_lookup a (sealed_profile ce r (Profiler.profile (Profiler.stamped env st)))
  = dict_lookup a (Profiler.profile st).
Proof.
  intros H1 H2 H3. rewrite sealed_profile_frame by assumption.
  unfold Profiler.stamped. cbn [Profiler.profile]. rewrite dict_lookup_set.
  destruct (String.eqb a "completed_at") eqn:E; [|reflexivity].
  apply String.eqb_eq in E. contradiction.
Qed.

Lemma allowed_no_collect depth evs :
  Forall (fun e => Profiler.allowed false depth e = true) evs ->
  Profiler.collected_types evs = [] /\
  Forall (fun e => e <> Profiler.Call Profiler.call_save_all /\
                   e <> Profiler.Step Profiler.SEAL /\
                   forall ty, e <> Profiler.Call (Profiler.call_collect ty)) evs.
Proof.
  induction 1 as [|e evs He Hall [IH1 IH2]]; [split; constructor|].
  destruct e as [s|c|a|s m]; cbn [Profiler.collected_types].
  - split; [exact IH1|]. constructor; [|exact IH2].
    repeat split; try discriminate. intros [= ->]. cbn in He. discriminate He.
  - destruct c; try (split; [exact IH1|]; constructor; [|exact IH2];
                     repeat split; discriminate).
    all: cbn in He; discriminate.
  - split; [exact IH1|]. constructor; [|exact IH2]. repeat split; discriminate.
  - split; [exact IH1|]. constructor; [|exact IH2]. repeat split; discriminate.
Qed.

(** *** What a run may do, and what it returns *)

(** X18.  Whatever the collaborators answer, a run logs only events its
    depth and its evidence flag allow.  The scanner is called only at the
    depths standard, full and deep, with scan type ['full'] exactly at depth
    ['deep'] and ['quick'] otherwise; the fingerprinter and the OSINT
    collector are called only at full and deep; [probe_common_paths] only
    at deep; any other depth string runs DNS and the risk stage alone.
    Without [collect_evidence] nothing is collected, saved or sealed. *)
Theorem profile_target_respects_depth_and_flag env ce target depth :
  let evs := Profiler.trace (snd (Profiler.profile_target env ce target depth)) in
  Forall (fun e => Profiler.allowed ce depth e = true) evs /\
  (forall scan_type,
      In (Profiler.Call (Profiler.call_scan_target scan_type)) evs ->
      Profiler.depth_in depth ["standard"; "full"; "deep"] = true /\
      (depth = "deep" /\ scan_type = "full" \/
       depth <> "deep" /\ scan_type = "quick")) /\
  (forall c,
      In (Profiler.Call c) evs ->
      In c [Profiler.call_fingerprint_service; Profiler.call_fingerprint_http;
            Profiler.call_collect_osint] ->
      depth = "full" \/ depth = "deep") /\
  (In (Profiler.Call Profiler.call_probe_common_paths) evs -> depth = "deep") /\
  (Profiler.depth_in depth ["standard"; "full"; "deep"] = false ->
   forall e, In e evs ->
             Profiler.event_stage e = Some Profiler.DNS \/
             Profiler.event_stage e = Some Profiler.RISK \/
             Profiler.event_stage e = Some Profiler.SEAL \/
             e = Profiler.Assign "completed_at") /\
  (ce = false ->
   forall e, In e evs ->
             e <> Profiler.Call Profiler.call_save_all /\
             e <> Profiler.Step Profiler.SEAL /\
             forall ty, e <> Profiler.Call (Profiler.call_collect ty)).
Proof.
  intros evs. pose proof (profile_target_allowed env ce target depth) as Hall.
  fold evs in Hall. split; [exact Hall|].
  rewrite List.Forall_forall in Hall.
  assert (Hfd : Profiler.depth_in depth ["full"; "deep"] = true ->
                depth = "full" \/ depth = "deep").
  { unfold Profiler.depth_in. cbn [existsb]. rewrite orb_false_r.
    intros H. apply orb_true_iff in H. destruct H as [H|H];
      apply String.eqb_eq in H; auto. }
  split; [|split; [|split; [|split]]].
  - intros scan_type Hin. specialize (Hall _ Hin). cbn -[Profiler.depth_in] in Hall.
    apply andb_true_iff in Hall. destruct Hall as [Hd Hs]. split; [exact Hd|].
    apply String.eqb_eq in Hs.
    destruct (String.eqb depth "deep") eqn:E.
    + apply String.eqb_eq in E. auto.
    + apply String.eqb_neq in E. auto.
  - intros c Hin Hc. specialize (Hall _ Hin). apply Hfd.
    cbn [In] in Hc. destruct Hc as [<-|[<-|[<-|[]]]]; exact Hall.
  - intros Hin. specialize (Hall _ Hin). apply String.eqb_eq. exact Hall.
  - intros Hd e Hin. specialize (Hall _ Hin).
    assert (Hfd' : Profiler.depth_in depth ["full"; "deep"] = false).
    { destruct (Profiler.depth_in depth ["full"; "deep"]) eqn:E; [|reflexivity].
      rewrite (depth_in_full_standard _ E) in Hd. discriminate. }
    assert (Hdeep : String.eqb depth "deep" = false).
    { destruct (String.eqb depth "deep") eqn:E; [|reflexivity].
      rewrite (depth_deep _ E) in Hfd'. discriminate. }
    destruct e as [s|c|a|s m].
    + destruct s; cbn -[Profiler.depth_in] in Hall |- *; rewrite ?Hd, ?Hfd' in Hall; auto; discriminate.
    + destruct c; cbn -[Profiler.depth_in] in Hall |- *; rewrite ?Hd, ?Hfd', ?Hdeep in Hall;
        auto; try discriminate.
      apply andb_true_iff in Hall. destruct Hall as [Hall Hs].
      apply andb_true_iff in Hall. destruct Hall as [_ Hty].
      cbn [existsb Profiler.stage_evidence_types] in Hty.
      unfold Profiler.evidence_stage in *.
      destruct (String.eqb evidence_type "dns_resolution"); auto.
      destruct (String.eqb evidence_type "network_scan");
        [cbn -[Profiler.depth_in] in Hs; rewrite Hd in Hs; discriminate|].
      destruct (String.eqb evidence_type "service_fingerprinting");
        [cbn -[Profiler.depth_in] in Hs; rewrite Hfd' in Hs; discriminate|].
      destruct (String.eqb evidence_type "osint");
        [cbn -[Profiler.depth_in] in Hs; rewrite Hfd' in Hs; discriminate|].
      destruct (String.eqb evidence_type "vulnerability_assessment"); auto.
    + cbn -[Profiler.depth_in] in Hall |- *. destruct (Profiler.attribute_stage a) as [[]|] eqn:Ea;
        cbn -[Profiler.depth_in] in Hall; rewrite ?Hd, ?Hfd' in Hall; auto; try discriminate.
      apply String.eqb_eq in Hall. subst a. auto 6.
    + destruct s; cbn -[Profiler.depth_in] in Hall |- *; rewrite ?Hd, ?Hfd' in Hall; auto; discriminate.
  - intros -> e Hin. destruct (allowed_no_collect depth evs) as [_ Hn].
    { apply List.Forall_forall. exact Hall. }
    rewrite List.Forall_forall in Hn. apply (Hn _ Hin).
Qed.
Lemma stages_frame env ce target depth st1 st2 st3 st4 st5 a :
  Profiler.step_1_dns env ce (Profiler.parse_target env target)
    (Profiler.initial_state env target depth) = (Ok tt, st1) ->
  Profiler.step_2_scan env ce depth (Profiler.parse_target env target) st1
    = (Ok tt, st2) ->
  Profiler.step_3_fingerprint env ce depth (Profiler.parse_target env target) st2
    = (Ok tt, st3) ->
  Profiler.step_4_osint env ce depth (Profiler.parse_target env target) st3
    = (Ok tt, st4) ->
  Profiler.step_5_vulnerabilities env ce st4 = (Ok tt, st5) ->
  (Profiler.attribute_stage a = None \/
   Profiler.attribute_stage a = Some Profiler.SEAL) ->
  dict_lookup a (Profiler.profile st5)
  = dict_lookup a (Profiler.new_profile target depth
                     (utcnow_isoformat (Profiler.now env))).
Proof.
  intros H1 H2 H3 H4 H5 Ha.
  rewrite (stage_block_frame _ _ _ _ _ a (step_5_block env ce) H5)
    by (destruct Ha as [-> | ->]; discriminate).
  rewrite (stage_block_frame _ _ _ _ _ a (step_4_block env ce depth _) H4)
    by (destruct Ha as [-> | ->]; discriminate).
  rewrite (stage_block_frame _ _ _ _ _ a (step_3_block env ce depth _) H3)
    by (destruct Ha as [-> | ->]; discriminate).
  rewrite (stage_block_frame _ _ _ _ _ a (step_2_block env ce depth _) H2)
    by (destruct Ha as [-> | ->]; discriminate).
  rewrite (stage_block_frame _ _ _ _ _ a (step_1_block env ce _) H1)
    by (destruct Ha as [-> | ->]; discriminate).
  reflexivity.
Qed.

(** X19.  Without evidence collection [profile_target] never raises,
    whatever the collaborators do: every stage keeps its own failure.  It
    returns the profile with the target and the depth it was given and the
    completion stamp, with [evidence_sealed] still [False] and no evidence
    file, and with a risk assessment that is a dict.  [quick_profile] is
    such a run, at depth ['basic']. *)
Theorem profile_target_without_evidence_returns env target depth :
  let run := Profiler.profile_target env false target depth in
  fst run = Ok (VDict (Profiler.profile (snd run))) /\
  dict_lookup "target" (Profiler.profile (snd run)) = Some (VStr target) /\
  dict_lookup "profile_depth" (Profiler.profile (snd run)) = Some (VStr depth) /\
  dict_lookup "completed_at" (Profiler.profile (snd run))
    = Some (VStr (utcnow_isoformat (Profiler.now env))) /\
  dict_lookup "evidence_sealed" (Profiler.profile (snd run)) = Some (VBool false) /\
  dict_lookup "evidence_files" (Profiler.profile (snd run)) = Some (VList []) /\
  (exists d, dict_lookup "risk_assessment" (Profiler.profile (snd run))
             = Some (VDict d)) /\
  Profiler.evidence_items (Profiler.evidence_collector (snd run)) = [] /\
  Profiler.quick_profile env target = Profiler.profile_target env false target "basic".
Proof.
  intros run.
  destruct (run_steps env false target depth (or_introl eq_refl))
    as (st1 & st2 & st3 & st4 & st5 & H1 & H2 & H3 & H4 & H5 & Hrun & Ht & Hp & Hr).
  fold run in Ht, Hp, Hr. cbn [sealed_profile] in Hp.
  assert (Hl : forall a, a <> "completed_at" ->
                 Profiler.attribute_stage a = None \/
                 Profiler.attribute_stage a = Some Profiler.SEAL ->
                 dict_lookup a (Profiler.profile (snd run))
                 = dict_lookup a (Profiler.new_profile target depth
                                    (utcnow_isoformat (Profiler.now env)))).
  { intros a Hc Ha. rewrite Hp. unfold Profiler.stamped. cbn [Profiler.profile].
    rewrite dict_lookup_set. destruct (String.eqb a "completed_at") eqn:E;
      [apply String.eqb_eq in E; contradiction|].
    apply (stages_frame env false target depth st1 st2 st3 st4 st5); assumption. }
  split; [exact Hr|].
  split; [rewrite Hl; [reflexivity|discriminate|left; reflexivity]|].
  split; [rewrite Hl; [reflexivity|discriminate|left; reflexivity]|].
  split; [rewrite Hp; unfold Profiler.stamped; cbn [Profiler.profile];
          rewrite dict_lookup_set; reflexivity|].
  split; [rewrite Hl; [reflexivity|discriminate|right; reflexivity]|].
  split; [rewrite Hl; [reflexivity|discriminate|right; reflexivity]|].
  split.
  { pose proof (step_5_risk_is_dict env false st4) as [d Hd]. rewrite H5 in Hd.
    cbn [snd] in Hd. exists d. rewrite Hp. unfold Profiler.stamped.
    cbn [Profiler.profile]. rewrite dict_lookup_set. exact Hd. }
  split; [|reflexivity].
  pose proof (profile_target_items env false target depth) as Hi.
  fold run in Hi. unfold Profiler.items_follow_trace in Hi.
  destruct (allowed_no_collect depth (Profiler.trace (snd run))) as [Hc _].
  { apply profile_target_allowed. }
  rewrite Hc in Hi. cbn [map] in Hi. apply map_eq_nil in Hi. exact Hi.
Qed.

(** X20.  At most ten services are fingerprinted in a run, however many
    ports the scan found open: [fingerprint_service] is called at most ten
    times, and [profile.services] is a list with at most one entry per
    call. *)
Theorem profile_target_fingerprints_at_most_ten env ce target depth :
  let run := Profiler.profile_target env ce target depth in
  Profiler.fingerprint_service_calls (Profiler.trace (snd run)) <= 10 /\
  exists services,
    dict_lookup "services" (Profiler.profile (snd run)) = Some (VList services) /\
    List.length services
    <= Profiler.fingerprint_service_calls (Profiler.trace (snd run)) /\
    List.length services <= 10.
Proof.
  intros run. destruct (profile_target_calls env ce target depth) as (H & l & Hl & Hn).
  fold run in H, Hl, Hn. split; [exact H|]. exists l. repeat split; auto. lia.
Qed.

(** X21.  With evidence collection, a run whose evidence directory cannot
    be created raises that error before any stage is entered: nothing is
    logged, no collaborator is called and the profile is never returned. *)
Theorem profile_target_without_evidence_dir_raises env target depth e :
  Profiler.make_evidence_dir env = Raise e ->
  Profiler.profile_target env true target depth
  = (Raise e, Profiler.initial_state env target depth).
Proof.
  intros H. unfold Profiler.profile_target, Profiler.profile_target_body,
    Profiler.run_stages, Profiler.mbind, Profiler.lift.
  rewrite H. reflexivity.
Qed.

Lemma profile_target_without_evidence_dir_raises_witness :
  Profiler.profile_target Examples.lab_read_only true "example.com" "full"
  = (Raise (Exn OSError "[Errno 30] Read-only file system: 'evidence'"),
     Profiler.initial_state Examples.lab_read_only "example.com" "full").
Proof.
  apply (profile_target_without_evidence_dir_raises Examples.lab_read_only).
  reflexivity.
Defined.

(** *** When a stage fails *)

Lemma step_2_scan_fails env ce depth host st :
  Profiler.depth_in depth ["standard"; "full"; "deep"] = true ->
  (forall h scan_type, exists e, Profiler.scan_target env h scan_type = Raise e) ->
  exists message,
    dict_lookup "network_scan"
      (Profiler.profile (snd (Profiler.step_2_scan env ce depth host st)))
    = Some (VDict [("error", VStr message)]) /\
    In (Profiler.LogError Profiler.SCAN message)
       (Profiler.trace (snd (Profiler.step_2_scan env ce depth host st))).
Proof.
  intros Hd Hscan. unfold Profiler.step_2_scan. rewrite Hd.
  unfold Profiler.mbind, Profiler.emit, Profiler.try_catch, Profiler.attr,
    Profiler.lift, Profiler.calling, Profiler.assign, Profiler.ret.
  cbn [Profiler.profile Profiler.trace Profiler.evidence_collector].
  assert (Hfin : forall e t,
             exists message,
               dict_lookup "network_scan"
                 (dict_set "network_scan" (VDict [("error", VStr (str_exn e))])
                    (Profiler.profile st))
               = Some (VDict [("error", VStr message)]) /\
               In (Profiler.LogError Profiler.SCAN message)
                  ((t ++ [Profiler.LogError Profiler.SCAN (str_exn e)])
                   ++ [Profiler.Assign "network_scan"])).
  { intros e t. exists (str_exn e). split; [apply dict_lookup_set|].
    apply in_or_app. left. apply in_or_app. right. left. reflexivity. }
  destruct (get _ "a_records" VNone) as [a_records|e1];
    [|cbn [snd Profiler.profile Profiler.trace]; apply Hfin].
  destruct (truthy a_records).
  - destruct (let* records := getitem _ "a_records" in index_0 records) as [h|e2];
      [|cbn [snd Profiler.profile Profiler.trace]; apply Hfin].
    cbv zeta.
    destruct (Hscan h (if String.eqb depth "deep" then "full" else "quick")) as [e ->].
    cbn [snd Profiler.profile Profiler.trace]. apply Hfin.
  - cbv zeta.
    destruct (Hscan host (if String.eqb depth "deep" then "full" else "quick")) as [e ->].
    cbn [snd Profiler.profile Profiler.trace]. apply Hfin.
Qed.

(** The fingerprinting stage on a scan record that lists no open port. *)
Lemma step_3_without_ports env ce depth host st d :
  dict_lookup "network_scan" (Profiler.profile st) = Some (VDict d) ->
  dict_lookup "open_ports" d = None ->
  Profiler.profile (snd (Profiler.step_3_fingerprint env ce depth host st))
  = Profiler.profile st /\
  exists evs,
    Profiler.trace (snd (Profiler.step_3_fingerprint env ce depth host st))
    = Profiler.trace st ++ evs /\
    Forall (fun e => e = Profiler.Step Profiler.FINGERPRINT \/
                     e = Profiler.Call (Profiler.call_collect "service_fingerprinting"))
           evs.
Proof.
  intros Hn Ho. unfold Profiler.step_3_fingerprint.
  destruct (Profiler.depth_in depth ["full"; "deep"]).
  - unfold Profiler.mbind, Profiler.emit, Profiler.try_catch, Profiler.attr,
      Profiler.lift, Profiler.collect_if.
    cbn [Profiler.profile Profiler.trace Profiler.evidence_collector].
    rewrite Hn. cbn [get]. rewrite Ho.
    cbn [Profiler.slice_to_10 firstn bind iterate Profiler.fingerprint_services
         Profiler.ret Profiler.any_port].
    destruct ce; cbn [snd Profiler.profile Profiler.trace]; (split; [reflexivity|]).
    + eexists. rewrite <- app_assoc. split; [reflexivity|].
      constructor; [left; reflexivity|].
      constructor; [right; reflexivity|constructor].
    + eexists. split; [reflexivity|].
      constructor; [left; reflexivity|constructor].
  - cbn [Profiler.ret snd]. split; [reflexivity|]. exists [].
    rewrite app_nil_r. split; [reflexivity|constructor].
Qed.

Lemma in_stage_not_fingerprinter s evs c :
  Forall (Profiler.in_stage s) evs -> s <> Profiler.FINGERPRINT ->
  In c [Profiler.call_fingerprint_service; Profiler.call_fingerprint_http;
        Profiler.call_probe_common_paths] ->
  ~ In (Profiler.Call c) evs.
Proof.
  intros Hall Hs Hc Hin. rewrite List.Forall_forall in Hall.
  specialize (Hall _ Hin). unfold Profiler.in_stage in Hall. cbn in Hall.
  injection Hall as Hall. apply Hs. rewrite <- Hall.
  cbn [In] in Hc. destruct Hc as [<-|[<-|[<-|[]]]]; reflexivity.
Qed.

(** X22.  When the scanner fails at a depth that scans, the run goes on:
    the scan section of the profile holds the error message, which is also
    logged, the risk stage is still entered, and since the failed scan
    lists no open port the fingerprinter is never called and the
    fingerprinting sections keep their empty defaults. *)
Theorem scan_failure_is_recorded env ce target depth :
  ce = false \/ Profiler.make_evidence_dir env = Ok tt ->
  Profiler.depth_in depth ["standard"; "full"; "deep"] = true ->
  (forall host scan_type, exists e, Profiler.scan_target env host scan_type = Raise e) ->
  let run := Profiler.profile_target env ce target depth in
  exists message,
    dict_lookup "network_scan" (Profiler.profile (snd run))
    = Some (VDict [("error", VStr message)]) /\
    In (Profiler.LogError Profiler.SCAN message) (Profiler.trace (snd run)) /\
    In (Profiler.Step Profiler.RISK) (Profiler.trace (snd run)) /\
    dict_lookup "services" (Profiler.profile (snd run)) = Some (VList []) /\
    dict_lookup "http_fingerprint" (Profiler.profile (snd run)) = Some (VDict []) /\
    dict_lookup "discovered_paths" (Profiler.profile (snd run)) = Some (VList []) /\
    (forall c,
        In c [Profiler.call_fingerprint_service; Profiler.call_fingerprint_http;
              Profiler.call_probe_common_paths] ->
        ~ In (Profiler.Call c) (Profiler.trace (snd run))).
Proof.
  intros Hdir Hd Hscan run.
  destruct (run_steps env ce target depth Hdir)
    as (st1 & st2 & st3 & st4 & st5 & H1 & H2 & H3 & H4 & H5 & Hrun & Ht & Hp & Hr).
  fold run in Ht, Hp, Hr.
  set (host := Profiler.parse_target env target) in *.
  set (st0 := Profiler.initial_state env target depth) in *.
  destruct (step_2_scan_fails env ce depth host st1 Hd Hscan) as (message & Hns & Hlog).
  rewrite H2 in Hns, Hlog. cbn [snd] in Hns, Hlog.
  destruct (step_3_without_ports env ce depth host st2 _ Hns eq_refl)
    as (Hp3 & evs3 & Ht3 & Hall3).
  rewrite H3 in Hp3, Ht3. cbn [snd] in Hp3, Ht3.
  destruct (stage_block_trace _ _ _ _ _ (step_1_block env ce host) H1) as (e1 & T1 & A1).
  destruct (stage_block_trace _ _ _ _ _ (step_2_block env ce depth host) H2)
    as (e2 & T2 & A2).
  destruct (stage_block_trace _ _ _ _ _ (step_4_block env ce depth host) H4)
    as (e4 & T4 & A4).
  destruct (stage_block_trace _ _ _ _ _ (step_5_block env ce) H5) as (e5 & T5 & A5).
  destruct (step_5_block env ce st4) as (e5' & st5' & H5' & T5' & _ & G5 & _).
  rewrite H5 in H5'. injection H5' as <-.
  assert (Hlate : forall a,
             Profiler.attribute_stage a = Some Profiler.SCAN \/
             Profiler.attribute_stage a = Some Profiler.FINGERPRINT ->
             a <> "completed_at" -> a <> "evidence_sealed" -> a <> "evidence_files" ->
             dict_lookup a (Profiler.profile (snd run))
             = dict_lookup a (Profiler.profile st2)).
  { intros a Ha N1 N2 N3. rewrite Hp, sealed_stamped_lookup by assumption.
    rewrite (stage_block_frame _ _ _ _ _ a (step_5_block env ce) H5)
      by (destruct Ha as [-> | ->]; discriminate).
    rewrite (stage_block_frame _ _ _ _ _ a (step_4_block env ce depth _) H4)
      by (destruct Ha as [-> | ->]; discriminate).
    rewrite Hp3. reflexivity. }
  assert (Hearly : forall a,
             Profiler.attribute_stage a = Some Profiler.FINGERPRINT ->
             dict_lookup a (Profiler.profile st2)
             = dict_lookup a (Profiler.new_profile target depth
                                (utcnow_isoformat (Profiler.now env)))).
  { intros a Ha.
    rewrite (stage_block_frame _ _ _ _ _ a (step_2_block env ce depth _) H2)
      by (rewrite Ha; discriminate).
    rewrite (stage_block_frame _ _ _ _ _ a (step_1_block env ce _) H1)
      by (rewrite Ha; discriminate).
    reflexivity. }
  exists message.
  split; [rewrite Hlate; [exact Hns|left; reflexivity|discriminate..]|].
  split.
  { rewrite Ht, T5, T4, Ht3. repeat (apply in_or_app; left). exact Hlog. }
  split.
  { rewrite Ht, T5'. apply in_or_app. left. apply in_or_app. right. apply G5.
    reflexivity. }
  split; [rewrite Hlate, Hearly; [reflexivity..|right; reflexivity|discriminate
                                 |discriminate|discriminate]|].
  split; [rewrite Hlate, Hearly; [reflexivity..|right; reflexivity|discriminate
                                 |discriminate|discriminate]|].
  split; [rewrite Hlate, Hearly; [reflexivity..|right; reflexivity|discriminate
                                 |discriminate|discriminate]|].
  intros c Hc Hin. rewrite Ht, T5, T4, Ht3, T2, T1 in Hin.
  unfold st0 in Hin. cbn [Profiler.initial_state Profiler.trace app] in Hin.
  repeat (apply in_app_or in Hin; destruct Hin as [Hin|Hin]).
  - exact (in_stage_not_fingerprinter _ _ _ A1 ltac:(discriminate) Hc Hin).
  - exact (in_stage_not_fingerprinter _ _ _ A2 ltac:(discriminate) Hc Hin).
  - rewrite List.Forall_forall in Hall3. destruct (Hall3 _ Hin) as [E|E];
      [discriminate E|].
    injection E as ->. cbn [In] in Hc. destruct Hc as [E|[E|[E|[]]]]; discriminate E.
  - exact (in_stage_not_fingerprinter _ _ _ A4 ltac:(discriminate) Hc Hin).
  - exact (in_stage_not_fingerprinter _ _ _ A5 ltac:(discriminate) Hc Hin).
  - destruct Hin as [E|Hin]; [discriminate E|].
    pose proof (sealing_events_in_seal ce
                  (fst (Profiler.save_all env (Profiler.evidence_collector st5)))) as Hs.
    rewrite List.Forall_forall in Hs. specialize (Hs _ Hin). cbn [In] in Hs.
    destruct Hs as [E|[E|[E|[E|[]]]]]; try discriminate E.
    injection E as <-. cbn [In] in Hc. destruct Hc as [E|[E|[E|[]]]]; discriminate E.
Qed.

Lemma scan_failure_is_recorded_witness :
  let run := Profiler.profile_target Examples.lab_unreachable true
               "example.com" "full" in
  exists message,
    dict_lookup "network_scan" (Profiler.profile (snd run))
    = Some (VDict [("error", VStr message)]) /\
    In (Profiler.LogError Profiler.SCAN message) (Profiler.trace (snd run)) /\
    In (Profiler.Step Profiler.RISK) (Profiler.trace (snd run)) /\
    dict_lookup "services" (Profiler.profile (snd run)) = Some (VList []) /\
    dict_lookup "http_fingerprint" (Profiler.profile (snd run)) = Some (VDict []) /\
    dict_lookup "discovered_paths" (Profiler.profile (snd run)) = Some (VList []) /\
    (forall c,
        In c [Profiler.call_fingerprint_service; Profiler.call_fingerprint_http;
              Profiler.call_probe_common_paths] ->
        ~ In (Profiler.Call c) (Profiler.trace (snd run))).
Proof.
  apply (scan_failure_is_recorded Examples.lab_unreachable true "example.com" "full").
  - right. reflexivity.
  - reflexivity.
  - intros host scan_type. eexists. reflexivity.
Defined.
(** *** Which host is scanned *)

Lemma step_1_dns_fails env ce host st e :
  Profiler.resolve_target env host = Raise e ->
  dict_lookup "dns_info" (Profiler.profile (snd (Profiler.step_1_dns env ce host st)))
  = Some (VDict [("error", VStr (str_exn e))]).
Proof.
  intros H.
  unfold Profiler.step_1_dns, Profiler.mbind, Profiler.emit, Profiler.try_catch,
    Profiler.calling, Profiler.assign.
  cbn [Profiler.profile Profiler.trace Profiler.evidence_collector fst snd].
  rewrite H. cbn [snd Profiler.profile]. apply dict_lookup_set.
Qed.

Lemma step_2_scans env ce depth host st dns_info h scan :
  Profiler.depth_in depth ["standard"; "full"; "deep"] = true ->
  dict_lookup "dns_info" (Profiler.profile st) = Some dns_info ->
  (let* a_records := get dns_info "a_records" VNone in
   if truthy a_records
   then let* records := getitem dns_info "a_records" in index_0 records
   else Ok host) = Ok h ->
  Profiler.scan_target env h (if String.eqb depth "deep" then "full" else "quick")
  = Ok scan ->
  dict_lookup "network_scan"
    (Profiler.profile (snd (Profiler.step_2_scan env ce depth host st)))
  = Some scan.
Proof.
  intros Hd Hdns Hh Hscan. unfold Profiler.step_2_scan. rewrite Hd.
  unfold Profiler.mbind, Profiler.emit, Profiler.try_catch, Profiler.attr,
    Profiler.lift, Profiler.calling, Profiler.assign, Profiler.ret,
    Profiler.collect_if.
  cbn [Profiler.profile Profiler.trace Profiler.evidence_collector].
  rewrite Hdns.
  destruct (get dns_info "a_records" VNone) as [a_records|e1];
    cbn [bind] in Hh; [|discriminate].
  destruct (truthy a_records).
  - rewrite Hh. cbv zeta. rewrite Hscan.
    destruct ce; cbn [snd Profiler.profile]; apply dict_lookup_set.
  - injection Hh as <-. cbv zeta. rewrite Hscan.
    destruct ce; cbn [snd Profiler.profile]; apply dict_lookup_set.
Qed.

(** X23.  The scanner is pointed at the first A record when the DNS stage
    found one, and at the target host as parsed otherwise: when the answer
    has no A record, and when resolution failed.  The record the scanner
    returns for that host is the scan section of the profile at the end of
    the run. *)
Theorem scan_follows_dns env ce target depth :
  ce = false \/ Profiler.make_evidence_dir env = Ok tt ->
  Profiler.depth_in depth ["standard"; "full"; "deep"] = true ->
  let run := Profiler.profile_target env ce target depth in
  let host := Profiler.parse_target env target in
  let scan_type := if String.eqb depth "deep" then "full" else "quick" in
  (forall dns first rest scan,
      Profiler.resolve_target env host = Ok (VDict dns) ->
      dict_lookup "a_records" dns = Some (VList (first :: rest)) ->
      Profiler.scan_target env first scan_type = Ok scan ->
      dict_lookup "network_scan" (Profiler.profile (snd run)) = Some scan) /\
  (forall dns scan,
      Profiler.resolve_target env host = Ok (VDict dns) ->
      dict_lookup "a_records" dns = None \/
      dict_lookup "a_records" dns = Some (VList []) ->
      Profiler.scan_target env host scan_type = Ok scan ->
      dict_lookup "network_scan" (Profiler.profile (snd run)) = Some scan) /\
  (forall e scan,
      Profiler.resolve_target env host = Raise e ->
      Profiler.scan_target env host scan_type = Ok scan ->
      dict_lookup "network_scan" (Profiler.profile (snd run)) = Some scan).
Proof.
  intros Hdir Hd run host scan_type.
  destruct (run_steps env ce target depth Hdir)
    as (st1 & st2 & st3 & st4 & st5 & H1 & H2 & H3 & H4 & H5 & Hrun & Ht & Hp & Hr).
  fold run in Ht, Hp, Hr. fold host in H1, H2, H3, H4.
  assert (Hlate : dict_lookup "network_scan" (Profiler.profile (snd run))
                  = dict_lookup "network_scan" (Profiler.profile st2)).
  { rewrite Hp, sealed_stamped_lookup by discriminate.
    rewrite (stage_block_frame _ _ _ _ _ _ (step_5_block env ce) H5) by discriminate.
    rewrite (stage_block_frame _ _ _ _ _ _ (step_4_block env ce depth _) H4)
      by discriminate.
    rewrite (stage_block_frame _ _ _ _ _ _ (step_3_block env ce depth _) H3)
      by discriminate.
    reflexivity. }
  assert (Hst2 : forall dns_info h scan,
             dict_lookup "dns_info" (Profiler.profile st1) = Some dns_info ->
             (let* a_records := get dns_info "a_records" VNone in
              if truthy a_records
              then let* records := getitem dns_info "a_records" in index_0 records
              else Ok host) = Ok h ->
             Profiler.scan_target env h scan_type = Ok scan ->
             dict_lookup "network_scan" (Profiler.profile (snd run)) = Some scan).
  { intros dns_info h scan Hdns Hh Hscan. rewrite Hlate.
    pose proof (step_2_scans env ce depth host st1 dns_info h scan Hd Hdns Hh Hscan)
      as Hs.
    rewrite H2 in Hs. exact Hs. }
  split; [|split].
  - intros dns first rest scan Hres Ha Hscan.
    apply (Hst2 (VDict dns) first scan); [| |exact Hscan].
    + pose proof (step_1_sets_dns_info env ce host _
                    (Profiler.initial_state env target depth) Hres) as Hs.
      rewrite H1 in Hs. exact Hs.
    + cbn [get getitem bind]. rewrite Ha. reflexivity.
  - intros dns scan Hres Ha Hscan.
    apply (Hst2 (VDict dns) host scan); [| |exact Hscan].
    + pose proof (step_1_sets_dns_info env ce host _
                    (Profiler.initial_state env target depth) Hres) as Hs.
      rewrite H1 in Hs. exact Hs.
    + cbn [get bind]. destruct Ha as [-> | ->]; reflexivity.
  - intros e scan Hres Hscan.
    apply (Hst2 (VDict [("error", VStr (str_exn e))]) host scan); [| |exact Hscan].
    + pose proof (step_1_dns_fails env ce host
                    (Profiler.initial_state env target depth) e Hres) as Hs.
      rewrite H1 in Hs. exact Hs.
    + reflexivity.
Qed.

Lemma scan_follows_dns_witness :
  dict_lookup "network_scan"
    (Profiler.profile
       (snd (Profiler.profile_target (Examples.lab Examples.disk_ok) false
               "example.com" "standard")))
  = Some Examples.scan_answer /\
  dict_lookup "network_scan"
    (Profiler.profile
       (snd (Profiler.profile_target Examples.lab_no_dns false
               "example.com" "standard")))
  = Some (VDict [("host", VStr "example.com"); ("scan_type", VStr "quick");
                 ("open_ports", VList [])]).
Proof.
  split.
  - refine (proj1 (scan_follows_dns (Examples.lab Examples.disk_ok) false
                     "example.com" "standard" (or_introl eq_refl) eq_refl)
              _ (VStr "93.184.216.34") [] _ eq_refl eq_refl eq_refl).
  - refine (proj2 (proj2 (scan_follows_dns Examples.lab_no_dns false
                            "example.com" "standard" (or_introl eq_refl) eq_refl))
              _ _ eq_refl eq_refl).
Defined.

(** *** The evidence files of a run *)

Section CollectedInvariant.
Import Profiler.
Variable types : list string.

Lemma within_emit e :
  collected_types [e] = [] ->
  hoare (collected_within types) (emit e) (collected_within types).
Proof.
  intros He st H. unfold collected_within in *. cbn [emit snd trace].
  rewrite collected_types_app, He, app_nil_r. exact H.
Qed.

Lemma within_calling {A} c (r : Py.result A) :
  collected_types [Call c] = [] ->
  hoare (collected_within types) (calling c r) (collected_within types).
Proof.
  intros He st H. unfold collected_within in *. cbn [calling snd trace].
  rewrite collected_types_app, He, app_nil_r. exact H.
Qed.

Lemma within_assign a v :
  hoare (collected_within types) (assign a v) (collected_within types).
Proof.
  intros st H. unfold collected_within in *. cbn [assign snd trace].
  rewrite collected_types_app. cbn [collected_types]. rewrite app_nil_r. exact H.
Qed.

Lemma within_saving_all env :
  hoare (collected_within types) (saving_all env) (collected_within types).
Proof.
  intros st H. unfold collected_within, saving_all in *.
  destruct (save_all env (evidence_collector st)) as [r c]. cbn [snd trace].
  rewrite collected_types_app. cbn [collected_types]. rewrite app_nil_r. exact H.
Qed.

Lemma within_collect_if env ce ty data :
  hoare (collected_within types) (collect_if env ce ty data)
    (collected_within (types ++ [ty])).
Proof.
  intros st H. unfold collected_within, collect_if in *. destruct ce.
  - cbn [snd trace]. rewrite collected_types_app. cbn [collected_types].
    apply sublist_app; [exact H|reflexivity].
  - cbn [ret snd]. apply sublist_inserts_r. exact H.
Qed.

Lemma within_more ty st :
  collected_within types st -> collected_within (types ++ [ty]) st.
Proof. apply sublist_inserts_r. Qed.

End CollectedInvariant.

(** Steps that collect nothing. *)
Ltac within_steps :=
  repeat first
    [ apply hoare_ret | apply hoare_lift | apply hoare_attr
    | apply hoare_to_dict_profile
    | apply within_emit; reflexivity
    | apply within_calling; reflexivity
    | apply within_assign
    | apply within_saving_all
    | eapply hoare_bind; [| intros ? | intros ? ?; eassumption]
    | eapply hoare_try_catch; [| intros ? | intros ? ?; eassumption]
    | match goal with
      | |- Profiler.hoare _ (if ?b then _ else _) _ => destruct b eqn:?
      | |- Profiler.hoare _ (let _ := _ in _) _ => cbv zeta
      end ].

(** The body of a stage: steps that collect nothing, then one [collect]. *)
Ltac within_body :=
  repeat first
    [ apply within_collect_if
    | eapply hoare_bind; [solve [within_steps] | intros ? | apply within_more]
    | match goal with
      | |- Profiler.hoare _ (let _ := _ in _) _ => cbv zeta
      end ].

Lemma fingerprint_services_within types env host ports :
  Profiler.hoare (Profiler.collected_within types)
    (Profiler.fingerprint_services env host ports)
    (Profiler.collected_within types).
Proof.
  induction ports as [|p ports IH]; cbn [Profiler.fingerprint_services].
  - apply hoare_ret.
  - within_steps. exact IH.
Qed.

Lemma step_1_within types env ce host :
  Profiler.hoare (Profiler.collected_within types)
    (Profiler.step_1_dns env ce host)
    (Profiler.collected_within (types ++ ["dns_resolution"])).
Proof.
  unfold Profiler.step_1_dns.
  eapply hoare_bind; [solve [within_steps]|intros _|apply within_more].
  eapply hoare_try_catch with
    (Q := Profiler.collected_within (types ++ ["dns_resolution"]));
    [|intros e; within_steps|auto].
  within_body.
Qed.

Lemma step_2_within types env ce depth host :
  Profiler.hoare (Profiler.collected_within types)
    (Profiler.step_2_scan env ce depth host)
    (Profiler.collected_within (types ++ ["network_scan"])).
Proof.
  unfold Profiler.step_2_scan.
  destruct (Profiler.depth_in depth ["standard"; "full"; "deep"]);
    [|intros st; apply within_more].
  eapply hoare_bind; [solve [within_steps]|intros _|apply within_more].
  eapply hoare_try_catch with
    (Q := Profiler.collected_within (types ++ ["network_scan"]));
    [|intros e; within_steps|auto].
  within_body.
Qed.

Lemma step_3_within types env ce depth host :
  Profiler.hoare (Profiler.collected_within types)
    (Profiler.step_3_fingerprint env ce depth host)
    (Profiler.collected_within (types ++ ["service_fingerprinting"])).
Proof.
  unfold Profiler.step_3_fingerprint.
  destruct (Profiler.depth_in depth ["full"; "deep"]);
    [|intros st; apply within_more].
  eapply hoare_bind; [solve [within_steps]|intros _|apply within_more].
  eapply hoare_try_catch with
    (Q := Profiler.collected_within (types ++ ["service_fingerprinting"]));
    [|intros e; within_steps|auto].
  eapply hoare_bind; [apply hoare_attr|intros network_scan|apply within_more].
  eapply hoare_bind; [apply hoare_lift|intros open_ports|apply within_more].
  eapply hoare_bind; [apply hoare_lift|intros first_ports|apply within_more].
  eapply hoare_bind; [apply fingerprint_services_within|intros _|apply within_more].
  within_body.
Qed.

Lemma step_4_within types env ce depth host :
  Profiler.hoare (Profiler.collected_within types)
    (Profiler.step_4_osint env ce depth host)
    (Profiler.collected_within (types ++ ["osint"])).
Proof.
  unfold Profiler.step_4_osint.
  destruct (Profiler.depth_in depth ["full"; "deep"]);
    [|intros st; apply within_more].
  eapply hoare_bind; [solve [within_steps]|intros _|apply within_more].
  eapply hoare_try_catch with
    (Q := Profiler.collected_within (types ++ ["osint"]));
    [|intros e; within_steps|auto].
  within_body.
Qed.

Lemma step_5_within types env ce :
  Profiler.hoare (Profiler.collected_within types)
    (Profiler.step_5_vulnerabilities env ce)
    (Profiler.collected_within (types ++ ["vulnerability_assessment"])).
Proof.
  unfold Profiler.step_5_vulnerabilities.
  eapply hoare_bind; [solve [within_steps]|intros _|apply within_more].
  eapply hoare_try_catch with
    (Q := Profiler.collected_within (types ++ ["vulnerability_assessment"]));
    [|intros e; within_steps|auto].
  within_body.
Qed.
Lemma run_stages_within env ce target depth :
  Profiler.hoare (Profiler.collected_within [])
    (Profiler.run_stages env ce target depth)
    (Profiler.collected_within Profiler.stage_evidence_types).
Proof.
  unfold Profiler.run_stages.
  assert (Hup : forall l k st, Profiler.collected_within l st ->
                               Profiler.collected_within (l ++ k) st).
  { intros l k st. apply sublist_inserts_r. }
  eapply hoare_bind with (Q := Profiler.collected_within []);
    [destruct ce; [apply hoare_lift|apply hoare_ret]|intros _
    |apply (Hup [] Profiler.stage_evidence_types)].
  cbv zeta.
  eapply hoare_bind; [apply (step_1_within [])|intros _
                     |apply (Hup ["dns_resolution"] (tl Profiler.stage_evidence_types))].
  eapply hoare_bind; [apply (step_2_within ["dns_resolution"])|intros _
                     |apply (Hup ["dns_resolution"; "network_scan"]
                               ["service_fingerprinting"; "osint";
                                "vulnerability_assessment"])].
  eapply hoare_bind; [apply (step_3_within ["dns_resolution"; "network_scan"])|intros _
                     |apply (Hup ["dns_resolution"; "network_scan";
                                  "service_fingerprinting"]
                               ["osint"; "vulnerability_assessment"])].
  eapply hoare_bind; [apply (step_4_within ["dns_resolution"; "network_scan";
                                            "service_fingerprinting"])|intros _
                     |apply (Hup ["dns_resolution"; "network_scan";
                                  "service_fingerprinting"; "osint"]
                               ["vulnerability_assessment"])].
  eapply hoare_bind; [apply (step_5_within ["dns_resolution"; "network_scan";
                                            "service_fingerprinting"; "osint"])
                     |intros _|auto].
  apply within_assign.
Qed.

Lemma run_stages_items env ce target depth :
  Profiler.hoare (Profiler.items_follow_trace env)
    (Profiler.run_stages env ce target depth)
    (Profiler.items_follow_trace env).
Proof.
  unfold Profiler.run_stages, Profiler.step_1_dns, Profiler.step_2_scan,
    Profiler.step_3_fingerprint, Profiler.step_4_osint,
    Profiler.step_5_vulnerabilities.
  invariant_steps; try apply fingerprint_services_items; try reflexivity.
Qed.

Lemma evidence_id_of_inj env ty1 ty2 :
  Profiler.evidence_id_of env ty1 = Profiler.evidence_id_of env ty2 -> ty1 = ty2.
Proof. unfold Profiler.evidence_id_of. apply string_app_inv_tail. Qed.

Lemma NoDup_evidence_ids env types :
  List.NoDup types -> List.NoDup (map (Profiler.evidence_id_of env) types).
Proof.
  induction 1 as [|ty types Hn Hd IH]; cbn [map]; constructor; [|exact IH].
  intros Hin. apply in_map_iff in Hin. destruct Hin as (ty' & He & Hin).
  apply evidence_id_of_inj in He. subst ty'. contradiction.
Qed.

Lemma NoDup_stage_evidence_types : List.NoDup Profiler.stage_evidence_types.
Proof.
  unfold Profiler.stage_evidence_types.
  repeat (constructor; [cbn [In]; intros H;
                        repeat (destruct H as [H|H]; [discriminate H|]); exact H|]).
  constructor.
Qed.

(** X24.  With evidence collection, a run that returns has sealed its
    evidence: [evidence_sealed] is [True] and [evidence_files] lists one
    file per piece of evidence collected, in the order of collection, each
    at [evidence/<id>.sealed].  The evidence collected is at most one piece
    per stage, of the type of the stage and in stage order, so the ids and
    the files are pairwise distinct. *)
Theorem profile_target_evidence_files env target depth p st :
  Profiler.profile_target env true target depth = (Ok p, st) ->
  let types := Profiler.collected_types (Profiler.trace st) in
  p = VDict (Profiler.profile st) /\
  dict_lookup "evidence_sealed" (Profiler.profile st) = Some (VBool true) /\
  dict_lookup "evidence_files" (Profiler.profile st)
  = Some (VList (map (fun ty => VStr ("evidence/" ++ Profiler.evidence_id_of env ty
                                      ++ ".sealed")%string) types)) /\
  sublist types Profiler.stage_evidence_types /\
  List.NoDup types /\
  map (fun ev => (Profiler.evidence_type ev, Profiler.evidence_id ev))
      (Profiler.evidence_items (Profiler.evidence_collector st))
  = map (fun ty => (ty, Profiler.evidence_id_of env ty)) types.
Proof.
  intros Hrun0 types.
  assert (Hdir : Profiler.make_evidence_dir env = Ok tt).
  { destruct (Profiler.make_evidence_dir env) as [[]|e] eqn:E; [reflexivity|].
    exfalso. revert Hrun0.
    unfold Profiler.profile_target, Profiler.profile_target_body,
      Profiler.run_stages, Profiler.mbind, Profiler.lift.
    rewrite E. discriminate. }
  destruct (run_steps env true target depth (or_intror Hdir))
    as (st1 & st2 & st3 & st4 & st5 & H1 & H2 & H3 & H4 & H5 & Hrun & Ht & Hp & Hr).
  rewrite Hrun0 in Ht, Hp, Hr. cbn [fst snd] in Ht, Hp, Hr.
  destruct (Profiler.save_all env (Profiler.evidence_collector st5))
    as [[saved|e] c'] eqn:Esave; cbn [fst] in Ht, Hp, Hr; [|discriminate Hr].
  injection Hr as ->.
  (* the trace and the collector before sealing *)
  pose proof (run_stages_items env true target depth
                (Profiler.initial_state env target depth) eq_refl) as Hitems.
  pose proof (run_stages_within env true target depth
                (Profiler.initial_state env target depth) (sublist_nil_l _)) as Hwithin.
  rewrite Hrun in Hitems, Hwithin. cbn [snd] in Hitems, Hwithin.
  unfold Profiler.items_follow_trace, Profiler.collected_within, Profiler.stamped in *.
  cbn [Profiler.trace Profiler.evidence_collector] in Hitems, Hwithin.
  assert (Htypes : types = Profiler.collected_types
                             (Profiler.trace st5 ++ [Profiler.Assign "completed_at"])).
  { unfold types. rewrite Ht. cbn [sealing_events].
    rewrite !collected_types_app. cbn [Profiler.collected_types].
    rewrite !app_nil_r. reflexivity. }
  rewrite <- Htypes in Hitems, Hwithin.
  assert (Hnd : List.NoDup types).
  { apply NoDup_ListNoDup. eapply sublist_NoDup; [|exact Hwithin].
    apply NoDup_ListNoDup, NoDup_stage_evidence_types. }
  assert (Hids : map Profiler.evidence_id
                   (Profiler.evidence_items (Profiler.evidence_collector st5))
                 = map (Profiler.evidence_id_of env) types).
  { apply (f_equal (map snd)) in Hitems. rewrite !map_map in Hitems. exact Hitems. }
  destruct (save_all_ok _ _ _ _ Esave) as (_ & _ & _ & _ & _ & Hexact).
  specialize (Hexact ltac:(rewrite Hids; apply NoDup_evidence_ids; exact Hnd)).
  subst saved.
  split; [reflexivity|].
  split; [rewrite Hp; cbn [sealed_profile]; rewrite !dict_lookup_set; reflexivity|].
  split.
  { rewrite Hp. cbn [sealed_profile]. rewrite dict_lookup_set.
    rewrite String.eqb_refl. do 2 f_equal. rewrite map_map. cbn [snd].
    unfold Profiler.sealed_path.
    rewrite <- (map_map Profiler.evidence_id
                  (fun k => VStr ("evidence/" ++ k ++ ".sealed")%string)).
    rewrite Hids, map_map. reflexivity. }
  split; [exact Hwithin|]. split; [exact Hnd|].
  pose proof (profile_target_items env true target depth) as Hfin.
  rewrite Hrun0 in Hfin. exact Hfin.
Qed.

Lemma profile_target_evidence_files_witness :
  exists p st,
    Profiler.profile_target (Examples.lab Examples.disk_ok) true "example.com" "standard"
    = (Ok p, st) /\
    Profiler.collected_types (Profiler.trace st)
    = ["dns_resolution"; "network_scan"; "vulnerability_assessment"] /\
    dict_lookup "evidence_files" (Profiler.profile st)
    = Some (VList (map (fun ty => VStr ("evidence/"
                                        ++ Profiler.evidence_id_of
                                             (Examples.lab Examples.disk_ok) ty
                                        ++ ".sealed")%string)
                     (Profiler.collected_types (Profiler.trace st)))).
Proof.
  eexists. eexists. split; [vm_compute; reflexivity|]. split; [vm_compute; reflexivity|].
  eapply (profile_target_evidence_files (Examples.lab Examples.disk_ok)
            "example.com" "standard").
  vm_compute. reflexivity.
Defined.

(** ** The matcher against the language of a pattern *)

Lemma string_app_nil_inv (s1 s2 : string) :
  (s1 ++ s2)%string = "" -> s1 = "" /\ s2 = "".
Proof. destruct s1; [rewrite append_nil; auto|rewrite append_cons; discriminate]. Qed.

Lemma string_app_assoc (a b c : string) :
  ((a ++ b) ++ c)%string = (a ++ (b ++ c))%string.
Proof.
  induction a as [|x a IH]; [reflexivity|]. rewrite !append_cons, IH. reflexivity.
Qed.

Lemma string_app_nil_r (s : string) : (s ++ "")%string = s.
Proof.
  induction s as [|x s IH]; [reflexivity|]. rewrite append_cons, IH. reflexivity.
Qed.

Lemma nullable_lang r : Re.nullable r = true <-> Re.lang r "".
Proof.
  induction r as [| |p|r1 IH1 r2 IH2|r1 IH1 r2 IH2|r IH|n r IH]; cbn [Re.nullable].
  - split; [discriminate|inversion 1].
  - split; [constructor|reflexivity].
  - split; [discriminate|inversion 1].
  - rewrite andb_true_iff, IH1, IH2. split.
    + intros [H1 H2]. apply (Re.lang_Seq _ _ "" "" H1 H2).
    + inversion 1 as [| |? ? s1 s2 H1 H2 E1 E2| | | | | |]; subst.
      destruct (string_app_nil_inv _ _ E2) as [-> ->]. auto.
  - rewrite orb_true_iff, IH1, IH2. split.
    + intros [H|H]; [apply Re.lang_Alt_l|apply Re.lang_Alt_r]; exact H.
    + inversion 1; subst; auto.
  - split; [constructor|reflexivity].
  - split; [constructor|reflexivity].
Qed.

(** A non-empty match of [r*] starts with a non-empty match of [r]. *)
Lemma lang_Star_cons r c s :
  Re.lang (Re.Star r) (String c s) ->
  exists s1 s2, s = (s1 ++ s2)%string /\ Re.lang r (String c s1) /\
                Re.lang (Re.Star r) s2.
Proof.
  intros H. remember (Re.Star r) as r' eqn:Er. remember (String c s) as t eqn:Et.
  revert c s Et. induction H as [| | | | | |r0 s1 s2 H1 _ H2 IH2| |]; intros a t Et;
    try discriminate.
  injection Er as ->. destruct s1 as [|c1 s1].
  - rewrite append_nil in Et. apply (IH2 eq_refl _ _ Et).
  - rewrite append_cons in Et. injection Et as -> <-. eauto.
Qed.

Lemma lang_Upto_more n r s :
  Re.lang (Re.Upto n r) s -> Re.lang (Re.Upto (S n) r) s.
Proof.
  intros H. remember (Re.Upto n r) as u eqn:Eu. revert n Eu.
  induction H as [| | | | | | |n0 r0|n0 r0 s1 s2 H1 _ H2 IH2]; intros m Eu;
    try discriminate.
  - constructor.
  - injection Eu as <- ->. apply Re.lang_Upto_app; [exact H1|]. apply IH2. reflexivity.
Qed.

Lemma lang_Upto_cons n r c s :
  Re.lang (Re.Upto n r) (String c s) ->
  exists n' s1 s2, n = S n' /\ s = (s1 ++ s2)%string /\
                   Re.lang r (String c s1) /\ Re.lang (Re.Upto n' r) s2.
Proof.
  intros H. remember (Re.Upto n r) as r' eqn:Er. remember (String c s) as t eqn:Et.
  revert n c s Er Et.
  induction H as [| | | | | | | |n0 r0 s1 s2 H1 _ H2 IH2]; intros m a t Er Et;
    try discriminate.
  injection Er as <- ->. destruct s1 as [|c1 s1].
  - rewrite append_nil in Et.
    destruct (IH2 _ _ _ eq_refl Et) as (n' & t1 & t2 & -> & -> & Ha & Hb).
    exists (S n'), t1, t2. repeat split; auto. apply lang_Upto_more. exact Hb.
  - rewrite append_cons in Et. injection Et as -> <-. eauto 10.
Qed.

Lemma deriv_lang r : forall c s, Re.lang (Re.deriv c r) s <-> Re.lang r (String c s).
Proof.
  induction r as [| |p|r1 IH1 r2 IH2|r1 IH1 r2 IH2|r IH|n r IH]; intros c s;
    cbn [Re.deriv].
  - split; inversion 1.
  - split; inversion 1.
  - destruct (p c) eqn:E; split; inversion 1; subst.
    + constructor. exact E.
    + constructor.
    + congruence.
  - assert (Hseq : Re.lang (Re.Seq (Re.deriv c r1) r2) s ->
                   Re.lang (Re.Seq r1 r2) (String c s)).
    { inversion 1 as [| |? ? s1 s2 H1 H2| | | | | |]; subst.
      apply IH1 in H1. apply (Re.lang_Seq _ _ (String c s1) s2 H1 H2). }
    assert (Hinv : Re.lang (Re.Seq r1 r2) (String c s) ->
                   Re.lang (Re.Seq (Re.deriv c r1) r2) s \/
                   (Re.lang r1 "" /\ Re.lang r2 (String c s))).
    { inversion 1 as [| |? ? s1 s2 H1 H2 E1 E2| | | | | |]; subst.
      destruct s1 as [|c1 s1].
      - right. rewrite append_nil in E2. subst s2. auto.
      - left. rewrite append_cons in E2. injection E2 as -> <-.
        constructor; [apply IH1|]; assumption. }
    destruct (Re.nullable r1) eqn:En.
    + split.
      * inversion 1; subst; [auto|].
        apply nullable_lang in En.
        apply (Re.lang_Seq _ _ "" (String c s) En). apply IH2. assumption.
      * intros H. destruct (Hinv H) as [H'|[_ H']];
          [apply Re.lang_Alt_l; exact H'|apply Re.lang_Alt_r, IH2; exact H'].
    + split; [exact Hseq|].
      intros H. destruct (Hinv H) as [H'|[H' _]]; [exact H'|].
      apply nullable_lang in H'. congruence.
  - split.
    + inversion 1; subst; [apply Re.lang_Alt_l, IH1|apply Re.lang_Alt_r, IH2];
        assumption.
    + inversion 1; subst; [apply Re.lang_Alt_l, IH1|apply Re.lang_Alt_r, IH2];
        assumption.
  - split.
    + inversion 1 as [| |? ? s1 s2 H1 H2| | | | | |]; subst.
      apply IH in H1. apply (Re.lang_Star_app _ (String c s1) s2 H1 H2).
    + intros H. destruct (lang_Star_cons _ _ _ H) as (s1 & s2 & -> & H1 & H2).
      constructor; [apply IH|]; assumption.
  - destruct n as [|n].
    + split; [inversion 1|].
      intros H. destruct (lang_Upto_cons _ _ _ _ H) as (n' & _ & _ & E & _).
      discriminate.
    + split.
      * inversion 1 as [| |? ? s1 s2 H1 H2| | | | | |]; subst.
        apply IH in H1. apply (Re.lang_Upto_app _ _ (String c s1) s2 H1 H2).
      * intros H.
        destruct (lang_Upto_cons _ _ _ _ H) as (n' & s1 & s2 & [= <-] & -> & H1 & H2).
        constructor; [apply IH|]; assumption.
Qed.

Lemma accepts_lang r s : Re.accepts r s = true <-> Re.lang r s.
Proof.
  revert r. induction s as [|c s IH]; intros r; cbn [Re.accepts].
  - apply nullable_lang.
  - rewrite IH. apply deriv_lang.
Qed.

(** ** Host names and safe environments *)

Lemma chomp_spec s t :
  Re.chomp s = Some t <-> s = (t ++ Networking.newline)%string.
Proof.
  revert t. induction s as [|c s IH]; intros t.
  - cbn. split; [discriminate|]. destruct t; discriminate.
  - cbn [Re.chomp]. destruct s as [|c' s'].
    + destruct (Ascii.eqb_spec c (ascii_of_nat 10)) as [->|Hc].
      * split.
        -- intros [= <-]. reflexivity.
        -- destruct t as [|a t]; [reflexivity|].
           rewrite append_cons. intros [= _ E]. destruct t; discriminate.
      * split; [discriminate|].
        destruct t as [|a t].
        -- intros [= E]. contradiction.
        -- rewrite append_cons. intros [= _ E]. destruct t; discriminate.
    + destruct (Re.chomp (String c' s')) as [u|] eqn:Eu.
      * clear Eu. pose proof (proj1 (IH u) eq_refl) as Eu. split.
        -- intros [= <-]. rewrite append_cons, <- Eu. reflexivity.
        -- destruct t as [|a t]; [discriminate|].
           rewrite append_cons. intros [= <- E]. rewrite Eu in E.
           apply string_app_inv_tail in E. subst. reflexivity.
      * split; [discriminate|].
        destruct t as [|a t]; [discriminate|].
        rewrite append_cons. intros [= _ E]. apply IH in E. discriminate.
Qed.

Lemma lang_Class_iff p s :
  Re.lang (Re.Class p) s <-> exists c, s = String c "" /\ p c = true.
Proof.
  split.
  - inversion 1; subst. eauto.
  - intros (c & -> & H). constructor. exact H.
Qed.

Lemma lang_Seq_iff r1 r2 s :
  Re.lang (Re.Seq r1 r2) s <->
  exists s1 s2, s = (s1 ++ s2)%string /\ Re.lang r1 s1 /\ Re.lang r2 s2.
Proof.
  split.
  - inversion 1; subst. eauto.
  - intros (s1 & s2 & -> & H1 & H2). constructor; assumption.
Qed.

Lemma lang_Upto_0 r s : Re.lang (Re.Upto 0 r) s <-> s = "".
Proof.
  split; [inversion 1; reflexivity|intros ->; constructor].
Qed.

Lemma lang_Opt_iff r s : Re.lang (Re.Opt r) s <-> s = "" \/ Re.lang r s.
Proof.
  unfold Re.Opt. split.
  - inversion 1 as [| | | | | | |?|? ? s1 s2 H1 H2]; subst; [auto|].
    apply lang_Upto_0 in H2. subst. rewrite string_app_nil_r. auto.
  - intros [->|H]; [constructor|].
    rewrite <- (string_app_nil_r s). apply Re.lang_Upto_app; [exact H|constructor].
Qed.

Lemma lang_Upto_Class n p s :
  Re.lang (Re.Upto n (Re.Class p)) s <->
  String.length s <= n /\ Networking.all_chars p s = true.
Proof.
  revert n. induction s as [|c s IH]; intros n.
  - split; [intros _; cbn; split; [lia|reflexivity]|intros _; constructor].
  - split.
    + intros H. destruct (lang_Upto_cons _ _ _ _ H) as (n' & s1 & s2 & -> & -> & H1 & H2).
      apply lang_Class_iff in H1. destruct H1 as (c' & [= -> ->] & Hp).
      rewrite append_nil in IH |- *. apply IH in H2. destruct H2 as [Hl Ha].
      cbn [String.length Networking.all_chars]. rewrite Hp, Ha. split; [lia|reflexivity].
    + cbn [String.length Networking.all_chars]. intros [Hl Ha].
      apply andb_true_iff in Ha. destruct Ha as [Hp Ha].
      destruct n as [|n]; [lia|].
      apply (Re.lang_Upto_app n _ (String c "") s).
      * constructor. exact Hp.
      * apply IH. split; [lia|exact Ha].
Qed.

Lemma string_snoc (s : string) :
  s = "" \/ exists t d, s = (t ++ String d "")%string.
Proof.
  induction s as [|c s IH]; [auto|]. right. destruct IH as [->|(t & d & ->)].
  - exists "", c. reflexivity.
  - exists (String c t), d. rewrite append_cons. reflexivity.
Qed.

Lemma last_char_snoc s d : Networking.last_char (s ++ String d "") = Some d.
Proof.
  induction s as [|c s IH]; [reflexivity|]. rewrite append_cons.
  cbn [Networking.last_char]. rewrite IH.
  destruct (s ++ String d "")%string eqn:E; [|reflexivity].
  destruct s; discriminate.
Qed.

Lemma all_chars_app p a b :
  Networking.all_chars p (a ++ b) =
  Networking.all_chars p a && Networking.all_chars p b.
Proof.
  induction a as [|c a IH]; [reflexivity|]. rewrite append_cons.
  cbn [Networking.all_chars]. rewrite IH, andb_assoc. reflexivity.
Qed.

Lemma string_length_app (a b : string) :
  String.length (a ++ b) = String.length a + String.length b.
Proof.
  induction a as [|c a IH]; [reflexivity|]. rewrite append_cons.
  cbn [String.length]. rewrite IH. reflexivity.
Qed.

Lemma alnum_alnum_or_hyphen c :
  Networking.alnum c = true -> Networking.alnum_or_hyphen c = true.
Proof. unfold Networking.alnum_or_hyphen. intros ->. reflexivity. Qed.

(** The label pattern matches the labels. *)
Lemma lang_label_re l :
  Re.lang Networking.label_re l <-> Networking.is_label l = true.
Proof.
  unfold Networking.label_re. rewrite lang_Seq_iff. split.
  - intros (s1 & s2 & -> & H1 & H2).
    apply lang_Class_iff in H1. destruct H1 as (c & -> & Hc).
    rewrite append_cons, append_nil.
    apply lang_Opt_iff in H2. destruct H2 as [->|H2].
    + cbn. rewrite Hc, (alnum_alnum_or_hyphen _ Hc). reflexivity.
    + apply lang_Seq_iff in H2. destruct H2 as (m & e & -> & Hm & He).
      apply lang_Upto_Class in Hm. destruct Hm as [Hlen Hall].
      apply lang_Class_iff in He. destruct He as (d & -> & Hd).
      unfold Networking.is_label.
      cbn [Networking.all_chars Networking.last_char String.length].
      assert (E : match (m ++ String d "")%string with
                  | "" => Some c
                  | String _ _ => Networking.last_char (m ++ String d "")
                  end = Some d).
      { rewrite last_char_snoc. destruct m; reflexivity. }
      rewrite E, all_chars_app, string_length_app, Hc, Hall, Hd.
      cbn [Networking.all_chars String.length].
      rewrite (alnum_alnum_or_hyphen _ Hc), (alnum_alnum_or_hyphen _ Hd).
      replace (S (String.length m + 1) <=? 63)%nat with true
        by (symmetry; apply Nat.leb_le; lia).
      reflexivity.
  - destruct l as [|c rest]; [discriminate|].
    unfold Networking.is_label. rewrite !andb_true_iff.
    intros [[[Hc Hlen] Hall] Hlast].
    exists (String c ""), rest. split; [reflexivity|].
    split; [constructor; exact Hc|].
    apply lang_Opt_iff. destruct (string_snoc rest) as [->|(m & d & ->)]; [auto|].
    right. apply lang_Seq_iff. exists m, (String d ""). split; [reflexivity|].
    cbn [Networking.all_chars Networking.last_char String.length] in *.
    rewrite last_char_snoc in Hlast.
    rewrite all_chars_app in Hall. rewrite string_length_app in Hlen.
    apply Nat.leb_le in Hlen. cbn [String.length] in Hlen.
    apply andb_true_iff in Hall. destruct Hall as [_ Hall].
    apply andb_true_iff in Hall. destruct Hall as [Hall _].
    assert (Hd : Networking.alnum d = true).
    { destruct m; exact Hlast. }
    split; [apply lang_Upto_Class; split; [lia|exact Hall]|].
    constructor. exact Hd.
Qed.

(** What [r*] matches is cut into matches of [r]. *)
Lemma lang_Star_iff r s :
  Re.lang (Re.Star r) s <->
  exists parts, Forall (Re.lang r) parts /\ s = String.concat "" parts.
Proof.
  split.
  - intros H. remember (Re.Star r) as r' eqn:Er.
    induction H as [| | | | | |r0 s1 s2 H1 _ H2 IH2| |]; try discriminate.
    + exists []. split; [constructor|reflexivity].
    + injection Er as ->. destruct (IH2 eq_refl) as (parts & Hp & ->).
      exists (s1 :: parts). split; [constructor; assumption|].
      destruct parts as [|p parts]; [apply string_app_nil_r|reflexivity].
  - intros (parts & Hp & ->). induction Hp as [|p parts H1 _ IH].
    + constructor.
    + replace (String.concat "" (p :: parts)) with (p ++ String.concat "" parts)%string.
      * constructor; assumption.
      * destruct parts; [apply string_app_nil_r|reflexivity].
Qed.

Lemma concat_empty_cons p ps :
  String.concat "" (p :: ps) = (p ++ String.concat "" ps)%string.
Proof. destruct ps; [symmetry; apply string_app_nil_r|reflexivity]. Qed.

Lemma concat_dot_snoc labs l :
  String.concat "." (labs ++ [l]) =
  (String.concat "" (map (fun x => x ++ ".")%string labs) ++ l)%string.
Proof.
  induction labs as [|x labs IH]; [reflexivity|].
  cbn [map]. rewrite concat_empty_cons, string_app_assoc, <- IH.
  cbn [app String.concat]. destruct (labs ++ [l]) eqn:E.
  - destruct labs; discriminate.
  - rewrite string_app_assoc. reflexivity.
Qed.

Lemma dotted_labels parts :
  Forall (Re.lang (Re.Seq Networking.label_re (Re.Class Networking.dot))) parts <->
  exists labs, forallb Networking.is_label labs = true /\
               parts = map (fun x => x ++ ".")%string labs.
Proof.
  split.
  - induction 1 as [|p parts Hp _ (labs & Hl & ->)].
    + exists []. split; reflexivity.
    + apply lang_Seq_iff in Hp. destruct Hp as (l & d & -> & Hlab & Hd).
      apply lang_Class_iff in Hd. destruct Hd as (c & -> & Hc).
      unfold Networking.dot in Hc. apply Ascii.eqb_eq in Hc. subst c.
      apply lang_label_re in Hlab.
      exists (l :: labs). cbn [forallb map]. rewrite Hlab, Hl. split; reflexivity.
  - intros (labs & Hl & ->). induction labs as [|l labs IH]; [constructor|].
    cbn [forallb] in Hl. apply andb_true_iff in Hl. destruct Hl as [Hlab Hl].
    cbn [map]. constructor; [|apply IH; exact Hl].
    apply lang_Seq_iff. exists l, ".". split; [reflexivity|].
    split; [apply lang_label_re; exact Hlab|]. constructor. reflexivity.
Qed.

(** The domain pattern matches the labels joined by dots. *)
Lemma lang_domain_re s :
  Re.lang Networking.domain_re s <->
  exists labels, labels <> [] /\ forallb Networking.is_label labels = true /\
                 s = String.concat "." labels.
Proof.
  unfold Networking.domain_re. rewrite lang_Seq_iff. split.
  - intros (s1 & l & -> & H1 & Hlab).
    apply lang_Star_iff in H1. destruct H1 as (parts & Hp & ->).
    apply dotted_labels in Hp. destruct Hp as (labs & Hl & ->).
    apply lang_label_re in Hlab.
    exists (labs ++ [l]). split; [destruct labs; discriminate|].
    split; [|symmetry; apply concat_dot_snoc].
    rewrite forallb_app. cbn [forallb]. rewrite Hl, Hlab. reflexivity.
  - intros (labels & Hne & Hl & ->).
    destruct (exists_last Hne) as (labs & l & ->).
    rewrite forallb_app in Hl. cbn [forallb] in Hl.
    apply andb_true_iff in Hl. destruct Hl as [Hl Hlab].
    rewrite andb_true_r in Hlab.
    exists (String.concat "" (map (fun x => x ++ ".")%string labs)), l.
    split; [apply concat_dot_snoc|].
    split; [|apply lang_label_re; exact Hlab].
    apply lang_Star_iff. eexists. split; [|reflexivity].
    apply dotted_labels. eauto.
Qed.

Lemma match_to_end_iff r s :
  Re.match_to_end r s = true <->
  Re.lang r s \/ exists t, s = (t ++ Networking.newline)%string /\ Re.lang r t.
Proof.
  unfold Re.match_to_end. rewrite orb_true_iff, accepts_lang.
  split; (intros [H|H]; [left; exact H|right]).
  - destruct (Re.chomp s) as [t|] eqn:E; [|discriminate].
    apply chomp_spec in E. apply accepts_lang in H. eauto.
  - destruct H as (t & E & H). apply chomp_spec in E. rewrite E.
    apply accepts_lang. exact H.
Qed.

(** X25.  [is_valid_domain] accepts exactly the strings of at most 253
    characters that are labels joined by single dots (each label 1 to 63
    letters, digits and hyphens, beginning and ending with a letter or a
    digit), or such a name followed by one newline. *)
Theorem is_valid_domain_accepts_dotted_labels domain :
  Networking.is_valid_domain domain = true <->
  String.length domain <= 253 /\
  exists labels,
    labels <> [] /\ forallb Networking.is_label labels = true /\
    (domain = String.concat "." labels \/
     domain = (String.concat "." labels ++ Networking.newline)%string).
Proof.
  unfold Networking.is_valid_domain.
  assert (Hne : forall labels,
             labels <> [] -> forallb Networking.is_label labels = true ->
             String.concat "." labels <> "").
  { intros [|l labels] Hl Hf; [contradiction|].
    cbn [forallb] in Hf. apply andb_true_iff in Hf. destruct Hf as [Hlab _].
    destruct l; [discriminate|]. destruct labels; discriminate. }
  destruct (String.eqb_spec domain "") as [->|Hd]; cbn [orb].
  - split; [discriminate|]. intros (_ & labels & Hl & Hf & [E|E]).
    + symmetry in E. apply Hne in E; auto.
    + symmetry in E. apply string_app_nil_inv in E. destruct E as [_ E]. discriminate.
  - destruct (Nat.ltb_spec 253 (String.length domain)) as [Hlen|Hlen].
    + split; [discriminate|]. intros [Hl _]. lia.
    + rewrite match_to_end_iff. split.
      * intros H. split; [exact Hlen|].
        destruct H as [H|(t & -> & H)]; apply lang_domain_re in H;
          destruct H as (labels & Hl & Hf & ->); eauto 6.
      * intros (_ & labels & Hl & Hf & [->| ->]); [left|right; eexists; split; [reflexivity|]];
          apply lang_domain_re; eauto.
Qed.

Lemma endswith_iff s p :
  Networking.endswith s p = true <-> exists t, s = (t ++ p)%string.
Proof.
  induction s as [|c s IH]; cbn [Networking.endswith].
  - rewrite orb_false_r, String.eqb_eq. split.
    + intros <-. exists "". reflexivity.
    + intros (t & E). symmetry in E. apply string_app_nil_inv in E.
      destruct E as [_ ->]. reflexivity.
  - rewrite orb_true_iff, String.eqb_eq, IH. split.
    + intros [<-|(t & ->)]; [exists ""; reflexivity|].
      exists (String c t). rewrite append_cons. reflexivity.
    + intros ([|a t] & E).
      * left. rewrite append_nil in E. exact E.
      * right. rewrite append_cons in E. injection E as _ ->. eauto.
Qed.

Lemma lower_char_star c : Ascii.eqb "*" (Networking.lower_char c) = Ascii.eqb "*" c.
Proof. destruct c as [[] [] [] [] [] [] [] []]; reflexivity. Qed.

Lemma contains_star_lower p :
  Py.contains "*" (Networking.lower p) = Py.contains "*" p.
Proof.
  induction p as [|c p IH]; [reflexivity|].
  cbn [Networking.lower Py.contains String.prefix]. rewrite IH.
  f_equal. pose proof (lower_char_star c) as H.
  destruct (ascii_dec "*" (Networking.lower_char c)) as [E|E],
           (ascii_dec "*" c) as [E'|E']; try reflexivity.
  - destruct (Networking.lower p), p; reflexivity.
  - rewrite <- E in H. rewrite Ascii.eqb_refl in H. symmetry in H.
    apply Ascii.eqb_eq in H. contradiction.
  - subst c. exfalso. apply E. reflexivity.
Qed.

Lemma endswith_refl s : Networking.endswith s s = true.
Proof. apply endswith_iff. exists "". reflexivity. Qed.

(** One round of the loop of [is_safe_environment]. *)
Lemma is_safe_environment_cons re_match target p rest :
  Networking.is_safe_environment re_match target (p :: rest) =
  if Networking.endswith (Networking.lower target) (Networking.lower p) then Ok true
  else if Py.contains "*" p then
         let* matched := re_match (Networking.wildcard_pattern (Networking.lower p))
                                  (Networking.lower target) in
         if matched then Ok true
         else Networking.is_safe_environment re_match target rest
       else Networking.is_safe_environment re_match target rest.
Proof.
  cbn [Networking.is_safe_environment]. rewrite contains_star_lower.
  destruct (String.eqb_spec (Networking.lower target) (Networking.lower p)) as [E|_].
  - rewrite E, endswith_refl. reflexivity.
  - reflexivity.
Qed.

(** X26.  On a list without [*] entries [is_safe_environment] is a suffix
    test on the lower-cased strings and never consults [re]: it answers
    [True] exactly when the lower-cased target ends with some lower-cased
    entry, whether or not the entry starts at a label of the target. *)
Theorem is_safe_environment_is_suffix_test re_match target safe_list :
  Forall (fun p => Py.contains "*" p = false) safe_list ->
  exists answer,
    Networking.is_safe_environment re_match target safe_list = Ok answer /\
    (answer = true <->
     exists p t, In p safe_list /\
                 Networking.lower target = (t ++ Networking.lower p)%string).
Proof.
  induction 1 as [|p rest Hp _ (answer & IH & Hiff)].
  - exists false. split; [reflexivity|]. split; [discriminate|].
    intros (p & t & [] & _).
  - rewrite is_safe_environment_cons, Hp.
    destruct (Networking.endswith (Networking.lower target) (Networking.lower p))
      eqn:E.
    + exists true. split; [reflexivity|]. split; [|reflexivity]. intros _.
      apply endswith_iff in E. destruct E as (t & E). exists p, t. split; [left|]; auto.
    + exists answer. split; [exact IH|]. rewrite Hiff. split.
      * intros (q & t & Hq & Et). exists q, t. split; [right|]; auto.
      * intros (q & t & [<-|Hq] & Et); [|eauto].
        assert (Networking.endswith (Networking.lower target) (Networking.lower p)
                = true) by (apply endswith_iff; eauto).
        congruence.
Qed.

Lemma is_safe_environment_is_suffix_test_witness :
  exists answer,
    Networking.is_safe_environment (fun _ _ => Raise (Exn RuntimeError "re"))
      "EvilHackTheBox.com" ["tryhackme.com"; "hackthebox.com"] = Ok answer /\
    (answer = true <->
     exists p t, In p ["tryhackme.com"; "hackthebox.com"] /\
                 Networking.lower "EvilHackTheBox.com"
                 = (t ++ Networking.lower p)%string).
Proof.
  apply (is_safe_environment_is_suffix_test _ "EvilHackTheBox.com"
           ["tryhackme.com"; "hackthebox.com"]).
  repeat constructor.
Defined.

(** X27.  [is_safe_environment] answers [False] exactly when no entry is a
    suffix of the target (both lower-cased) and the pattern of every entry
    with a [*] fails to match; it raises only what [re.match] raised on the
    pattern of an entry with a [*]. *)
Theorem is_safe_environment_false_iff re_match target safe_list :
  (Networking.is_safe_environment re_match target safe_list = Ok false <->
   Forall (fun p =>
             Networking.endswith (Networking.lower target) (Networking.lower p)
             = false /\
             (Py.contains "*" p = true ->
              re_match (Networking.wildcard_pattern (Networking.lower p))
                       (Networking.lower target) = Ok false))
          safe_list) /\
  (forall e,
      Networking.is_safe_environment re_match target safe_list = Raise e ->
      exists p, In p safe_list /\ Py.contains "*" p = true /\
                re_match (Networking.wildcard_pattern (Networking.lower p))
                         (Networking.lower target) = Raise e).
Proof.
  induction safe_list as [|p rest [IH1 IH2]].
  - split; [split; [constructor|reflexivity]|discriminate].
  - rewrite is_safe_environment_cons.
    destruct (Networking.endswith (Networking.lower target) (Networking.lower p))
      eqn:E; cbv iota.
    { split; [|discriminate]. split; [discriminate|].
      inversion 1 as [|? ? [H1 _] _]. congruence. }
    destruct (Py.contains "*" p) eqn:Ec; cbv iota.
    + destruct (re_match (Networking.wildcard_pattern (Networking.lower p))
                         (Networking.lower target)) as [[]|e'] eqn:Em; cbn [bind]; cbv iota.
      * split; [|discriminate]. split; [discriminate|].
        inversion 1 as [|? ? [_ H2] _]. specialize (H2 Ec). congruence.
      * split.
        -- rewrite IH1. split.
           ++ intros H. constructor; [split; [exact E|intros _; exact Em]|exact H].
           ++ inversion 1; assumption.
        -- intros e He. destruct (IH2 e He) as (q & Hq & H). exists q. split; [right|]; auto.
      * split.
        -- split; [discriminate|].
           inversion 1 as [|? ? [_ H2] _]. specialize (H2 Ec). congruence.
        -- intros e [= <-]. exists p. split; [left; reflexivity|]. auto.
    + split.
      * rewrite IH1. split.
        -- intros H. constructor; [split; [exact E|congruence]|exact H].
        -- inversion 1; assumption.
      * intros e He. destruct (IH2 e He) as (q & Hq & H). exists q. split; [right|]; auto.
Qed.
